(** * hlfx: ledger bookkeeping of the banking back office

    A shallow embedding of the route handlers that move money or guard
    access: the admin deposit and peer-transfer routes, the customer
    statement, transfer and registration routes, [lib/auth.ts] and
    [lib/accountUtils.ts]; then of the routes around them: login,
    change of password and of PIN, the two transaction lists, the
    update and deletion of a customer, and the site settings.

    Conventions of the embedding
    - A JavaScript [number] is kept abstract behind the class [Number];
      the instance [float_Number] (IEEE 754 binary64, Rocq's primitive
      floats) is what Node and MongoDB compute with, the instance
      [Qc_Number] (canonical rationals) is arithmetic without rounding.
    - A JavaScript string is a Rocq [string], read as a sequence of code
      units below 256.
    - The MongoDB collections are lists in insertion order inside [Db];
      a handler is a computation in the monad [M], which threads the
      database and propagates thrown exceptions to the handler's
      [try]/[catch].
    - bcryptjs and jsonwebtoken are kept abstract in the class
      [Crypto]; [Math.random] is a sequence of draws handed to the
      code that consumes it. *)

From Stdlib Require Import ZArith List String Ascii Bool Arith Lia Sorted.
From Stdlib Require Import Permutation.
From Stdlib Require Import Floats Uint63 QArith Qcanon Qround Lqa.
Import ListNotations.

Set Warnings "-register-all,-inexact-float".
Local Close Scope Qc_scope.
Local Close Scope Q_scope.
Local Open Scope string_scope.
Local Open Scope list_scope.

(* ================================================================= *)
(** ** JavaScript numbers *)

(** The operations the handlers apply to numbers.  [lit q] is the value
    of the decimal literal [q] written in the source. *)
Class Number (N : Type) : Type := {
  lit : Q -> N;
  add : N -> N -> N;          (* x + y *)
  sub : N -> N -> N;          (* x - y *)
  neg : N -> N;               (* -x *)
  mul : N -> N -> N;          (* x * y *)
  ltb : N -> N -> bool;       (* x < y *)
  leb : N -> N -> bool;       (* x <= y *)
  eqb : N -> N -> bool;       (* x === y *)
  isNaN : N -> bool;          (* isNaN(x) *)
  falsy : N -> bool           (* !x : 0, -0 and NaN *)
}.

Definition gtb {N} `{Number N} (x y : N) : bool := ltb y x.   (* x > y *)

(** Facts about the comparisons that hold of doubles and of rationals
    alike. *)
Class NumberOrder (N : Type) `{Number N} : Prop := {
  pos_not_le : forall x, ltb (lit 0) x = true -> leb x (lit 0) = false;
  pos_not_falsy : forall x, ltb (lit 0) x = true -> falsy x = false;
  falsy_nan : forall x, isNaN x = true -> falsy x = true;
  le_not_lt : forall x y, leb x y = true -> ltb y x = false
}.

(** Arithmetic without rounding: the laws an exact number system obeys
    and binary64 does not. *)
Class ExactNumber (N : Type) `{Number N} : Prop := {
  add_comm : forall x y, add x y = add y x;
  add_assoc : forall x y z, add x (add y z) = add (add x y) z;
  add_zero_l : forall x, add (lit 0) x = x;
  add_neg_r : forall x, add x (neg x) = lit 0;
  sub_add_neg : forall x y, sub x y = add x (neg y);
  eqb_refl : forall x, eqb x x = true
}.

(** *** binary64 *)

Definition Z2float (z : Z) : float :=
  match z with
  | Z0 => 0%float
  | Zpos _ => PrimFloat.of_uint63 (Uint63.of_Z z)
  | Zneg p => PrimFloat.opp (PrimFloat.of_uint63 (Uint63.of_Z (Zpos p)))
  end.

(** A literal is rounded to the nearest double: numerator and
    denominator of the literals in the source are exact doubles and
    IEEE division rounds correctly. *)
Definition float_lit (q : Q) : float :=
  PrimFloat.div (Z2float (Qnum q)) (Z2float (Zpos (Qden q))).

#[export] Instance float_Number : Number float := {
  lit := float_lit;
  add := PrimFloat.add;
  sub := PrimFloat.sub;
  neg := PrimFloat.opp;
  mul := PrimFloat.mul;
  ltb := PrimFloat.ltb;
  leb := PrimFloat.leb;
  eqb := PrimFloat.eqb;
  isNaN := PrimFloat.is_nan;
  falsy := fun x => PrimFloat.eqb x 0%float || PrimFloat.is_nan x
}.

(** *** exact rationals *)

#[export] Instance Qc_Number : Number Qc := {
  lit := Q2Qc;
  add := Qcplus;
  sub := Qcminus;
  neg := Qcopp;
  mul := Qcmult;
  ltb := fun x y => negb (Qle_bool (this y) (this x));
  leb := fun x y => Qle_bool (this x) (this y);
  eqb := Qc_eq_bool;
  isNaN := fun _ => false;
  falsy := fun x => Qc_eq_bool x (Q2Qc 0)
}.

(** [parseFloat] on a JSON number: the number is printed and read back.
    Every number that passed the [!amount] test (so neither [0], [-0]
    nor [NaN]) reads back as itself.  The requests of the model carry
    JSON numbers in their amount field. *)
Definition parseFloat {N} (x : N) : N := x.

(* ================================================================= *)
(** ** JavaScript strings *)

Definition falsyStr (s : string) : bool :=      (* !s *)
  match s with EmptyString => true | _ => false end.

(** [a || b] on strings. *)
Definition orElse (a b : string) : string := if falsyStr a then b else a.

Definition code (c : ascii) : nat := nat_of_ascii c.

Definition between (lo hi : nat) (c : ascii) : bool :=
  (lo <=? code c)%nat && (code c <=? hi)%nat.

Definition isDigit (c : ascii) : bool := between 48 57 c.          (* \d *)
Definition isUpper (c : ascii) : bool := between 65 90 c.          (* [A-Z] *)
Definition isLower (c : ascii) : bool := between 97 122 c.         (* [a-z] *)

(** [\s] and the characters [trim] strips: TAB, LF, VT, FF, CR, space
    and U+00A0. *)
Definition isSpace (c : ascii) : bool :=
  between 9 13 c || (code c =? 32)%nat || (code c =? 160)%nat.

(** The line terminators [.] does not match: LF and CR. *)
Definition isLineTerminator (c : ascii) : bool :=
  (code c =? 10)%nat || (code c =? 13)%nat.

(** [toLowerCase] on one code unit: A-Z, and U+00C0-U+00DE without the
    multiplication sign U+00D7. *)
Definition lowerChar (c : ascii) : ascii :=
  if isUpper c || (between 192 222 c && negb (code c =? 215)%nat)
  then ascii_of_nat (code c + 32) else c.

Definition upperChar (c : ascii) : ascii :=
  if isLower c || (between 224 254 c && negb (code c =? 247)%nat)
  then ascii_of_nat (code c - 32) else c.

Fixpoint mapStr (f : ascii -> ascii) (s : string) : string :=
  match s with
  | EmptyString => EmptyString
  | String c r => String (f c) (mapStr f r)
  end.

Definition toLowerCase : string -> string := mapStr lowerChar.
Definition toUpperCase : string -> string := mapStr upperChar.

Fixpoint trimStart (s : string) : string :=
  match s with
  | EmptyString => EmptyString
  | String c r => if isSpace c then trimStart r else s
  end.

Fixpoint trimEnd (s : string) : string :=
  match s with
  | EmptyString => EmptyString
  | String c r =>
      match trimEnd r with
      | EmptyString => if isSpace c then EmptyString else String c EmptyString
      | r' => String c r'
      end
  end.

Definition trim (s : string) : string := trimEnd (trimStart s).

Fixpoint allChars (p : ascii -> bool) (s : string) : bool :=
  match s with
  | EmptyString => true
  | String c r => p c && allChars p r
  end.

Definition lengthBetween (lo hi : nat) (s : string) : bool :=
  (lo <=? String.length s)%nat && (String.length s <=? hi)%nat.

Fixpoint dropStr (n : nat) (s : string) : string :=
  match n, s with
  | O, _ => s
  | S n', String _ r => dropStr n' r
  | S _, EmptyString => EmptyString
  end.

Fixpoint takeStr (n : nat) (s : string) : string :=
  match n, s with
  | S n', String c r => String c (takeStr n' r)
  | _, _ => EmptyString
  end.

(* ================================================================= *)
(** ** Documents and the database *)

Definition ObjectId := nat.

(** The payload a customer token carries ([JWTPayload] of lib/auth.ts). *)
Record JWTPayload : Type := mkPayload {
  customerId : ObjectId;
  jwt_email : string;
  jwt_accountNumber : string
}.

(** bcryptjs and jsonwebtoken; [jwt_verify] is [None] where
    [jwt.verify] throws (bad signature, malformed or expired token). *)
Class Crypto : Type := {
  bcrypt_hash : string -> string;
  bcrypt_compare : string -> string -> bool;
  jwt_sign : JWTPayload -> string;
  jwt_verify : string -> option JWTPayload
}.

Inductive Exn : Type :=
| DuplicateKey            (* MongoServerError, code 11000 *)
| ValidationError
| TypeError
| Failure (msg : string). (* new Error(msg) *)

Inductive Result (A : Type) : Type :=
| Ok (a : A)
| Throw (e : Exn).
Arguments Ok {A} a.
Arguments Throw {A} e.

Section Model.
Context {N : Type} `{Number N}.

(** models/Customer.ts *)
Record Customer : Type := mkCustomer {
  c_id : ObjectId;
  c_firstname : string;
  c_lastname : string;
  c_email : string;
  c_accountNumber : string;
  c_password : string;
  c_phoneNumber : string;
  c_address : string;
  c_city : string;
  c_state : string;
  c_country : string;
  c_postalCode : string;
  c_balance : N;
  c_currency : string;
  c_transactionPin : string
}.

(** models/Transaction.ts, with the [createdAt] of [timestamps: true]. *)
Record Transaction : Type := mkTransaction {
  tx_id : ObjectId;
  tx_fromUserId : ObjectId;
  tx_toUserId : ObjectId;
  tx_amount : N;
  tx_description : string;
  tx_createdAt : Z
}.

Record Db : Type := mkDb {
  customers : list Customer;
  transactions : list Transaction;
  nextId : ObjectId
}.

(** JSON values of request and response bodies. *)
Inductive Json : Type :=
| JUndefined
| JBool (b : bool)
| JNum (n : N)
| JStr (s : string)
| JId (i : ObjectId)
| JNat (n : nat)
| JDate (t : Z)
| JArr (l : list Json)
| JObj (l : list (string * Json)).

Record Response : Type := mkResponse {
  status : nat;
  body : Json
}.

(** [NextResponse.json(body, { status })] *)
Definition json (b : Json) (st : nat) : Response := mkResponse st b.

Fixpoint field (k : string) (l : list (string * Json)) : Json :=
  match l with
  | [] => JUndefined
  | (k', v) :: r => if String.eqb k k' then v else field k r
  end.

(** [body.k] on a response body. *)
Definition get (k : string) (j : Json) : Json :=
  match j with JObj l => field k l | _ => JUndefined end.

(** *** The handler monad: database state and exceptions *)

Definition M (A : Type) : Type := Db -> Result A * Db.

Definition ret {A} (a : A) : M A := fun db => (Ok a, db).

Definition throw {A} (e : Exn) : M A := fun db => (Throw e, db).

Definition bind {A B} (m : M A) (k : A -> M B) : M B :=
  fun db =>
    match m db with
    | (Ok a, db') => k a db'
    | (Throw e, db') => (Throw e, db')
    end.

(** [try { ... } catch (error) { return 500 }] around a handler body:
    the handler always answers, and what was written before the throw
    stays written. *)
Definition run (m : M Response) (db : Db) : Response * Db :=
  match m db with
  | (Ok r, db') => (r, db')
  | (Throw _, db') =>
      (json (JObj [("error", JStr "Internal server error")]) 500, db')
  end.

End Model.

Arguments Customer N : clear implicits.
Arguments Transaction N : clear implicits.
Arguments Db N : clear implicits.
Arguments Json N : clear implicits.
Arguments Response N : clear implicits.
Arguments M N A : clear implicits.

Declare Scope m_scope.
Delimit Scope m_scope with M.
Notation "x <- m ;; k" := (bind m (fun x => k))
  (at level 61, m at next level, right associativity) : m_scope.
Notation "m ;;; k" := (bind m (fun _ => k))
  (at level 61, right associativity) : m_scope.

Local Open Scope m_scope.

(* ================================================================= *)
(** ** Mongoose operations *)

Section Store.
Context {N : Type} `{Number N}.

(** [new ObjectId()]: identifiers are handed out in sequence. *)
Definition newObjectId : M N ObjectId :=
  fun db => (Ok (nextId db),
             mkDb (customers db) (transactions db) (S (nextId db))).

(** The setters of [CustomerSchema]: [trim] on the string fields that
    declare it, [lowercase] on [email]. *)
Definition emailSetter (s : string) : string := toLowerCase (trim s).

(** The lookups behind [findById] and [findOne]: the first document, in
    insertion order, that matches.  A [findOne] filter is cast through
    the schema path, setters included. *)
Definition customerById (db : Db N) (id : ObjectId) : option (Customer N) :=
  find (fun c => c_id c =? id)%nat (customers db).

Definition customerByAccountNumber (db : Db N) (q : string)
  : option (Customer N) :=
  find (fun c => String.eqb (c_accountNumber c) (trim q)) (customers db).

Definition customerByEmail (db : Db N) (q : string) : option (Customer N) :=
  find (fun c => String.eqb (c_email c) (emailSetter q)) (customers db).

(** [Customer.findById(id)] *)
Definition Customer_findById (id : ObjectId) : M N (option (Customer N)) :=
  fun db => (Ok (customerById db id), db).

(** [Customer.findOne({ accountNumber })] *)
Definition Customer_findOne_accountNumber (q : string)
  : M N (option (Customer N)) :=
  fun db => (Ok (customerByAccountNumber db q), db).

(** [Customer.findOne({ email })] *)
Definition Customer_findOne_email (q : string) : M N (option (Customer N)) :=
  fun db => (Ok (customerByEmail db q), db).

(** [new Customer({...})]: a fresh [_id], the setters applied. *)
Definition new_Customer
    (firstname lastname email accountNumber password phoneNumber address
     city state country postalCode : string) (balance : N)
    (currency transactionPin : string) : M N (Customer N) :=
  id <- newObjectId ;;
  ret (mkCustomer id (trim firstname) (trim lastname) (emailSetter email)
         (trim accountNumber) password (trim phoneNumber) (trim address)
         (trim city) (trim state) (trim country) (trim postalCode)
         balance currency transactionPin).

(** The [required] validators of [CustomerSchema]. *)
Definition Customer_valid (c : Customer N) : bool :=
  negb (falsyStr (c_firstname c)) && negb (falsyStr (c_lastname c)) &&
  negb (falsyStr (c_email c)) && negb (falsyStr (c_accountNumber c)) &&
  negb (falsyStr (c_password c)) && negb (falsyStr (c_transactionPin c)).

(** The two [unique: true] indexes. *)
Definition Customer_clashes (c : Customer N) (l : list (Customer N)) : bool :=
  existsb (fun d => String.eqb (c_email d) (c_email c) ||
                    String.eqb (c_accountNumber d) (c_accountNumber c)) l.

(** [doc.save()] of a new customer: validation, then the insert, which
    the unique indexes can refuse. *)
Definition Customer_save (c : Customer N) : M N unit :=
  fun db =>
    if negb (Customer_valid c) then (Throw ValidationError, db)
    else if Customer_clashes c (customers db) then (Throw DuplicateKey, db)
    else (Ok tt, mkDb (customers db ++ [c]) (transactions db) (nextId db)).

Definition set_balance (c : Customer N) (b : N) : Customer N :=
  mkCustomer (c_id c) (c_firstname c) (c_lastname c) (c_email c)
    (c_accountNumber c) (c_password c) (c_phoneNumber c) (c_address c) (c_city c)
    (c_state c) (c_country c) (c_postalCode c) b (c_currency c) (c_transactionPin c).

(** [$inc] on the first document with the given [_id]. *)
Fixpoint inc_balance (id : ObjectId) (d : N) (l : list (Customer N))
  : list (Customer N) :=
  match l with
  | [] => []
  | c :: r => if (c_id c =? id)%nat
              then set_balance c (add (c_balance c) d) :: r
              else c :: inc_balance id d r
  end.

(** [Customer.findByIdAndUpdate(id, { $inc: { balance: d } })] *)
Definition Customer_findByIdAndUpdate_inc (id : ObjectId) (d : N) : M N unit :=
  fun db => (Ok tt, mkDb (inc_balance id d (customers db))
                        (transactions db) (nextId db)).

(** [new Transaction({ fromUserId, toUserId, amount, description })] *)
Definition new_Transaction (from to : ObjectId) (a : N) (descr : string)
  : M N (Transaction N) :=
  id <- newObjectId ;;
  ret (mkTransaction id from to a descr 0%Z).

(** [transaction.save()]: a [NaN] amount fails the cast to Number;
    [createdAt] is stamped with the clock. *)
Definition Transaction_save (now : Z) (t : Transaction N)
  : M N (Transaction N) :=
  fun db =>
    if isNaN (tx_amount t) then (Throw ValidationError, db)
    else
      let t' := mkTransaction (tx_id t) (tx_fromUserId t) (tx_toUserId t)
                  (tx_amount t) (tx_description t) now in
      (Ok t', mkDb (customers db) (transactions db ++ [t']) (nextId db)).

(** A transaction with both references populated; a reference to a
    deleted customer populates to [null]. *)
Record Populated : Type := mkPopulated {
  p_tx : Transaction N;
  p_from : option (Customer N);
  p_to : option (Customer N)
}.

Definition populate (db : Db N) (t : Transaction N) : Populated :=
  mkPopulated t (customerById db (tx_fromUserId t))
    (customerById db (tx_toUserId t)).

(** [Transaction.findById(id).populate(...).populate(...)] *)
Definition Transaction_findById_populated (id : ObjectId)
  : M N (option Populated) :=
  fun db =>
    (Ok (option_map (populate db)
           (find (fun t => tx_id t =? id)%nat (transactions db))), db).

(** What the [_id] index and the [required] validators guarantee of a
    stored collection, and that identifiers still to be handed out are
    not in use. *)
Record wf_db (db : Db N) : Prop := mk_wf_db {
  wf_ids : NoDup (map c_id (customers db));
  wf_valid : Forall (fun c => Customer_valid c = true) (customers db);
  wf_fresh : Forall (fun c => c_id c < nextId db)%nat (customers db);
  wf_tx_fresh : Forall (fun t => tx_id t < nextId db)%nat (transactions db)
}.

(** A computation keeps the collections well formed. *)
Definition preserves_wf {A} (m : M N A) : Prop :=
  forall db, wf_db db -> wf_db (snd (m db)).

End Store.

Arguments Populated N : clear implicits.
Arguments preserves_wf N {A} m.

(* ================================================================= *)
(** ** app/api/admin/deposit/route.ts *)

Section AdminRoutes.
Context {N : Type} `{Number N}.

Definition errorBody (msg : string) : Json N := JObj [("error", JStr msg)].

(** The body of a deposit request; an absent field is [""] or [None]. *)
Record DepositBody : Type := mkDepositBody {
  dep_accountNumber : string;
  dep_amount : option N;
  dep_description : string
}.

Definition HALIFAX_EMAIL : string := "halifax@bank.system".

(** Find or create the Halifax Bank system account. *)
Definition findOrCreateHalifaxBank : M N (Customer N) :=
  halifaxBank <- Customer_findOne_email HALIFAX_EMAIL ;;
  match halifaxBank with
  | Some h => ret h
  | None =>
      h <- new_Customer "Halifax" "Bank" HALIFAX_EMAIL "HALIFAX001"
             "system-account" "1-800-HALIFAX" "Halifax Banking Center"
             "Halifax" "NS" "Canada" "B3H 0A1" (lit 999999999) "USD" "1234" ;;
      Customer_save h ;;;
      ret h
  end.

(** The system account can be found or created: it exists, or no
    other customer holds its account number. *)
Definition systemAccountAvailable (db : Db N) : Prop :=
  customerByEmail db HALIFAX_EMAIL <> None \/
  forallb (fun c => negb (String.eqb (c_accountNumber c) "HALIFAX001"))
    (customers db) = true.

Definition fullName (c : Customer N) : string :=
  c_firstname c ++ " " ++ c_lastname c.

Definition depositUserJson (c : Customer N) : Json N :=
  JObj [("_id", JId (c_id c)); ("name", JStr (fullName c));
        ("email", JStr (c_email c)); ("accountNumber", JStr (c_accountNumber c))].

Definition deposit_POST_body (session : bool) (now : Z) (b : DepositBody)
  : M N (Response N) :=
  if negb session then ret (json (errorBody "Unauthorized") 401) else
  let accountNumber := dep_accountNumber b in
  (* Validate required fields *)
  match dep_amount b with
  | None => ret (json (errorBody "Account number and amount are required") 400)
  | Some amount =>
  if falsyStr accountNumber || falsy amount then
    ret (json (errorBody "Account number and amount are required") 400)
  (* Validate amount is positive *)
  else if leb amount (lit 0) then
    ret (json (errorBody "Amount must be greater than 0") 400)
  else
  (* Find customer by account number *)
  customer <- Customer_findOne_accountNumber accountNumber ;;
  match customer with
  | None =>
      ret (json (errorBody "Customer with this account number not found") 404)
  | Some customer =>
  halifaxBank <- findOrCreateHalifaxBank ;;
  (* Create deposit transaction (from Halifax Bank to customer) *)
  transaction <- new_Transaction (c_id halifaxBank) (c_id customer)
                   (parseFloat amount)
                   (orElse (dep_description b)
                      ("Deposit to account " ++ accountNumber)) ;;
  transaction <- Transaction_save now transaction ;;
  (* Update customer balance *)
  Customer_findByIdAndUpdate_inc (c_id customer) (parseFloat amount) ;;;
  (* Get updated customer data *)
  updatedCustomer <- Customer_findById (c_id customer) ;;
  (* Populate the transaction for response *)
  populatedTransaction <- Transaction_findById_populated (tx_id transaction) ;;
  match populatedTransaction with
  | Some (mkPopulated t (Some from) (Some to)) =>
      ret (json (JObj [
        ("message", JStr "Deposit successful");
        ("transaction", JObj [
           ("_id", JId (tx_id t));
           ("amount", JNum (tx_amount t));
           ("description", JStr (tx_description t));
           ("fromUser", depositUserJson from);
           ("toUser", depositUserJson to);
           ("createdAt", JDate (tx_createdAt t))]);
        ("customerBalance",
           match updatedCustomer with
           | Some u => JNum (c_balance u)
           | None => JUndefined
           end)]) 201)
  | _ => ret (json (errorBody "Failed to retrieve transaction details") 500)
  end
  end
  end.

(** [POST /api/admin/deposit] *)
Definition deposit_POST (session : bool) (now : Z) (b : DepositBody)
    (db : Db N) : Response N * Db N :=
  run (deposit_POST_body session now b) db.

(* ================================================================= *)
(** ** app/api/admin/transactions/route.ts, POST *)

(** The body of a transfer request.  An identifier, when present, is a
    well-formed ObjectId; on one that is not [findById] throws and the
    [catch] answers 500 before anything is written. *)
Record TransferBody : Type := mkTransferBody {
  tr_fromUserId : option ObjectId;
  tr_toUserId : option ObjectId;
  tr_amount : option N;
  tr_description : string
}.

Definition transferUserJson (c : Customer N) : Json N :=
  JObj [("_id", JId (c_id c)); ("name", JStr (fullName c));
        ("email", JStr (c_email c))].

(** [transaction.populate(...)] followed by the reads of
    [transaction.fromUserId._id] and [transaction.toUserId._id], which
    throw on a reference that populated to [null]. *)
Definition populate_both (t : Transaction N)
  : M N (Customer N * Customer N) :=
  fun db =>
    match populate db t with
    | mkPopulated _ (Some from) (Some to) => (Ok (from, to), db)
    | _ => (Throw TypeError, db)
    end.

Definition transactions_POST_body (session : bool) (now : Z)
    (b : TransferBody) : M N (Response N) :=
  if negb session then ret (json (errorBody "Unauthorized") 401) else
  (* Validate required fields *)
  match tr_fromUserId b, tr_toUserId b, tr_amount b with
  | Some fromUserId, Some toUserId, Some amount =>
  if falsy amount then
    ret (json (errorBody "From user, to user, and amount are required") 400)
  else
  (* Verify users exist *)
  fromUser <- Customer_findById fromUserId ;;
  toUser <- Customer_findById toUserId ;;
  match fromUser, toUser with
  | Some fromUser, Some toUser =>
  (* Check if sender has sufficient balance *)
  if ltb (c_balance fromUser) amount then
    ret (json (errorBody "Insufficient balance") 400)
  else
  (* Create transaction *)
  transaction <- new_Transaction fromUserId toUserId amount
                   (orElse (tr_description b) "Transfer") ;;
  transaction <- Transaction_save now transaction ;;
  (* Update balances *)
  Customer_findByIdAndUpdate_inc fromUserId (neg amount) ;;;
  Customer_findByIdAndUpdate_inc toUserId amount ;;;
  (* Populate the transaction for response *)
  users <- populate_both transaction ;;
  ret (json (JObj [
    ("message", JStr "Transaction created successfully");
    ("transaction", JObj [
       ("_id", JId (tx_id transaction));
       ("amount", JNum (tx_amount transaction));
       ("description", JStr (tx_description transaction));
       ("fromUser", transferUserJson (fst users));
       ("toUser", transferUserJson (snd users));
       ("createdAt", JDate (tx_createdAt transaction))])]) 201)
  | _, _ => ret (json (errorBody "One or both users not found") 404)
  end
  | _, _, _ =>
    ret (json (errorBody "From user, to user, and amount are required") 400)
  end.

(** [POST /api/admin/transactions] *)
Definition transactions_POST (session : bool) (now : Z) (b : TransferBody)
    (db : Db N) : Response N * Db N :=
  run (transactions_POST_body session now b) db.

End AdminRoutes.

Arguments DepositBody N : clear implicits.
Arguments TransferBody N : clear implicits.

(* ================================================================= *)
(** ** lib/auth.ts *)

(** What the handlers read of a request: its Authorization header. *)
Record Request : Type := mkRequest {
  authorization : option string
}.

Definition startsWith (p s : string) : bool := String.prefix p s.

(** [extractTokenFromRequest]:
    [authHeader?.startsWith('Bearer ') ? authHeader.substring(7) : null] *)
Definition extractTokenFromRequest (request : Request) : option string :=
  match authorization request with
  | Some authHeader =>
      if startsWith "Bearer " authHeader then Some (dropStr 7 authHeader)
      else None
  | None => None
  end.

(** [!token] on [string | null] *)
Definition noToken (token : option string) : bool :=
  match token with
  | None => true
  | Some t => falsyStr t
  end.

Section Auth.
Context `{Crypto}.

(** [verifyToken]: throws where [jwt.verify] does. *)
Definition verifyToken (token : string) : Result JWTPayload :=
  match jwt_verify token with
  | Some p => Ok p
  | None => Throw (Failure "JsonWebTokenError")
  end.

(** [authenticateRequest]: [null] on a missing token and on any throw. *)
Definition authenticateRequest (request : Request) : option JWTPayload :=
  let token := extractTokenFromRequest request in
  if noToken token then None
  else
    match token with
    | Some t =>
        match verifyToken t with
        | Ok p => Some p
        | Throw _ => None
        end
    | None => None
    end.

End Auth.

(* ================================================================= *)
(** ** app/api/customer/statement/route.ts *)

(** [ObjectId.prototype.toString]: the 24 hexadecimal digits. *)
Class ObjectIdString : Type := {
  idToString : ObjectId -> string
}.

Section Statement.
Context {N : Type} `{Number N} `{Crypto} `{ObjectIdString}.

Definition failBody (msg : string) : Json N :=
  JObj [("success", JBool false); ("message", JStr msg)].

(** The query string, parsed: a date parameter, when present, is a
    date [new Date] can read, in milliseconds since the epoch. *)
Record StatementQuery : Type := mkStatementQuery {
  q_startDate : option Z;
  q_endDate : option Z;
  q_format : option string
}.

(** [defaultStartDate.setDate(defaultStartDate.getDate() - 30)], in a
    zone whose clock does not shift within the thirty days. *)
Definition minus30Days (now : Z) : Z := (now - 30 * 86400000)%Z.

(** [.sort({ createdAt: 1 })]: ascending by creation time, ties in
    insertion order. *)
Fixpoint insertByDate (p : Populated N) (l : list (Populated N))
  : list (Populated N) :=
  match l with
  | [] => [p]
  | q :: r =>
      if (tx_createdAt (p_tx p) <=? tx_createdAt (p_tx q))%Z
      then p :: q :: r
      else q :: insertByDate p r
  end.

Definition sortByDate (l : list (Populated N)) : list (Populated N) :=
  fold_right insertByDate [] l.

(** The filter of [Transaction.find]: the customer is sender or
    receiver, and [createdAt] lies in the range. *)
Definition inStatement (cid : ObjectId) (queryStartDate queryEndDate : Z)
    (t : Transaction N) : bool :=
  ((tx_fromUserId t =? cid)%nat || (tx_toUserId t =? cid)%nat) &&
  ((queryStartDate <=? tx_createdAt t)%Z && (tx_createdAt t <=? queryEndDate)%Z).

Definition Transaction_find_statement (cid : ObjectId)
    (queryStartDate queryEndDate : Z) : M N (list (Populated N)) :=
  fun db =>
    (Ok (sortByDate
           (map (populate db)
              (filter (inStatement cid queryStartDate queryEndDate)
                 (transactions db)))), db).

(** [transaction.fromUserId._id.toString() === decoded.customerId];
    the read throws when the sender populated to [null]. *)
Definition isDebitOf (cid : ObjectId) (p : Populated N) : Result bool :=
  match p_from p with
  | Some from => Ok (c_id from =? cid)%nat
  | None => Throw TypeError
  end.

(** The [forEach] that works backwards from the current balance. *)
Fixpoint openingBalanceFrom (cid : ObjectId) (txs : list (Populated N))
    (openingBalance : N) : Result N :=
  match txs with
  | [] => Ok openingBalance
  | transaction :: rest =>
      match isDebitOf cid transaction with
      | Throw e => Throw e
      | Ok isDebit =>
          openingBalanceFrom cid rest
            (if isDebit
             then add openingBalance (tx_amount (p_tx transaction))
             else sub openingBalance (tx_amount (p_tx transaction)))
      end
  end.

(** The counters the [map] callback updates. *)
Record Totals : Type := mkTotals {
  totalCredits : N;
  totalDebits : N;
  creditCount : nat;
  debitCount : nat
}.

Definition noTotals : Totals := mkTotals (lit 0) (lit 0) 0 0.

Definition slice_last (n : nat) (s : string) : string :=
  dropStr (String.length s - n) s.

Definition counterpartyJson (c : Customer N) : Json N :=
  JObj [("name", JStr (fullName c));
        ("accountNumber", JStr (c_accountNumber c));
        ("email", JStr (c_email c))].

(** One call of the [map] callback: the updated counters and the
    formatted entry.  The counterparty read throws when it populated
    to [null]. *)
Definition formatTransaction (cid : ObjectId) (openingBalance : N)
    (acc : Totals) (transaction : Populated N)
  : Result (Totals * Json N) :=
  match isDebitOf cid transaction with
  | Throw e => Throw e
  | Ok isDebit =>
      let t := p_tx transaction in
      let acc' :=
        if isDebit
        then mkTotals (totalCredits acc) (add (totalDebits acc) (tx_amount t))
               (creditCount acc) (S (debitCount acc))
        else mkTotals (add (totalCredits acc) (tx_amount t)) (totalDebits acc)
               (S (creditCount acc)) (debitCount acc) in
      (* Calculate running balance *)
      let runningBalance :=
        sub (add openingBalance (totalCredits acc')) (totalDebits acc') in
      match (if isDebit then p_to transaction else p_from transaction) with
      | None => Throw TypeError
      | Some counterparty =>
          Ok (acc',
              JObj [("id", JId (tx_id t));
                    ("date", JDate (tx_createdAt t));
                    ("description", JStr (tx_description t));
                    ("reference",
                       JStr (toUpperCase (slice_last 8 (idToString (tx_id t)))));
                    ("type", JStr (if isDebit then "debit" else "credit"));
                    ("amount", JNum (tx_amount t));
                    ("balance", JNum runningBalance);
                    ("counterparty", counterpartyJson counterparty)])
      end
  end.

(** [transactions.map(...)], threading the counters left to right. *)
Fixpoint formatTransactions (cid : ObjectId) (openingBalance : N)
    (acc : Totals) (txs : list (Populated N))
  : Result (Totals * list (Json N)) :=
  match txs with
  | [] => Ok (acc, [])
  | transaction :: rest =>
      match formatTransaction cid openingBalance acc transaction with
      | Throw e => Throw e
      | Ok (acc', entry) =>
          match formatTransactions cid openingBalance acc' rest with
          | Throw e => Throw e
          | Ok (acc'', entries) => Ok (acc'', entry :: entries)
          end
      end
  end.

Definition liftResult {A} (r : Result A) : M N A :=
  fun db => (r, db).

Definition summaryJson (openingBalance closingBalance : N) (t : Totals)
    (transactionCount : nat) : Json N :=
  JObj [("openingBalance", JNum openingBalance);
        ("closingBalance", JNum closingBalance);
        ("totalCredits", JNum (totalCredits t));
        ("totalDebits", JNum (totalDebits t));
        ("netChange", JNum (sub (totalCredits t) (totalDebits t)));
        ("transactionCount", JNat transactionCount);
        ("creditCount", JNat (creditCount t));
        ("debitCount", JNat (debitCount t))].

Definition statementData (customer : Customer N)
    (queryStartDate queryEndDate now : Z) (summary : Json N)
    (formattedTransactions : list (Json N)) : Json N :=
  JObj [("customer", JObj [
           ("id", JId (c_id customer));
           ("name", JStr (fullName customer));
           ("email", JStr (c_email customer));
           ("accountNumber", JStr (c_accountNumber customer));
           ("address", JObj [
              ("street", JStr (c_address customer));
              ("city", JStr (c_city customer));
              ("state", JStr (c_state customer));
              ("postalCode", JStr (c_postalCode customer));
              ("country", JStr (c_country customer))])]);
        ("statement", JObj [
           ("period", JObj [("startDate", JDate queryStartDate);
                            ("endDate", JDate queryEndDate)]);
           ("summary", summary);
           ("transactions", JArr formattedTransactions)]);
        ("generatedAt", JDate now);
        ("currency", JStr (orElse (c_currency customer) "USD"))].

Definition statement_GET_body (request : Request) (query : StatementQuery)
    (now : Z) : M N (Response N) :=
  (* Get token from Authorization header *)
  let token := extractTokenFromRequest request in
  match token with
  | None => ret (json (failBody "No token provided") 401)
  | Some token =>
  if falsyStr token then ret (json (failBody "No token provided") 401) else
  (* Verify token *)
  match verifyToken token with
  | Throw _ => ret (json (failBody "Invalid or expired token") 401)
  | Ok decoded =>
  let format := match q_format query with
                | Some f => orElse f "json"
                | None => "json"
                end in
  (* Default to last 30 days if no date range provided *)
  let defaultEndDate := now in
  let defaultStartDate := minus30Days now in
  let queryStartDate :=
    match q_startDate query with Some d => d | None => defaultStartDate end in
  let queryEndDate :=
    match q_endDate query with Some d => d | None => defaultEndDate end in
  (* Validate date range *)
  if (queryEndDate <? queryStartDate)%Z then
    ret (json (failBody "Start date cannot be after end date") 400)
  else
  (* Get customer information *)
  customer <- Customer_findById (customerId decoded) ;;
  match customer with
  | None => ret (json (failBody "Customer not found") 404)
  | Some customer =>
  transactions <- Transaction_find_statement (customerId decoded)
                    queryStartDate queryEndDate ;;
  (* Calculate opening balance by working backwards from current balance *)
  openingBalance <- liftResult
    (openingBalanceFrom (customerId decoded) transactions (c_balance customer)) ;;
  (* Calculate totals for the period *)
  formatted <- liftResult
    (formatTransactions (customerId decoded) openingBalance noTotals
       transactions) ;;
  let closingBalance := c_balance customer in
  let statement :=
    statementData customer queryStartDate queryEndDate now
      (summaryJson openingBalance closingBalance (fst formatted)
         (List.length transactions))
      (snd formatted) in
  if String.eqb format "json" then
    ret (json (JObj [("success", JBool true); ("statement", statement)]) 200)
  else if String.eqb format "pdf" then
    ret (json (JObj [("success", JBool true); ("statement", statement);
                     ("format", JStr "pdf");
                     ("message", JStr "Statement data ready for PDF generation")])
           200)
  else ret (json (failBody "Invalid format specified") 400)
  end
  end
  end.

(** [GET /api/customer/statement]; the [catch] answers with the
    [success: false] shape. *)
Definition statement_GET (request : Request) (query : StatementQuery)
    (now : Z) (db : Db N) : Response N * Db N :=
  match statement_GET_body request query now db with
  | (Ok r, db') => (r, db')
  | (Throw _, db') => (json (failBody "Internal server error") 500, db')
  end.

(* ================================================================= *)
(** ** app/api/customer/auth/verify/route.ts *)

Definition verify_GET (request : Request) (db : Db N) : Response N * Db N :=
  match authenticateRequest request with
  | None => (json (failBody "Invalid or missing token") 401, db)
  | Some decoded =>
      match Customer_findById (customerId decoded) db with
      | (Ok None, db') => (json (failBody "Customer not found") 404, db')
      | (Ok (Some _), db') =>
          (json (JObj [("success", JBool true);
                       ("message", JStr "Token is valid");
                       ("customerId", JId (customerId decoded));
                       ("email", JStr (jwt_email decoded));
                       ("accountNumber", JStr (jwt_accountNumber decoded))])
             200, db')
      | (Throw _, db') => (json (failBody "Internal server error") 500, db')
      end
  end.

End Statement.

Arguments Totals N : clear implicits.

(* ================================================================= *)
(** ** app/api/customer/transfer/route.ts *)

(** [toFixed(2)], used only in the text of one error message. *)
Class NumberFormat (N : Type) : Type := {
  toFixed2 : N -> string
}.

Definition quote : string := String (ascii_of_nat 34) EmptyString.

(** [/^[A-Z]{6}[A-Z0-9]{2}([A-Z0-9]{3})?$/] *)
Definition isSwiftCode (s : string) : bool :=
  allChars isUpper (takeStr 6 s) &&
  allChars (fun c => isUpper c || isDigit c) (dropStr 6 s) &&
  ((String.length s =? 8)%nat || (String.length s =? 11)%nat).

(** [/^\d{10,12}$/] *)
Definition isLocalAccountNumber (s : string) : bool :=
  allChars isDigit s && lengthBetween 10 12 s.

(** [/^\d{4,6}$/] *)
Definition isPin (s : string) : bool :=
  allChars isDigit s && lengthBetween 4 6 s.

(** [/^[a-zA-Z\s.'-]{2,50}$/] *)
Definition isReceiverName (s : string) : bool :=
  allChars (fun c => isLower c || isUpper c || isSpace c ||
                     (code c =? 46)%nat || (code c =? 39)%nat ||
                     (code c =? 45)%nat) s &&
  lengthBetween 2 50 s.

(** [s.replace(/(.{4})/, '****')]: the leftmost four consecutive
    characters that are not line terminators become four asterisks. *)
Fixpoint maskAccountNumber (s : string) : string :=
  match s with
  | String a s' =>
      match s' with
      | String b (String c (String d r)) =>
          if negb (isLineTerminator a) && negb (isLineTerminator b) &&
             negb (isLineTerminator c) && negb (isLineTerminator d)
          then "****" ++ r
          else String a (maskAccountNumber s')
      | _ => s
      end
  | EmptyString => s
  end.

Definition getCurrencySymbol (currencyCode : string) : string :=
  let c := toUpperCase currencyCode in
  if String.eqb c "USD" then "$"
  else if String.eqb c "EUR" then "€"
  else if String.eqb c "GBP" then "£"
  else if String.eqb c "CAD" then "C$"
  else if String.eqb c "AUD" then "A$"
  else if String.eqb c "JPY" then "¥"
  else if String.eqb c "CHF" then "CHF"
  else "$".

Definition supportedCurrencies : list string :=
  ["USD"; "EUR"; "GBP"; "CAD"; "AUD"; "JPY"; "CHF"].

Definition includes (l : list string) (s : string) : bool :=
  existsb (String.eqb s) l.

Section CustomerTransfer.
Context {N : Type} `{Number N} `{NumberFormat N} `{Crypto}.

Record CustomerTransferBody : Type := mkCustomerTransferBody {
  transferType : string;          (* 'local' or 'international' *)
  receiverName : string;
  receiverAccountNumber : string;
  receiverBankName : string;
  receiverBankCode : string;
  receiverSwiftCode : string;
  receiverAddress : string;
  ct_amount : option N;
  ct_currency : string;
  ct_description : string;
  ct_transactionPin : string
}.

Definition transfer_POST_body (request : Request) (b : CustomerTransferBody)
    (now : Z) : M N (Response N) :=
  (* Get JWT token from Authorization header *)
  match authorization request with
  | None => ret (json (errorBody "Authorization token required") 401)
  | Some authHeader =>
  if falsyStr authHeader || negb (startsWith "Bearer " authHeader) then
    ret (json (errorBody "Authorization token required") 401)
  else
  let token := dropStr 7 authHeader in
  match verifyToken token with
  | Throw _ => ret (json (errorBody "Invalid or expired token") 401)
  | Ok decoded =>
  (* Validate required fields *)
  match ct_amount b with
  | None => ret (json (errorBody "Transfer type, receiver name, account number, amount, and transaction PIN are required") 400)
  | Some amount =>
  if falsyStr (transferType b) || falsyStr (receiverName b) ||
     falsyStr (receiverAccountNumber b) || falsy amount ||
     falsyStr (ct_transactionPin b) then
    ret (json (errorBody "Transfer type, receiver name, account number, amount, and transaction PIN are required") 400)
  (* Validate transfer type *)
  else if negb (includes ["local"; "international"] (transferType b)) then
    ret (json (errorBody ("Transfer type must be either " ++ quote ++ "local"
                          ++ quote ++ " or " ++ quote ++ "international"
                          ++ quote)) 400)
  else
  (* Validate amount *)
  let transferAmount := parseFloat amount in
  if isNaN transferAmount || leb transferAmount (lit 0) then
    ret (json (errorBody "Amount must be a positive number") 400)
  (* Validate minimum transfer amount *)
  else if ltb transferAmount (lit 1) then
    ret (json (errorBody "Minimum transfer amount is $1.00") 400)
  (* Additional validation for international transfers *)
  else if String.eqb (transferType b) "international" &&
          (falsyStr (receiverBankName b) || falsyStr (receiverSwiftCode b) ||
           falsyStr (receiverAddress b)) then
    ret (json (errorBody "Bank name, SWIFT code, and receiver address are required for international transfers") 400)
  else if String.eqb (transferType b) "international" &&
          negb (isSwiftCode (receiverSwiftCode b)) then
    ret (json (errorBody "Invalid SWIFT code format") 400)
  (* Additional validation for local transfers *)
  else if String.eqb (transferType b) "local" &&
          falsyStr (receiverBankName b) then
    ret (json (errorBody "Bank name is required for local transfers") 400)
  else if String.eqb (transferType b) "local" &&
          negb (isLocalAccountNumber (receiverAccountNumber b)) then
    ret (json (errorBody "Account number must be 10-12 digits for local transfers") 400)
  (* Validate transaction PIN format *)
  else if negb (isPin (ct_transactionPin b)) then
    ret (json (errorBody "Transaction PIN must be 4-6 digits") 400)
  else
  (* Get customer details *)
  customer <- Customer_findById (customerId decoded) ;;
  match customer with
  | None => ret (json (errorBody "Customer not found") 404)
  | Some customer =>
  (* Verify transaction PIN *)
  if negb (bcrypt_compare (ct_transactionPin b) (c_transactionPin customer)) then
    ret (json (errorBody "Invalid transaction PIN") 400)
  (* Check customer balance *)
  else if ltb (c_balance customer) transferAmount then
    ret (json (errorBody "Insufficient balance for this transfer") 400)
  else
  (* Check if customer has enough balance including potential fees *)
  let transferFee :=
    if String.eqb (transferType b) "international"
    then mul transferAmount (lit 0.02) else lit 2.50 in
  let totalAmount := add transferAmount transferFee in
  if ltb (c_balance customer) totalAmount then
    let currencySymbol := getCurrencySymbol (orElse (c_currency customer) "USD") in
    ret (json (errorBody
      ("Insufficient balance. Transfer amount: " ++ currencySymbol
       ++ toFixed2 transferAmount ++ ", Fee: " ++ currencySymbol
       ++ toFixed2 transferFee ++ ", Total required: " ++ currencySymbol
       ++ toFixed2 totalAmount ++ ", Available: " ++ currencySymbol
       ++ toFixed2 (c_balance customer))) 400)
  (* Validate receiver name format *)
  else if negb (isReceiverName (receiverName b)) then
    ret (json (errorBody "Receiver name must be 2-50 characters and contain only letters, spaces, periods, hyphens, and apostrophes") 400)
  (* Prevent self-transfer *)
  else if String.eqb (receiverAccountNumber b) (c_accountNumber customer) then
    ret (json (errorBody "Cannot transfer to your own account") 400)
  (* Validate currency for international transfers *)
  else if String.eqb (transferType b) "international" &&
          negb (falsyStr (ct_currency b)) &&
          negb (includes supportedCurrencies (toUpperCase (ct_currency b))) then
    ret (json (errorBody "Unsupported currency. Supported currencies: USD, EUR, GBP, CAD, AUD, JPY, CHF") 400)
  (* Check daily transfer limit *)
  else if gtb transferAmount (lit 10000) then
    ret (json (errorBody "Transfer amount exceeds daily limit of $10,000") 400)
  else
  (* All validations passed - but return failure message as requested *)
  ret (json (JObj [
    ("success", JBool false);
    ("error", JStr "Transfer service is currently unavailable");
    ("message", JStr "We apologize for the inconvenience. Your transfer request could not be processed at this time. Please contact our customer support team for assistance with your transfer.");
    ("supportInfo", JObj [
       ("phone", JStr "1-800-HALIFAX (1-800-425-4329)");
       ("email", JStr "support@halifax-bank.com");
       ("hours", JStr "Monday - Friday: 8:00 AM - 8:00 PM EST, Saturday: 9:00 AM - 5:00 PM EST")]);
    ("transferDetails", JObj [
       ("transferType", JStr (transferType b));
       ("receiverName", JStr (receiverName b));
       ("receiverAccountNumber",
          JStr (maskAccountNumber (receiverAccountNumber b)));
       ("receiverBankName", JStr (receiverBankName b));
       ("amount", JNum transferAmount);
       ("fee", JNum transferFee);
       ("totalAmount", JNum totalAmount);
       ("currency", JStr (orElse (ct_currency b) (c_currency customer)));
       ("timestamp", JDate now)])]) 503)
  end
  end
  end
  end.

(** [POST /api/customer/transfer] *)
Definition transfer_POST (request : Request) (b : CustomerTransferBody)
    (now : Z) (db : Db N) : Response N * Db N :=
  run (transfer_POST_body request b now) db.

End CustomerTransfer.

Arguments CustomerTransferBody N : clear implicits.

(* ================================================================= *)
(** ** lib/accountUtils.ts *)

Definition digitChar (d : Z) : ascii := ascii_of_nat (48 + Z.to_nat d).

(** The decimal digits of a non-negative integer, most significant
    first, in front of [acc]. *)
Fixpoint digitsOf (fuel : nat) (z : Z) (acc : string) : string :=
  match fuel with
  | O => acc
  | S fuel' =>
      let acc' := String (digitChar (z mod 10)) acc in
      if (z <? 10)%Z then acc' else digitsOf fuel' (z / 10) acc'
  end.

(** [`${z}`] for an integer below 10^21. *)
Definition Z_toString (z : Z) : string :=
  if (z <? 0)%Z
  then "-" ++ digitsOf (S (Z.to_nat (Z.log2 (- z)))) (- z) ""
  else digitsOf (S (Z.to_nat (Z.log2 z))) z "".

(** [Math.floor(1000000000 + Math.random() * 9000000000)] for the draw
    [r] of [Math.random()], a number in the interval from 0 (included)
    to 1 (excluded); the arithmetic is carried out on rationals. *)
Definition randomDigits (r : Q) : Z :=
  Qfloor (1000000000 + r * 9000000000).

Definition maxAttempts : nat := 10.

(** The account number tried at the i-th turn of the loop. *)
Definition candidate (random : nat -> Q) (i : nat) : string :=
  Z_toString (randomDigits (random i)).

Section AccountUtils.
Context {N : Type} `{Number N}.

(** The [while (!isUnique && attempts < maxAttempts)] loop, from the
    state [isUnique = false] with [remaining = maxAttempts - attempts]
    turns left; [random i] is the i-th draw of [Math.random()].  The
    result is the [accountNumber] of the turn that set [isUnique]. *)
Fixpoint generateLoop (random : nat -> Q) (remaining attempts : nat)
  : M N (option string) :=
  match remaining with
  | O => ret None
  | S remaining' =>
      let accountNumber := Z_toString (randomDigits (random attempts)) in
      existingCustomer <- Customer_findOne_accountNumber accountNumber ;;
      match existingCustomer with
      | None => ret (Some accountNumber)
      | Some _ => generateLoop random remaining' (S attempts)
      end
  end.

Definition generateUniqueAccountNumber (random : nat -> Q) : M N string :=
  found <- generateLoop random maxAttempts 0 ;;
  match found with
  | None =>
      throw (Failure "Failed to generate unique account number after multiple attempts")
  | Some accountNumber => ret accountNumber
  end.

End AccountUtils.

(* ================================================================= *)
(** ** app/api/customer/auth/register/route.ts *)

Section Register.
Context {N : Type} `{Number N} `{Crypto}.

Record RegisterBody : Type := mkRegisterBody {
  r_firstname : string;
  r_lastname : string;
  r_email : string;
  r_password : string;
  r_phoneNumber : string;
  r_address : string;
  r_city : string;
  r_state : string;
  r_country : string;
  r_postalCode : string;
  r_transactionPin : string
}.

Definition customerData (c : Customer N) : Json N :=
  JObj [("id", JId (c_id c));
        ("firstName", JStr (c_firstname c));
        ("lastName", JStr (c_lastname c));
        ("email", JStr (c_email c));
        ("accountNumber", JStr (c_accountNumber c));
        ("balance", JNum (c_balance c));
        ("phoneNumber", JStr (c_phoneNumber c));
        ("address", JStr (c_address c));
        ("city", JStr (c_city c));
        ("state", JStr (c_state c));
        ("country", JStr (c_country c));
        ("postalCode", JStr (c_postalCode c));
        ("currency", JStr (c_currency c))].

Definition register_POST_body (random : nat -> Q) (b : RegisterBody)
  : M N (Response N) :=
  (* Validate required fields *)
  if falsyStr (r_firstname b) || falsyStr (r_lastname b) ||
     falsyStr (r_email b) || falsyStr (r_password b) ||
     falsyStr (r_transactionPin b) then
    ret (json (failBody "First name, last name, email, password, and transaction PIN are required") 400)
  (* Validate transaction PIN format *)
  else if negb (isPin (r_transactionPin b)) then
    ret (json (failBody "Transaction PIN must be 4-6 digits") 400)
  else
  (* Check if customer already exists *)
  existingCustomer <- Customer_findOne_email (r_email b) ;;
  match existingCustomer with
  | Some _ =>
      ret (json (failBody "Customer with this email already exists") 409)
  | None =>
  (* Hash password and transaction PIN *)
  let hashedPassword := bcrypt_hash (r_password b) in
  let hashedTransactionPin := bcrypt_hash (r_transactionPin b) in
  (* Generate unique account number *)
  accountNumber <- generateUniqueAccountNumber random ;;
  (* Create new customer *)
  newCustomer <- new_Customer (r_firstname b) (r_lastname b)
                   (toLowerCase (r_email b)) accountNumber hashedPassword
                   (r_phoneNumber b) (r_address b) (r_city b) (r_state b)
                   (orElse (r_country b) "US") (r_postalCode b) (lit 0) "USD"
                   hashedTransactionPin ;;
  Customer_save newCustomer ;;;
  let savedCustomer := newCustomer in
  (* Generate JWT token *)
  let token := jwt_sign (mkPayload (c_id savedCustomer) (c_email savedCustomer)
                           (c_accountNumber savedCustomer)) in
  ret (json (JObj [("success", JBool true);
                   ("message", JStr "Customer registered successfully");
                   ("token", JStr token);
                   ("customer", customerData savedCustomer)]) 201)
  end.

(** [POST /api/customer/auth/register]; the [catch] tells the
    duplicate-key error from the rest. *)
Definition register_POST (random : nat -> Q) (b : RegisterBody) (db : Db N)
  : Response N * Db N :=
  match register_POST_body random b db with
  | (Ok r, db') => (r, db')
  | (Throw DuplicateKey, db') =>
      (json (failBody "Customer with this email or account number already exists") 409, db')
  | (Throw _, db') => (json (failBody "Internal server error") 500, db')
  end.

End Register.

(** The request passes the two field checks of the handler. *)
Definition fieldsOk (b : RegisterBody) : Prop :=
  falsyStr (r_firstname b) = false /\ falsyStr (r_lastname b) = false /\
  falsyStr (r_email b) = false /\ falsyStr (r_password b) = false /\
  isPin (r_transactionPin b) = true.

(* ================================================================= *)
(** ** The statement, as the specification words it *)

Section StatementSpec.
Context {N : Type} `{Number N}.

(** A transaction debits the customer it comes from and credits the
    other party. *)
Definition isDebit (cid : ObjectId) (t : Transaction N) : bool :=
  (tx_fromUserId t =? cid)%nat.

(** "Reverse each one's effect: add back debits, subtract back
    credits." *)
Definition reverseEffects (cid : ObjectId) (txs : list (Transaction N))
    (current : N) : N :=
  fold_left (fun o t => if isDebit cid t then add o (tx_amount t)
                        else sub o (tx_amount t)) txs current.

Definition sumCredits (cid : ObjectId) (txs : list (Transaction N)) (from : N)
  : N :=
  fold_left (fun s t => if isDebit cid t then s else add s (tx_amount t))
    txs from.

Definition sumDebits (cid : ObjectId) (txs : list (Transaction N)) (from : N)
  : N :=
  fold_left (fun s t => if isDebit cid t then add s (tx_amount t) else s)
    txs from.

(** "Replay forward from the opening balance, accumulating credits and
    debits to produce each entry's running balance": the balance after
    the first [k] transactions. *)
Definition runningBalance (cid : ObjectId) (opening : N)
    (txs : list (Transaction N)) (k : nat) : N :=
  sub (add opening (sumCredits cid (firstn k txs) (lit 0)))
      (sumDebits cid (firstn k txs) (lit 0)).

Definition replayForward (cid : ObjectId) (opening : N)
    (txs : list (Transaction N)) : list N :=
  map (fun k => runningBalance cid opening txs (S k))
      (seq 0 (List.length txs)).

Definition dateOf (p : Populated N) : Z := tx_createdAt (p_tx p).

(** A populated sender is the customer the transaction names. *)
Definition populated_ok (p : Populated N) : Prop :=
  forall f, p_from p = Some f -> c_id f = tx_fromUserId (p_tx p).

(** The running balances the [map] callback attaches, from the counters
    [c] and [d] reached so far. *)
Fixpoint balancesFrom (cid : ObjectId) (opening c d : N)
    (txs : list (Transaction N)) : list N :=
  match txs with
  | [] => []
  | t :: rest =>
      let c' := if isDebit cid t then c else add c (tx_amount t) in
      let d' := if isDebit cid t then add d (tx_amount t) else d in
      sub (add opening c') d' :: balancesFrom cid opening c' d' rest
  end.

(** The transactions of a statement: those the customer takes part in
    within the range, oldest first. *)
Definition statementTransactions (db : Db N) (cid : ObjectId)
    (queryStartDate queryEndDate : Z) : list (Transaction N) :=
  map (@p_tx N)
    (sortByDate (map (populate db)
       (filter (inStatement cid queryStartDate queryEndDate)
          (transactions db)))).

(** The range a query asks for. *)
Definition rangeStart (query : StatementQuery) (now : Z) : Z :=
  match q_startDate query with Some d => d | None => minus30Days now end.

Definition rangeEnd (query : StatementQuery) (now : Z) : Z :=
  match q_endDate query with Some d => d | None => now end.

(** Reading a statement response. *)
Definition statementOf (r : Response N) : Json N :=
  get "statement" (get "statement" (body r)).

Definition summaryOf (r : Response N) : Json N :=
  get "summary" (statementOf r).

Definition entriesOf (r : Response N) : list (Json N) :=
  match get "transactions" (statementOf r) with
  | JArr l => l
  | _ => []
  end.

End StatementSpec.

(* ================================================================= *)
(** ** A customer transfer that passes every check *)

Section TransferSpec.
Context {N : Type} `{Number N} `{Crypto}.

(** 2% of the amount for an international transfer, 2.50 for a local
    one. *)
Definition transferFeeOf (b : CustomerTransferBody N) (A : N) : N :=
  if String.eqb (transferType b) "international"
  then mul A (lit 0.02) else lit 2.50.

(** The conditions of the handler, for the customer the token names:
    a token that verifies, the required fields, an amount of at least
    1 and at most 10000, the formats of the transfer type, a PIN that
    matches, a balance that covers amount and fee, and a receiver
    other than the sender. *)
Record passesValidation (request : Request) (b : CustomerTransferBody N)
    (db : Db N) (customer : Customer N) (A : N) : Prop := mkPassesValidation {
  pv_token : exists token decoded,
      extractTokenFromRequest request = Some token /\
      jwt_verify token = Some decoded /\
      customerById db (customerId decoded) = Some customer;
  pv_amount : ct_amount b = Some A;
  pv_amount_truthy : falsy A = false;
  pv_amount_number : isNaN A = false;
  pv_amount_positive : leb A (lit 0) = false;
  pv_amount_minimum : ltb A (lit 1) = false;
  pv_daily_limit : gtb A (lit 10000) = false;
  pv_receiverName : isReceiverName (receiverName b) = true;
  pv_accountNumber : falsyStr (receiverAccountNumber b) = false;
  pv_bankName : falsyStr (receiverBankName b) = false;
  pv_formats :
      (transferType b = "local" /\
       isLocalAccountNumber (receiverAccountNumber b) = true) \/
      (transferType b = "international" /\
       isSwiftCode (receiverSwiftCode b) = true /\
       falsyStr (receiverAddress b) = false /\
       (falsyStr (ct_currency b) = true \/
        includes supportedCurrencies (toUpperCase (ct_currency b)) = true));
  pv_pin_format : isPin (ct_transactionPin b) = true;
  pv_pin : bcrypt_compare (ct_transactionPin b) (c_transactionPin customer)
           = true;
  pv_balance : ltb (c_balance customer) A = false;
  pv_balance_fee : ltb (c_balance customer) (add A (transferFeeOf b A)) = false;
  pv_not_self : String.eqb (receiverAccountNumber b) (c_accountNumber customer)
                = false
}.

End TransferSpec.

(* ================================================================= *)
(** ** Sample data *)

Definition customerOf (id : ObjectId) (name mail acct : string) (b : float)
  : Customer float :=
  mkCustomer id name "Doe" mail acct "$2a$12$hash" "" "" "" "" "US" "" b "USD"
    "$2a$12$pin".

Definition ann (b : float) : Customer float :=
  customerOf 1 "Ann" "ann@example.com" "1000000001" b.

Definition bob (b : float) : Customer float :=
  customerOf 2 "Bob" "bob@example.com" "1000000002" b.

Definition twoCustomers : Db float := mkDb [ann 100%float; bob 50%float] [] 3.

(** A stand-in for the two libraries: the only token that verifies is
    ["token-of-1"], issued to customer 1; a PIN matches the stored hash
    ["$2a$12$pin"] when it is ["4321"]. *)
Definition sampleCrypto : Crypto := {|
  bcrypt_hash := fun s => ("$2a$12$" ++ s)%string;
  bcrypt_compare := fun s h =>
    String.eqb s "4321" && String.eqb h "$2a$12$pin";
  jwt_sign := fun p =>
    ("token-of-" ++ Z_toString (Z.of_nat (customerId p)))%string;
  jwt_verify := fun s =>
    if String.eqb s "token-of-1"
    then Some (mkPayload 1 "ann@example.com" "1000000001")
    else if String.eqb s "token-of-9"
    then Some (mkPayload 9 "gone@example.com" "1000000009")
    else None
|}.

(** A stand-in for [toFixed(2)]; only the text of one error message
    depends on it. *)
Definition sampleFormat : NumberFormat float := {|
  toFixed2 := fun _ => "#.##"
|}.

Definition sampleIds : ObjectIdString := {|
  idToString := fun i =>
    ("64f0c0ffee0123456789ab" ++ Z_toString (Z.of_nat (10 + i)))%string
|}.

Definition depositToAnn : Response float * Db float :=
  deposit_POST true 1000 (mkDepositBody "1000000001" (Some 50%float) "")
    twoCustomers.

(** Ann starts from nothing and receives two deposits, of 0.01 and of
    0.02. *)
Definition afterTwoDeposits : Db float :=
  snd (deposit_POST true 2000
         (mkDepositBody "1000000001" (Some 0.02%float) "")
         (snd (deposit_POST true 1000
                 (mkDepositBody "1000000001" (Some 0.01%float) "")
                 (mkDb [ann 0%float] [] 2)))).

Definition annRequest : Request := mkRequest (Some "Bearer token-of-1").

Definition wholePeriod : StatementQuery :=
  mkStatementQuery (Some 0%Z) (Some 5000%Z) None.

(** The same history in exact arithmetic. *)
Definition annQ (b : Qc) : Customer Qc :=
  mkCustomer 1 "Ann" "Doe" "ann@example.com" "1000000001" "$2a$12$hash"
    "" "" "" "" "US" "" b "USD" "$2a$12$pin".

Definition bankQ : Customer Qc :=
  mkCustomer 2 "Halifax" "Bank" "halifax@bank.system" "HALIFAX001"
    "system-account" "" "" "" "" "Canada" "" (Q2Qc 999999999) "USD" "1234".

Definition afterTwoDepositsQ : Db Qc :=
  mkDb [annQ (Q2Qc 0.03); bankQ]
       [mkTransaction 3 2 1 (Q2Qc 0.01) "Deposit" 1000%Z;
        mkTransaction 4 2 1 (Q2Qc 0.02) "Deposit" 2000%Z] 5.

Definition annAndBank : Db Qc := mkDb [annQ (Q2Qc 100); bankQ] [] 3.

(** Ann holds 100 and sends herself 30. *)
Definition annToHerself : Response Qc * Db Qc :=
  transactions_POST true 1000
    (mkTransferBody (Some 1) (Some 1) (Some (Q2Qc 30)) "") annAndBank.

(** A local transfer of 25.00 from Ann to Bob's account. *)
Definition annPaysBob : CustomerTransferBody float :=
  mkCustomerTransferBody "local" "Bob Doe" "1000000002" "Halifax" "" "" ""
    (Some 25%float) "" "rent" "4321".

Definition carol : RegisterBody :=
  mkRegisterBody "Carol" "Doe" "Carol@Example.com" "secret" "" "" "" "" ""
    "" "2468".

Definition half : nat -> Q := fun _ => (1 # 2)%Q.

(* ================================================================= *)
(** ** Mongoose operations on a stored customer *)

Section StoreUpdates.
Context {N : Type} `{Number N}.

Definition set_password (c : Customer N) (h : string) : Customer N :=
  mkCustomer (c_id c) (c_firstname c) (c_lastname c) (c_email c)
    (c_accountNumber c) h (c_phoneNumber c) (c_address c) (c_city c)
    (c_state c) (c_country c) (c_postalCode c) (c_balance c) (c_currency c)
    (c_transactionPin c).

Definition set_transactionPin (c : Customer N) (h : string) : Customer N :=
  mkCustomer (c_id c) (c_firstname c) (c_lastname c) (c_email c)
    (c_accountNumber c) (c_password c) (c_phoneNumber c) (c_address c)
    (c_city c) (c_state c) (c_country c) (c_postalCode c) (c_balance c)
    (c_currency c) h.

(** The stored document that has the [_id] of [c'], the first in
    insertion order, is replaced by [c']. *)
Fixpoint replaceById (c' : Customer N) (l : list (Customer N))
  : list (Customer N) :=
  match l with
  | [] => []
  | c :: r => if (c_id c =? c_id c')%nat then c' :: r
              else c :: replaceById c' r
  end.

(** [customer.save()] on a fetched document after an assignment to one
    required path: the new [value] of that path is validated, then the
    stored document is brought up to date. *)
Definition Customer_save_modified (value : string) (c' : Customer N)
  : M N unit :=
  fun db =>
    if falsyStr value then (Throw ValidationError, db)
    else (Ok tt, mkDb (replaceById c' (customers db)) (transactions db)
                   (nextId db)).

Fixpoint removeById (id : ObjectId) (l : list (Customer N))
  : list (Customer N) :=
  match l with
  | [] => []
  | c :: r => if (c_id c =? id)%nat then r else c :: removeById id r
  end.

(** [Customer.findByIdAndDelete(id)] *)
Definition Customer_findByIdAndDelete (id : ObjectId) : M N unit :=
  fun db => (Ok tt, mkDb (removeById id (customers db)) (transactions db)
                      (nextId db)).

(** [.sort({ createdAt: -1 })]: descending by creation time, ties in
    insertion order. *)
Fixpoint insertByDateDesc (p : Populated N) (l : list (Populated N))
  : list (Populated N) :=
  match l with
  | [] => [p]
  | q :: r =>
      if (tx_createdAt (p_tx q) <=? tx_createdAt (p_tx p))%Z
      then p :: q :: r
      else q :: insertByDateDesc p r
  end.

Definition sortByDateDesc (l : list (Populated N)) : list (Populated N) :=
  fold_right insertByDateDesc [] l.

(** [Transaction.find(filter).populate(...).populate(...)
      .sort({ createdAt: -1 }).skip(skip).limit(limit)] *)
Definition Transaction_find_page (filter : Transaction N -> bool)
    (skip limit : nat) : M N (list (Populated N)) :=
  fun db =>
    (Ok (firstn limit
           (skipn skip
              (sortByDateDesc
                 (map (populate db)
                    (List.filter filter (transactions db)))))), db).

(** [Transaction.countDocuments(filter)] *)
Definition Transaction_countDocuments (filter : Transaction N -> bool)
  : M N nat :=
  fun db => (Ok (List.length (List.filter filter (transactions db))), db).

End StoreUpdates.

(* ================================================================= *)
(** ** app/api/customer/auth/login/route.ts *)

Record LoginBody : Type := mkLoginBody {
  l_email : string;
  l_password : string
}.

Section Login.
Context {N : Type} `{Number N} `{Crypto}.

Definition login_POST_body (b : LoginBody) : M N (Response N) :=
  (* Validate input *)
  if falsyStr (l_email b) || falsyStr (l_password b) then
    ret (json (failBody "Email and password are required") 400)
  else
  (* Find customer by email and include password field *)
  customer <- Customer_findOne_email (l_email b) ;;
  match customer with
  | None => ret (json (failBody "Invalid email or password") 401)
  | Some customer =>
  (* Check password *)
  let isPasswordValid := bcrypt_compare (l_password b) (c_password customer) in
  if negb isPasswordValid then
    ret (json (failBody "Invalid email or password") 401)
  else
  (* Generate JWT token *)
  let token := jwt_sign (mkPayload (c_id customer) (c_email customer)
                           (c_accountNumber customer)) in
  ret (json (JObj [("success", JBool true);
                   ("message", JStr "Login successful");
                   ("token", JStr token);
                   ("customer", customerData customer)]) 200)
  end.

(** [POST /api/customer/auth/login] *)
Definition login_POST (b : LoginBody) (db : Db N) : Response N * Db N :=
  match login_POST_body b db with
  | (Ok r, db') => (r, db')
  | (Throw _, db') => (json (failBody "Internal server error") 500, db')
  end.

End Login.

(* ================================================================= *)
(** ** app/api/customer/change-password/route.ts *)

Record ChangePasswordBody : Type := mkChangePasswordBody {
  currentPassword : string;
  newPassword : string;
  confirmPassword : string
}.

Section ChangePassword.
Context {N : Type} `{Number N} `{Crypto}.

Definition changePassword_POST_body (request : Request)
    (b : ChangePasswordBody) : M N (Response N) :=
  (* Authenticate via JWT (Authorization: Bearer <token>) *)
  match authenticateRequest request with
  | None => ret (json (failBody "Invalid or missing token") 401)
  | Some decoded =>
  (* Basic validation *)
  if falsyStr (currentPassword b) || falsyStr (newPassword b) ||
     falsyStr (confirmPassword b) then
    ret (json (failBody "Current password, new password, and confirmation are required") 400)
  else if negb (String.eqb (newPassword b) (confirmPassword b)) then
    ret (json (failBody "New password and confirmation do not match") 400)
  else if (String.length (newPassword b) <? 6)%nat then
    ret (json (failBody "New password must be at least 6 characters") 400)
  else
  (* Fetch customer *)
  customer <- Customer_findById (customerId decoded) ;;
  match customer with
  | None => ret (json (failBody "Customer not found") 404)
  | Some customer =>
  (* Verify current password *)
  let isCurrentValid :=
    bcrypt_compare (currentPassword b) (c_password customer) in
  if negb isCurrentValid then
    ret (json (failBody "Current password is incorrect") 400)
  else
  (* Prevent reusing the same password *)
  let isSameAsOld := bcrypt_compare (newPassword b) (c_password customer) in
  if isSameAsOld then
    ret (json (failBody "New password must be different from the current password") 400)
  else
  (* Hash and update new password *)
  let hashedNewPassword := bcrypt_hash (newPassword b) in
  Customer_save_modified hashedNewPassword
    (set_password customer hashedNewPassword) ;;;
  ret (json (JObj [("success", JBool true);
                   ("message", JStr "Password updated successfully")]) 200)
  end
  end.

(** [POST /api/customer/change-password] *)
Definition changePassword_POST (request : Request) (b : ChangePasswordBody)
    (db : Db N) : Response N * Db N :=
  match changePassword_POST_body request b db with
  | (Ok r, db') => (r, db')
  | (Throw _, db') => (json (failBody "Internal server error") 500, db')
  end.

End ChangePassword.

(* ================================================================= *)
(** ** app/api/customer/change-pin/route.ts *)

Record ChangePinBody : Type := mkChangePinBody {
  currentPin : string;
  newPin : string;
  confirmPin : string
}.

Section ChangePin.
Context {N : Type} `{Number N} `{Crypto}.

Definition changePin_POST_body (request : Request) (b : ChangePinBody)
  : M N (Response N) :=
  (* Authenticate via JWT (Authorization: Bearer <token>) *)
  match authenticateRequest request with
  | None => ret (json (failBody "Invalid or missing token") 401)
  | Some decoded =>
  (* Basic validation *)
  if falsyStr (currentPin b) || falsyStr (newPin b) ||
     falsyStr (confirmPin b) then
    ret (json (failBody "Current PIN, new PIN, and confirmation are required") 400)
  else if negb (String.eqb (newPin b) (confirmPin b)) then
    ret (json (failBody "New PIN and confirmation PIN do not match") 400)
  (* PIN format: 4-6 digits *)
  else if negb (isPin (newPin b)) then
    ret (json (failBody "PIN must be 4-6 digits") 400)
  else
  (* Fetch customer *)
  customer <- Customer_findById (customerId decoded) ;;
  match customer with
  | None => ret (json (failBody "Customer not found") 404)
  | Some customer =>
  (* Verify current PIN *)
  let isCurrentValid :=
    bcrypt_compare (currentPin b) (c_transactionPin customer) in
  if negb isCurrentValid then
    ret (json (failBody "Current PIN is incorrect") 400)
  else
  (* Prevent reusing the same PIN *)
  let isSameAsOld := bcrypt_compare (newPin b) (c_transactionPin customer) in
  if isSameAsOld then
    ret (json (failBody "New PIN must be different from the current PIN") 400)
  else
  (* Hash and update new PIN *)
  let hashedNewPin := bcrypt_hash (newPin b) in
  Customer_save_modified hashedNewPin
    (set_transactionPin customer hashedNewPin) ;;;
  ret (json (JObj [("success", JBool true);
                   ("message", JStr "Transaction PIN updated successfully")])
         200)
  end
  end.

(** [POST /api/customer/change-pin] *)
Definition changePin_POST (request : Request) (b : ChangePinBody)
    (db : Db N) : Response N * Db N :=
  match changePin_POST_body request b db with
  | (Ok r, db') => (r, db')
  | (Throw _, db') => (json (failBody "Internal server error") 500, db')
  end.

End ChangePin.

(* ================================================================= *)
(** ** app/api/admin/customers/[id]/route.ts, DELETE *)

Section AdminCustomers.
Context {N : Type} `{Number N}.

(** The [id] of the route is a well-formed ObjectId; on one that is
    not, [findById] throws and the [catch] answers 500. *)
Definition customer_DELETE_body (session : bool) (id : ObjectId)
  : M N (Response N) :=
  (* Check authentication *)
  if negb session then ret (json (errorBody "Unauthorized") 401) else
  customer <- Customer_findById id ;;
  match customer with
  | None => ret (json (errorBody "Customer not found") 404)
  | Some _ =>
      Customer_findByIdAndDelete id ;;;
      ret (json (JObj [("success", JBool true);
                       ("message", JStr "Customer deleted successfully")]) 200)
  end.

(** [DELETE /api/admin/customers/[id]] *)
Definition customer_DELETE (session : bool) (id : ObjectId) (db : Db N)
  : Response N * Db N :=
  run (customer_DELETE_body session id) db.

End AdminCustomers.

(* ================================================================= *)
(** ** app/api/admin/customers/[id]/route.ts, PUT *)

Section AdminCustomerUpdate.
Context {N : Type} `{Number N} `{Crypto}.

(** The body of an update request; an absent field is [""] or [None]. *)
Record CustomerUpdateBody : Type := mkCustomerUpdateBody {
  u_firstname : string;
  u_lastname : string;
  u_email : string;
  u_phoneNumber : string;
  u_address : string;
  u_city : string;
  u_state : string;
  u_country : string;
  u_postalCode : string;
  u_balance : option N;
  u_currency : string;
  u_password : string;
  u_transactionPin : string
}.

(** [updateData]; the two hashes are present when the request sends a
    password or PIN that is not blank. *)
Record UpdateData : Type := mkUpdateData {
  ud_firstname : string;
  ud_lastname : string;
  ud_email : string;
  ud_phoneNumber : string;
  ud_address : string;
  ud_city : string;
  ud_state : string;
  ud_country : string;
  ud_postalCode : string;
  ud_balance : N;
  ud_currency : string;
  ud_password : option string;
  ud_transactionPin : option string
}.

(** [s && s.trim()] *)
Definition notBlank (s : string) : bool :=
  negb (falsyStr s) && negb (falsyStr (trim s)).

Definition updateDataOf (b : CustomerUpdateBody) : UpdateData :=
  mkUpdateData
    (trim (u_firstname b))
    (trim (u_lastname b))
    (trim (toLowerCase (u_email b)))
    (if falsyStr (u_phoneNumber b) then "" else trim (u_phoneNumber b))
    (if falsyStr (u_address b) then "" else trim (u_address b))
    (if falsyStr (u_city b) then "" else trim (u_city b))
    (if falsyStr (u_state b) then "" else trim (u_state b))
    (if falsyStr (u_country b) then "US" else trim (u_country b))
    (if falsyStr (u_postalCode b) then "" else trim (u_postalCode b))
    (* parseFloat(balance) || 0 *)
    (match u_balance b with
     | Some balance =>
         if falsy (parseFloat balance) then lit 0 else parseFloat balance
     | None => lit 0
     end)
    (orElse (u_currency b) "USD")
    (if notBlank (u_password b)
     then Some (bcrypt_hash (trim (u_password b))) else None)
    (if notBlank (u_transactionPin b)
     then Some (bcrypt_hash (trim (u_transactionPin b))) else None).

(** The document after [$set: updateData], cast through the schema,
    setters included; [_id] and [accountNumber] are not among the
    paths set. *)
Definition applyUpdate (u : UpdateData) (c : Customer N) : Customer N :=
  mkCustomer (c_id c) (trim (ud_firstname u)) (trim (ud_lastname u))
    (emailSetter (ud_email u)) (c_accountNumber c)
    (match ud_password u with Some h => h | None => c_password c end)
    (trim (ud_phoneNumber u)) (trim (ud_address u)) (trim (ud_city u))
    (trim (ud_state u)) (trim (ud_country u)) (trim (ud_postalCode u))
    (ud_balance u) (ud_currency u)
    (match ud_transactionPin u with
     | Some h => h
     | None => c_transactionPin c
     end).

(** [runValidators: true]: the [required] validators of the paths set,
    in the order of the keys of [updateData], each with its message. *)
Definition updateValidationErrors (u : UpdateData) : list string :=
  (if falsyStr (trim (ud_firstname u)) then ["First name is required"] else [])
  ++ (if falsyStr (trim (ud_lastname u)) then ["Last name is required"] else [])
  ++ (if falsyStr (emailSetter (ud_email u)) then ["Email is required"] else [])
  ++ (match ud_password u with
      | Some h => if falsyStr h then ["Password is required"] else []
      | None => []
      end)
  ++ (match ud_transactionPin u with
      | Some h => if falsyStr h then ["Transaction PIN is required"] else []
      | None => []
      end).

(** The unique index on [email], against the other documents. *)
Definition emailTakenByOther (id : ObjectId) (email : string)
    (l : list (Customer N)) : bool :=
  existsb (fun d => negb (c_id d =? id)%nat && String.eqb (c_email d) email) l.

(** [Customer.findByIdAndUpdate(id, updateData,
      { new: true, runValidators: true })] *)
Definition Customer_findByIdAndUpdate_set (id : ObjectId) (u : UpdateData)
  : M N (option (Customer N)) :=
  fun db =>
    match updateValidationErrors u with
    | _ :: _ => (Throw ValidationError, db)
    | [] =>
        match customerById db id with
        | None => (Ok None, db)
        | Some c =>
            let c' := applyUpdate u c in
            if emailTakenByOther id (c_email c') (customers db)
            then (Throw DuplicateKey, db)
            else (Ok (Some c'),
                  mkDb (replaceById c' (customers db)) (transactions db)
                    (nextId db))
        end
    end.

(** [Customer.findOne({ email, _id: { $ne: id } })] *)
Definition Customer_findOne_email_ne (q : string) (id : ObjectId)
  : M N (option (Customer N)) :=
  fun db =>
    (Ok (find (fun c => String.eqb (c_email c) (emailSetter q) &&
                        negb (c_id c =? id)%nat) (customers db)), db).

(** A customer document in a response, [password] and
    [transactionPin] deselected; of the stored document the fields of
    the model are listed. *)
Definition customerDoc (c : Customer N) : Json N :=
  JObj [("_id", JId (c_id c));
        ("firstname", JStr (c_firstname c));
        ("lastname", JStr (c_lastname c));
        ("email", JStr (c_email c));
        ("accountNumber", JStr (c_accountNumber c));
        ("phoneNumber", JStr (c_phoneNumber c));
        ("address", JStr (c_address c));
        ("city", JStr (c_city c));
        ("state", JStr (c_state c));
        ("country", JStr (c_country c));
        ("postalCode", JStr (c_postalCode c));
        ("balance", JNum (c_balance c));
        ("currency", JStr (c_currency c))].

Definition customer_PUT_body (session : bool) (id : ObjectId)
    (b : CustomerUpdateBody) : M N (Response N) :=
  (* Check authentication *)
  if negb session then ret (json (errorBody "Unauthorized") 401) else
  (* Validate required fields *)
  if falsyStr (u_firstname b) || falsyStr (u_lastname b) ||
     falsyStr (u_email b) then
    ret (json (errorBody "First name, last name, and email are required") 400)
  else
  (* Check if customer exists *)
  existingCustomer <- Customer_findById id ;;
  match existingCustomer with
  | None => ret (json (errorBody "Customer not found") 404)
  | Some existingCustomer =>
  (* Check if email is being changed and if it's already taken by
     another customer *)
  emailExists <-
    (if negb (String.eqb (u_email b) (c_email existingCustomer))
     then Customer_findOne_email_ne (toLowerCase (u_email b)) id
     else ret None) ;;
  match emailExists with
  | Some _ => ret (json (errorBody "Email already exists") 400)
  | None =>
  (* Prepare update data *)
  let updateData := updateDataOf b in
  (* Hash transaction PIN if provided: validate PIN format *)
  if notBlank (u_transactionPin b) &&
     negb (isPin (trim (u_transactionPin b))) then
    ret (json (errorBody "Transaction PIN must be 4-6 digits") 400)
  else
  (* Update customer *)
  updatedCustomer <- Customer_findByIdAndUpdate_set id updateData ;;
  match updatedCustomer with
  | None => ret (json (errorBody "Failed to update customer") 500)
  | Some updatedCustomer =>
      ret (json (JObj [("success", JBool true);
                       ("message", JStr "Customer updated successfully");
                       ("customer", customerDoc updatedCustomer)]) 200)
  end
  end
  end.

(** [PUT /api/admin/customers/[id]]; the [catch] answers a validation
    error with its messages and a duplicate key with
    "Email already exists". *)
Definition customer_PUT (session : bool) (id : ObjectId)
    (b : CustomerUpdateBody) (db : Db N) : Response N * Db N :=
  match customer_PUT_body session id b db with
  | (Ok r, db') => (r, db')
  | (Throw ValidationError, db') =>
      (json (errorBody
               (String.concat ", " (updateValidationErrors (updateDataOf b))))
         400, db')
  | (Throw DuplicateKey, db') =>
      (json (errorBody "Email already exists") 400, db')
  | (Throw _, db') => (json (errorBody "Internal server error") 500, db')
  end.

End AdminCustomerUpdate.

Arguments CustomerUpdateBody N : clear implicits.
Arguments UpdateData N : clear implicits.

(* ================================================================= *)
(** ** models/Site.ts and the site settings routes *)

(** A document of the Site collection, with the two timestamps of
    [timestamps: true]. *)
Record Site : Type := mkSite {
  s_id : ObjectId;
  s_phone : string;
  s_email : string;
  s_address : string;
  s_city : string;
  s_state : string;
  s_zip : string;
  s_country : string;
  s_createdAt : Z;
  s_updatedAt : Z
}.

(** The Site collection, in insertion order, and the next identifier. *)
Record SiteDb : Type := mkSiteDb {
  sites : list Site;
  siteNextId : ObjectId
}.

(** The seven fields of a settings request. *)
Record SiteBody : Type := mkSiteBody {
  sb_phone : string;
  sb_email : string;
  sb_address : string;
  sb_city : string;
  sb_state : string;
  sb_zip : string;
  sb_country : string
}.

Definition defaultSite : SiteBody :=
  mkSiteBody "+1-800-HALIFAX" "info@halifax.bank"
    "123 Halifax Banking Center" "Halifax" "Nova Scotia" "B3H 0A1" "Canada".

(** The [required] validators of [SiteSchema]. *)
Definition SiteBody_valid (b : SiteBody) : bool :=
  negb (falsyStr (sb_phone b)) && negb (falsyStr (sb_email b)) &&
  negb (falsyStr (sb_address b)) && negb (falsyStr (sb_city b)) &&
  negb (falsyStr (sb_state b)) && negb (falsyStr (sb_zip b)) &&
  negb (falsyStr (sb_country b)).

(** [Site.findOne()]: the first document. *)
Definition Site_findOne (sdb : SiteDb) : option Site :=
  match sites sdb with
  | [] => None
  | site :: _ => Some site
  end.

(** [Site.create(fields)] and [new Site(fields)] followed by [save()]:
    validation, then the insert with both timestamps set. *)
Definition Site_create (now : Z) (b : SiteBody) (sdb : SiteDb)
  : Result Site * SiteDb :=
  if negb (SiteBody_valid b) then (Throw ValidationError, sdb)
  else
    let site := mkSite (siteNextId sdb) (sb_phone b) (sb_email b)
                  (sb_address b) (sb_city b) (sb_state b) (sb_zip b)
                  (sb_country b) now now in
    (Ok site, mkSiteDb (sites sdb ++ [site]) (S (siteNextId sdb))).

Definition fieldsOf (site : Site) : SiteBody :=
  mkSiteBody (s_phone site) (s_email site) (s_address site) (s_city site)
    (s_state site) (s_zip site) (s_country site).

Definition SiteBody_eqb (a b : SiteBody) : bool :=
  String.eqb (sb_phone a) (sb_phone b) &&
  String.eqb (sb_email a) (sb_email b) &&
  String.eqb (sb_address a) (sb_address b) &&
  String.eqb (sb_city a) (sb_city b) &&
  String.eqb (sb_state a) (sb_state b) &&
  String.eqb (sb_zip a) (sb_zip b) &&
  String.eqb (sb_country a) (sb_country b).

Fixpoint replaceSite (site' : Site) (l : list Site) : list Site :=
  match l with
  | [] => []
  | site :: r => if (s_id site =? s_id site')%nat then site' :: r
                 else site :: replaceSite site' r
  end.

(** The seven assignments to a fetched document followed by [save()]:
    when no field changes nothing is written; otherwise the fields are
    validated and stored and [updatedAt] is set. *)
Definition Site_assign_save (now : Z) (site : Site) (b : SiteBody)
    (sdb : SiteDb) : Result Site * SiteDb :=
  if SiteBody_eqb (fieldsOf site) b then (Ok site, sdb)
  else if negb (SiteBody_valid b) then (Throw ValidationError, sdb)
  else
    let site' := mkSite (s_id site) (sb_phone b) (sb_email b) (sb_address b)
                   (sb_city b) (sb_state b) (sb_zip b) (sb_country b)
                   (s_createdAt site) now in
    (Ok site', mkSiteDb (replaceSite site' (sites sdb)) (siteNextId sdb)).

Section SiteRoutes.
Context {N : Type} `{Number N} `{Crypto}.

(** If no site configuration exists, create the default one. *)
Definition findOrCreateSite (now : Z) (sdb : SiteDb) : Result Site * SiteDb :=
  match Site_findOne sdb with
  | Some site => (Ok site, sdb)
  | None => Site_create now defaultSite sdb
  end.

Definition customerSiteBody (msg : string) : Json N :=
  JObj [("success", JBool false); ("error", JStr msg)].

(** [GET /api/customer/site] *)
Definition customer_site_GET (request : Request) (now : Z) (sdb : SiteDb)
  : Response N * SiteDb :=
  (* Get JWT token from Authorization header *)
  match authorization request with
  | None => (json (customerSiteBody "Authorization token required") 401, sdb)
  | Some authHeader =>
  if falsyStr authHeader || negb (startsWith "Bearer " authHeader) then
    (json (customerSiteBody "Authorization token required") 401, sdb)
  else
  let token := dropStr 7 authHeader in
  match verifyToken token with
  | Throw _ => (json (customerSiteBody "Invalid or expired token") 401, sdb)
  | Ok decoded =>
  (* Get site details *)
  match findOrCreateSite now sdb with
  | (Throw _, sdb') =>
      (json (customerSiteBody "Internal server error") 500, sdb')
  | (Ok site, sdb') =>
      (json (JObj [
         ("success", JBool true);
         ("site", JObj [
            ("contact", JObj [("phone", JStr (s_phone site));
                              ("email", JStr (s_email site))]);
            ("address", JObj [("street", JStr (s_address site));
                              ("city", JStr (s_city site));
                              ("state", JStr (s_state site));
                              ("zip", JStr (s_zip site));
                              ("country", JStr (s_country site))]);
            ("lastUpdated", JDate (s_updatedAt site))])]) 200, sdb')
  end
  end
  end.

(** [GET /api/admin/settings/site] *)
Definition site_GET (session : bool) (now : Z) (sdb : SiteDb)
  : Response N * SiteDb :=
  if negb session then (json (errorBody "Unauthorized") 401, sdb) else
  match findOrCreateSite now sdb with
  | (Throw _, sdb') => (json (errorBody "Internal server error") 500, sdb')
  | (Ok site, sdb') =>
      (json (JObj [
         ("site", JObj [("_id", JId (s_id site));
                        ("phone", JStr (s_phone site));
                        ("email", JStr (s_email site));
                        ("address", JStr (s_address site));
                        ("city", JStr (s_city site));
                        ("state", JStr (s_state site));
                        ("zip", JStr (s_zip site));
                        ("country", JStr (s_country site));
                        ("createdAt", JDate (s_createdAt site));
                        ("updatedAt", JDate (s_updatedAt site))])]) 200, sdb')
  end.

(** [PUT /api/admin/settings/site] *)
Definition site_PUT (session : bool) (now : Z) (b : SiteBody) (sdb : SiteDb)
  : Response N * SiteDb :=
  if negb session then (json (errorBody "Unauthorized") 401, sdb) else
  (* Validate required fields *)
  if falsyStr (sb_phone b) || falsyStr (sb_email b) ||
     falsyStr (sb_address b) || falsyStr (sb_city b) ||
     falsyStr (sb_state b) || falsyStr (sb_zip b) ||
     falsyStr (sb_country b) then
    (json (errorBody "All fields are required") 400, sdb)
  else
  (* Find existing site settings or create new one *)
  match (match Site_findOne sdb with
         | Some site => Site_assign_save now site b sdb
         | None => Site_create now b sdb
         end) with
  | (Throw _, sdb') => (json (errorBody "Internal server error") 500, sdb')
  | (Ok site, sdb') =>
      (json (JObj [
         ("message", JStr "Site settings updated successfully");
         ("site", JObj [("_id", JId (s_id site));
                        ("phone", JStr (s_phone site));
                        ("email", JStr (s_email site));
                        ("address", JStr (s_address site));
                        ("city", JStr (s_city site));
                        ("state", JStr (s_state site));
                        ("zip", JStr (s_zip site));
                        ("country", JStr (s_country site));
                        ("updatedAt", JDate (s_updatedAt site))])]) 200, sdb')
  end.

End SiteRoutes.

(* ================================================================= *)
(** ** Paginated transaction lists *)

(** The [page] and [limit] parameters of the query string, when
    present, are positive integers. *)
Record PageQuery : Type := mkPageQuery {
  q_page : option positive;
  q_limit : option positive
}.

(** [parseInt(searchParams.get('page') || '1')] *)
Definition pageOf (query : PageQuery) : nat :=
  match q_page query with Some p => Pos.to_nat p | None => 1 end.

(** [parseInt(searchParams.get('limit') || '10')] *)
Definition limitOf (query : PageQuery) : nat :=
  match q_limit query with Some l => Pos.to_nat l | None => 10 end.

(** [Math.ceil(a / b)] for a count [a] and a positive [b]. *)
Definition ceilDiv (a b : nat) : nat :=
  if (a mod b =? 0)%nat then a / b else S (a / b).

(** The [pagination] object both list handlers build. *)
Record Pagination : Type := mkPagination {
  currentPage : nat;
  totalPages : nat;
  totalTransactions : nat;
  hasNextPage : bool;
  hasPrevPage : bool
}.

Definition pagination (page limit totalTransactions : nat) : Pagination :=
  mkPagination page (ceilDiv totalTransactions limit) totalTransactions
    (page <? ceilDiv totalTransactions limit)%nat (1 <? page)%nat.

(** [transactions.map(f)] where [f] can throw. *)
Fixpoint mapResult {A B} (f : A -> Result B) (l : list A) : Result (list B) :=
  match l with
  | [] => Ok []
  | a :: r =>
      match f a with
      | Throw e => Throw e
      | Ok b =>
          match mapResult f r with
          | Throw e => Throw e
          | Ok bs => Ok (b :: bs)
          end
      end
  end.

(* ================================================================= *)
(** ** app/api/admin/transactions/route.ts, GET *)

Section AdminTransactionList.
Context {N : Type} `{Number N}.

(** [fromUser] and [toUser] of a listed transaction; [None] is the
    [null] of a reference that no longer resolves. *)
Record UserView : Type := mkUserView {
  uv_id : ObjectId;
  uv_name : string;
  uv_email : string
}.

Record TransactionView : Type := mkTransactionView {
  tv_id : ObjectId;
  tv_amount : N;
  tv_description : string;
  tv_fromUser : option UserView;
  tv_toUser : option UserView;
  tv_createdAt : Z;
  tv_updatedAt : Z
}.

Definition userView (c : Customer N) : UserView :=
  mkUserView (c_id c) (fullName c) (c_email c).

(** The [map] callback; no route modifies a stored transaction, so its
    [updatedAt] is its [createdAt]. *)
Definition transactionView (transaction : Populated N) : TransactionView :=
  let t := p_tx transaction in
  mkTransactionView (tx_id t) (tx_amount t) (tx_description t)
    (option_map userView (p_from transaction))
    (option_map userView (p_to transaction))
    (tx_createdAt t) (tx_createdAt t).

(** What the handler answers: the page, or an error response. *)
Inductive TransactionList : Type :=
| Listed (transactions : list TransactionView) (p : Pagination)
| Refused (r : Response N).

Definition transactions_GET_body (session : bool) (query : PageQuery)
  : M N TransactionList :=
  if negb session then ret (Refused (json (errorBody "Unauthorized") 401))
  else
  (* Get query parameters for pagination *)
  let page := pageOf query in
  let limit := limitOf query in
  let skip := (page - 1) * limit in
  (* Fetch transactions with customer details *)
  transactions <- Transaction_find_page (fun _ => true) skip limit ;;
  (* Get total count for pagination *)
  totalTransactions <- Transaction_countDocuments (fun _ => true) ;;
  (* Format the response *)
  let formattedTransactions := map transactionView transactions in
  ret (Listed formattedTransactions (pagination page limit totalTransactions)).

(** [GET /api/admin/transactions] *)
Definition transactions_GET (session : bool) (query : PageQuery) (db : Db N)
  : TransactionList * Db N :=
  match transactions_GET_body session query db with
  | (Ok r, db') => (r, db')
  | (Throw _, db') =>
      (Refused (json (errorBody "Internal server error") 500), db')
  end.

(** The transactions of a listing; none when the request was refused. *)
Definition listed (r : TransactionList) : list TransactionView :=
  match r with Listed l _ => l | Refused _ => [] end.

End AdminTransactionList.

Arguments UserView : clear implicits.
Arguments TransactionView N : clear implicits.
Arguments TransactionList N : clear implicits.

(* ================================================================= *)
(** ** app/api/customer/transactions/route.ts *)

Section CustomerTransactionList.
Context {N : Type} `{Number N} `{Crypto}.

Definition listUserJson (c : Customer N) : Json N :=
  JObj [("id", JId (c_id c)); ("name", JStr (fullName c));
        ("email", JStr (c_email c));
        ("accountNumber", JStr (c_accountNumber c))].

(** The [map] callback; the reads of [transaction.fromUserId._id] and
    [transaction.toUserId._id] throw on a reference that populated to
    [null]. *)
Definition formatListed (cid : ObjectId) (transaction : Populated N)
  : Result (Json N) :=
  match p_from transaction, p_to transaction with
  | Some from, Some to =>
      let isDebit := (c_id from =? cid)%nat in
      let t := p_tx transaction in
      Ok (JObj [("id", JId (tx_id t));
                ("description", JStr (tx_description t));
                ("amount", JNum (tx_amount t));
                ("type", JStr (if isDebit then "debit" else "credit"));
                ("date", JDate (tx_createdAt t));
                ("fromUser", listUserJson from);
                ("toUser", listUserJson to)])
  | _, _ => Throw TypeError
  end.

Definition paginationJson (p : Pagination) : Json N :=
  JObj [("currentPage", JNat (currentPage p));
        ("totalPages", JNat (totalPages p));
        ("totalTransactions", JNat (totalTransactions p));
        ("hasNextPage", JBool (hasNextPage p));
        ("hasPrevPage", JBool (hasPrevPage p))].

(** The filter [$or: [{ fromUserId }, { toUserId }]]. *)
Definition involves (cid : ObjectId) (t : Transaction N) : bool :=
  (tx_fromUserId t =? cid)%nat || (tx_toUserId t =? cid)%nat.

Definition customer_transactions_GET_body (request : Request)
    (query : PageQuery) : M N (Response N) :=
  (* Get token from Authorization header *)
  let token := extractTokenFromRequest request in
  match token with
  | None => ret (json (failBody "No token provided") 401)
  | Some token =>
  if falsyStr token then ret (json (failBody "No token provided") 401) else
  (* Verify token *)
  match verifyToken token with
  | Throw _ => ret (json (failBody "Invalid or expired token") 401)
  | Ok decoded =>
  (* Get query parameters for pagination *)
  let page := pageOf query in
  let limit := limitOf query in
  let skip := (page - 1) * limit in
  (* Find transactions where customer is either sender or receiver *)
  transactions <- Transaction_find_page (involves (customerId decoded))
                    skip limit ;;
  (* Get total count for pagination *)
  totalTransactions <- Transaction_countDocuments
                         (involves (customerId decoded)) ;;
  (* Format transactions for response *)
  formattedTransactions <- liftResult
    (mapResult (formatListed (customerId decoded)) transactions) ;;
  ret (json (JObj [("success", JBool true);
                   ("transactions", JArr formattedTransactions);
                   ("pagination",
                      paginationJson
                        (pagination page limit totalTransactions))]) 200)
  end
  end.

(** [GET /api/customer/transactions] *)
Definition customer_transactions_GET (request : Request) (query : PageQuery)
    (db : Db N) : Response N * Db N :=
  match customer_transactions_GET_body request query db with
  | (Ok r, db') => (r, db')
  | (Throw _, db') => (json (failBody "Internal server error") 500, db')
  end.

End CustomerTransactionList.

(* ================================================================= *)
(** ** The lists, as the properties word them *)

Section ListSpec.
Context {N : Type} `{Number N}.

(** The transactions the admin list pages through: all of them,
    populated, newest first. *)
Definition allNewestFirst (db : Db N) : list (Populated N) :=
  sortByDateDesc (map (populate db) (List.filter (fun _ => true)
                                       (transactions db))).

(** The page of the customer list a query asks for. *)
Definition customerPage (db : Db N) (cid : ObjectId) (query : PageQuery)
  : list (Populated N) :=
  firstn (limitOf query)
    (skipn ((pageOf query - 1) * limitOf query)
       (sortByDateDesc
          (map (populate db)
             (List.filter (involves cid) (transactions db))))).

(** Both references of the transaction resolve as far as the statement
    reads them: the sender always, the receiver when the customer is
    the sender. *)
Definition resolves (cid : ObjectId) (p : Populated N) : bool :=
  match p_from p with
  | None => false
  | Some from =>
      if (c_id from =? cid)%nat
      then match p_to p with Some _ => true | None => false end
      else true
  end.

End ListSpec.

(* ================================================================= *)
(** ** Totals of the ledger *)

Section Totals.
Context {N : Type} `{Number N}.

(** The sum of the stored balances, accumulated in document order. *)
Definition totalBalance (l : list (Customer N)) : N :=
  fold_left (fun s c => add s (c_balance c)) l (lit 0).

End Totals.

(* ================================================================= *)
(** ** The routes as one interface *)

Section Api.
Context {N : Type} `{Number N} `{NumberFormat N} `{Crypto} `{ObjectIdString}.

(** A request to one of the routes over the customers and the
    transactions. *)
Inductive Call : Type :=
| AdminDeposit (session : bool) (now : Z) (b : DepositBody N)
| AdminTransfer (session : bool) (now : Z) (b : TransferBody N)
| AdminListTransactions (session : bool) (query : PageQuery)
| AdminUpdateCustomer (session : bool) (id : ObjectId)
    (b : CustomerUpdateBody N)
| AdminDeleteCustomer (session : bool) (id : ObjectId)
| Register (random : nat -> Q) (b : RegisterBody)
| Login (b : LoginBody)
| Verify (request : Request)
| Statement (request : Request) (query : StatementQuery) (now : Z)
| CustomerTransfer (request : Request) (b : CustomerTransferBody N) (now : Z)
| CustomerListTransactions (request : Request) (query : PageQuery)
| ChangePassword (request : Request) (b : ChangePasswordBody)
| ChangePin (request : Request) (b : ChangePinBody).

(** The database a request leaves. *)
Definition after (call : Call) (db : Db N) : Db N :=
  match call with
  | AdminDeposit session now b => snd (deposit_POST session now b db)
  | AdminTransfer session now b => snd (transactions_POST session now b db)
  | AdminListTransactions session query => snd (transactions_GET session query db)
  | AdminUpdateCustomer session id b => snd (customer_PUT session id b db)
  | AdminDeleteCustomer session id => snd (customer_DELETE session id db)
  | Register random b => snd (register_POST random b db)
  | Login b => snd (login_POST b db)
  | Verify request => snd (verify_GET request db)
  | Statement request query now => snd (statement_GET request query now db)
  | CustomerTransfer request b now => snd (transfer_POST request b now db)
  | CustomerListTransactions request query =>
      snd (customer_transactions_GET request query db)
  | ChangePassword request b => snd (changePassword_POST request b db)
  | ChangePin request b => snd (changePin_POST request b db)
  end.

Definition afterAll (calls : list Call) (db : Db N) : Db N :=
  fold_left (fun db call => after call db) calls db.

(** The two [unique: true] indexes of [CustomerSchema] hold of the
    collection. *)
Definition unique_keys (db : Db N) : Prop :=
  NoDup (map (@c_email N) (customers db)) /\
  NoDup (map (@c_accountNumber N) (customers db)).

End Api.

Arguments Call N : clear implicits.

(* ================================================================= *)
(** ** More sample data *)

(** A second stand-in for the two libraries: a hash is the text behind
    a fixed prefix, and the tokens of customers 1 and 3 verify. *)
Definition registryCrypto : Crypto := {|
  bcrypt_hash := fun s => ("$2a$12$" ++ s)%string;
  bcrypt_compare := fun s h => String.eqb h ("$2a$12$" ++ s)%string;
  jwt_sign := fun p =>
    ("token-of-" ++ Z_toString (Z.of_nat (customerId p)))%string;
  jwt_verify := fun s =>
    if String.eqb s "token-of-1"
    then Some (mkPayload 1 "ann@example.com" "1000000001")
    else if String.eqb s "token-of-3"
    then Some (mkPayload 3 "carol@example.com" "5500000000")
    else None
|}.

(** Carol as her registration stores her. *)
Definition carolStored : Customer float :=
  mkCustomer 3 "Carol" "Doe" "carol@example.com" "5500000000"
    "$2a$12$secret" "" "" "" "" "US" "" 0%float "USD" "$2a$12$2468".

(** Ann has sent Bob 30. *)
Definition annPaidBob : Db float :=
  mkDb [ann 70%float; bob 80%float]
       [mkTransaction 3 1 2 30%float "Transfer" 1000%Z] 4.

(** The same ledger once Bob has been deleted. *)
Definition bobDeleted : Db float :=
  mkDb [ann 70%float] [mkTransaction 3 1 2 30%float "Transfer" 1000%Z] 4.

Definition transferToBob : TransferBody float :=
  mkTransferBody (Some 1) (Some 2) (Some 30%float) "".

Definition annNewPassword : ChangePasswordBody :=
  mkChangePasswordBody "hash" "newsecret" "newsecret".

Definition annNewPin : ChangePinBody := mkChangePinBody "pin" "2468" "2468".

Definition annUpdate : CustomerUpdateBody float :=
  mkCustomerUpdateBody "Ann" "Smith" "Ann.Smith@Example.com" "" "" "" "" ""
    "" None "" "" "".

Definition headOffice : SiteBody :=
  mkSiteBody "+1-902-555-0100" "help@halifax.bank" "1 Water Street"
    "Halifax" "NS" "B3J 1A1" "Canada".

Definition noSite : SiteDb := mkSiteDb [] 1.

Definition firstPage : PageQuery := mkPageQuery None None.

(* ================================================================= *)
(** * Properties *)

(** ** Numbers *)

Lemma SFcompare_antisym (x y : spec_float) (c : comparison) :
  SFcompare x y = Some c -> SFcompare y x = Some (CompOpp c).
Proof.
  destruct x as [s|s| |s m e], y as [s'|s'| |s' m' e']; cbn;
    try discriminate;
    try (intros [= <-]; try destruct s; try destruct s'; reflexivity).
  intros [= <-]. f_equal.
  rewrite (Z.compare_antisym e e').
  destruct s, s'; try reflexivity;
    destruct (e ?= e')%Z; cbn; try reflexivity;
    rewrite (ZC4 m' m); reflexivity.
Qed.

#[export] Instance float_NumberOrder : NumberOrder float.
Proof.
  constructor; cbn [ltb leb falsy isNaN float_Number]; intro x.
  - change (lit 0) with 0%float.
    rewrite FloatAxioms.ltb_spec, FloatAxioms.leb_spec.
    change (Prim2SF 0%float) with (S754_zero false).
    destruct (Prim2SF x) as [s|s| |s m e]; cbn; try destruct s;
      cbn; congruence.
  - change (lit 0) with 0%float. unfold PrimFloat.is_nan.
    rewrite FloatAxioms.ltb_spec, !FloatAxioms.eqb_spec.
    change (Prim2SF 0%float) with (S754_zero false).
    destruct (Prim2SF x) as [s|s| |s m e]; cbn; try destruct s;
      cbn; try congruence;
      intros _; rewrite Z.compare_refl, Pos.compare_cont_refl; reflexivity.
  - intros ->. apply orb_true_r.
  - intro y. rewrite FloatAxioms.ltb_spec, FloatAxioms.leb_spec.
    unfold SFleb, SFltb.
    destruct (SFcompare (Prim2SF x) (Prim2SF y)) as [c|] eqn:E;
      try discriminate.
    rewrite (SFcompare_antisym _ _ _ E).
    destruct c; cbn; congruence.
Qed.

#[export] Instance Qc_NumberOrder : NumberOrder Qc.
Proof.
  constructor; cbn [ltb leb falsy isNaN lit Qc_Number].
  - intros x Hx. now apply negb_true_iff in Hx.
  - intros x Hx. apply negb_true_iff in Hx.
    unfold Qc_eq_bool. destruct (Qc_eq_dec x (Q2Qc 0)) as [->|]; [|reflexivity].
    now rewrite <- Hx.
  - discriminate.
  - intros x y Hxy. now rewrite Hxy.
Qed.

#[export] Instance Qc_ExactNumber : ExactNumber Qc.
Proof.
  constructor; cbn [add sub neg lit eqb Qc_Number]; intros.
  - apply Qcplus_comm.
  - apply Qcplus_assoc.
  - apply Qcplus_0_l.
  - apply Qcplus_opp_r.
  - reflexivity.
  - unfold Qc_eq_bool. destruct (Qc_eq_dec x x); congruence.
Qed.

(** Consequences of the laws of exact arithmetic. *)
Section ExactArithmetic.
Context {N : Type} `{ExactNumber N}.

Lemma add_zero_r (x : N) : add x (lit 0) = x.
Proof. rewrite add_comm. apply add_zero_l. Qed.

Lemma add_neg_l (x : N) : add (neg x) x = lit 0.
Proof. rewrite add_comm. apply add_neg_r. Qed.

Lemma add_sub_cancel (x y : N) : sub (add x y) y = x.
Proof.
  rewrite sub_add_neg, <- add_assoc, add_neg_r. apply add_zero_r.
Qed.

Lemma sub_add_cancel (x y : N) : add (sub x y) y = x.
Proof.
  rewrite sub_add_neg, <- add_assoc, add_neg_l. apply add_zero_r.
Qed.

Lemma add_neg_add_cancel (x y : N) : add (add x (neg y)) y = x.
Proof. rewrite <- sub_add_neg. apply sub_add_cancel. Qed.

Lemma inverse_unique (x y : N) : add x y = lit 0 -> y = neg x.
Proof.
  intro E. rewrite <- (add_zero_l y), <- (add_neg_l x), <- add_assoc, E.
  apply add_zero_r.
Qed.

Lemma neg_zero : neg (lit 0) = lit 0 :> N.
Proof. symmetry. apply inverse_unique, add_zero_l. Qed.

Lemma sub_zero_r (x : N) : sub x (lit 0) = x.
Proof. rewrite sub_add_neg, neg_zero. apply add_zero_r. Qed.

Lemma add_swap_r (x y z : N) : add (add x y) z = add (add x z) y.
Proof. now rewrite <- !add_assoc, (add_comm y z). Qed.

Lemma add_swap4 (a b c d : N) :
  add (add a b) (add c d) = add (add a c) (add b d).
Proof.
  rewrite <- !add_assoc. f_equal.
  rewrite !add_assoc. now rewrite (add_comm b c).
Qed.

Lemma neg_add (x y : N) : neg (add x y) = add (neg x) (neg y).
Proof.
  symmetry. apply inverse_unique.
  now rewrite add_swap4, !add_neg_r, add_zero_l.
Qed.

(** The two rearrangements behind the statement identity: a credit
    [a] and a debit [a] leave [opening + credits - debits] as it was. *)
Lemma credit_step (o c d a : N) :
  sub (add (sub o a) (add c a)) d = sub (add o c) d.
Proof.
  f_equal. rewrite (add_comm c a), add_assoc. now rewrite sub_add_cancel.
Qed.

Lemma debit_step (o c d a : N) :
  sub (add (add o a) c) (add d a) = sub (add o c) d.
Proof.
  rewrite !sub_add_neg, neg_add, (add_swap_r o a c), add_swap4.
  now rewrite add_neg_r, add_zero_r.
Qed.

End ExactArithmetic.

Local Open Scope nat_scope.

(* ================================================================= *)
(** ** The collections *)

Section Ledger.
Context {N : Type} `{NumberOrder N}.

Lemma c_id_set_balance (c : Customer N) (b : N) : c_id (set_balance c b) = c_id c.
Proof. reflexivity. Qed.

Lemma find_id_inc_balance (i j : ObjectId) (d : N) (l : list (Customer N)) :
  find (fun c => c_id c =? i) (inc_balance j d l) =
  option_map (fun c => if i =? j then set_balance c (add (c_balance c) d) else c)
    (find (fun c => c_id c =? i) l).
Proof.
  induction l as [|a r IH]; [reflexivity|].
  cbn [inc_balance find].
  destruct (c_id a =? j) eqn:Ej; cbn [find c_id set_balance].
  - apply Nat.eqb_eq in Ej. subst j.
    rewrite (Nat.eqb_sym i (c_id a)).
    destruct (c_id a =? i) eqn:Ei; [reflexivity|].
    destruct (find _ r); reflexivity.
  - destruct (c_id a =? i) eqn:Ei; [|exact IH].
    apply Nat.eqb_eq in Ei. subst i. cbn. now rewrite Ej.
Qed.

Lemma find_inc_balance_id_of (p : Customer N -> bool) (j : ObjectId) (d : N)
    (l : list (Customer N)) :
  (forall c b, p (set_balance c b) = p c) ->
  option_map c_id (find p (inc_balance j d l)) = option_map c_id (find p l).
Proof.
  intro Hp. induction l as [|a r IH]; [reflexivity|].
  cbn [inc_balance find].
  destruct (c_id a =? j); cbn [find].
  - rewrite Hp. destruct (p a); reflexivity.
  - destruct (p a); [reflexivity|exact IH].
Qed.

Lemma find_app_l {A} (p : A -> bool) (l l' : list A) (x : A) :
  find p l = Some x -> find p (l ++ l') = Some x.
Proof.
  induction l as [|a r IH]; [discriminate|]. cbn.
  destruct (p a); auto.
Qed.

Lemma find_app_none {A} (p : A -> bool) (l l' : list A) :
  find p l = None -> find p (l ++ l') = find p l'.
Proof.
  induction l as [|a r IH]; [reflexivity|]. cbn.
  destruct (p a); [discriminate|auto].
Qed.

Lemma find_In_id (l : list (Customer N)) (c : Customer N) :
  In c l -> find (fun d => c_id d =? c_id c) l <> None.
Proof.
  intros Hin Hnone.
  apply (find_none _ _ Hnone) in Hin. now rewrite Nat.eqb_refl in Hin.
Qed.

Lemma find_unique_id (l : list (Customer N)) (c : Customer N) :
  NoDup (map c_id l) -> In c l ->
  find (fun d => c_id d =? c_id c) l = Some c.
Proof.
  induction l as [|a r IH]; [contradiction|].
  cbn. intros Hnd [->|Hin].
  - now rewrite Nat.eqb_refl.
  - inversion Hnd as [|? ? Hnotin Hnd']; subst.
    destruct (c_id a =? c_id c) eqn:E; [|auto].
    apply Nat.eqb_eq in E. exfalso. apply Hnotin. rewrite E.
    now apply in_map.
Qed.

Lemma trim_empty_falsy (s : string) : falsyStr s = true -> trim s = "".
Proof. destruct s; [reflexivity|discriminate]. Qed.

End Ledger.

(* ================================================================= *)
(** ** Admin deposit *)

Section Deposit.
Context {N : Type} `{NumberOrder N}.

Lemma findOrCreateHalifaxBank_spec (db : Db N) :
  systemAccountAvailable db ->
  exists h extra,
    findOrCreateHalifaxBank db =
      (Ok h, mkDb (customers db ++ extra) (transactions db)
                  (nextId db + List.length extra)) /\
    customerByEmail (mkDb (customers db ++ extra) (transactions db)
                       (nextId db + List.length extra)) HALIFAX_EMAIL = Some h /\
    In h (customers db ++ extra).
Proof.
  intros Hav. unfold findOrCreateHalifaxBank, bind, Customer_findOne_email.
  destruct (customerByEmail db HALIFAX_EMAIL) as [h|] eqn:Eh.
  - exists h, []. cbn [List.length]. rewrite app_nil_r, Nat.add_0_r.
    destruct db as [cs ts n]. cbn in *. repeat split; auto.
    unfold customerByEmail in Eh. apply find_some in Eh. tauto.
  - destruct Hav as [Hav|Hav]; [congruence|].
    eexists. eexists [_]. 
    unfold new_Customer, bind, newObjectId, ret, Customer_save.
    cbn [nextId customers transactions].
    match goal with |- context [Customer_valid ?c] => set (h := c) end.
    assert (Hv : Customer_valid h = true) by reflexivity.
    rewrite Hv. cbn [negb].
    assert (Hc : Customer_clashes h (customers db) = false).
    { unfold Customer_clashes. apply not_true_is_false. intro Hex.
      apply existsb_exists in Hex. destruct Hex as [d [Hd Hor]].
      apply orb_true_iff in Hor. destruct Hor as [He|Ha].
      - unfold customerByEmail in Eh. apply (find_none _ _ Eh) in Hd.
        change (c_email h) with (emailSetter HALIFAX_EMAIL) in He.
        cbv beta in Hd. congruence.
      - rewrite forallb_forall in Hav. apply Hav in Hd.
        assert (Ea : c_accountNumber h = "HALIFAX001") by reflexivity.
        rewrite Ea in Ha. rewrite Ha in Hd. discriminate. }
    rewrite Hc. cbn [List.length]. rewrite Nat.add_1_r.
    repeat split.
    + unfold customerByEmail. cbn [customers].
      unfold customerByEmail in Eh. rewrite (find_app_none _ _ _ Eh).
      reflexivity.
    + apply in_or_app. right. now left.
Qed.

Lemma found_accountNumber_truthy (db : Db N) (q : string) (X : Customer N) :
  wf_db db -> customerByAccountNumber db q = Some X -> falsyStr q = false.
Proof.
  intros Hwf HX. unfold customerByAccountNumber in HX.
  apply find_some in HX. destruct HX as [Hin Heq].
  apply String.eqb_eq in Heq.
  pose proof (wf_valid _ Hwf) as Hv. rewrite Forall_forall in Hv.
  apply Hv in Hin. unfold Customer_valid in Hin.
  rewrite !andb_true_iff in Hin.
  destruct Hin as [[[[[_ _] _] Ha] _] _].
  destruct q; [|reflexivity]. cbn in Heq. rewrite Heq in Ha. discriminate.
Qed.


End Deposit.

(* ================================================================= *)
(** ** Admin peer transfer *)

Section AdminTransfer.
Context {N : Type} `{NumberOrder N}.

Lemma not_falsy_not_nan (x : N) : falsy x = false -> isNaN x = false.
Proof.
  intro Hx. destruct (isNaN x) eqn:E; [|reflexivity].
  apply falsy_nan in E. congruence.
Qed.

(** An amount of zero never passes the required-fields test. *)
Lemma transfer_zero_amount_rejected (db : Db N) (now : Z)
    (fromUserId toUserId : option ObjectId) (A : N) (description : string) :
  falsy A = true ->
  transactions_POST true now
    (mkTransferBody fromUserId toUserId (Some A) description) db
  = (json (errorBody "From user, to user, and amount are required") 400, db).
Proof.
  intro HA. unfold transactions_POST, run, transactions_POST_body.
  cbn [negb tr_fromUserId tr_toUserId tr_amount].
  destruct fromUserId, toUserId; try reflexivity. now rewrite HA.
Qed.

(** C4. An admin transfer of [A] from [X] to [Y], with [A] present in
    the request and the balance of [X] below [A], is answered 400
    "Insufficient balance" and leaves the whole database, balances and
    transactions alike, as it was. *)
Theorem transfer_insufficient_balance (db : Db N) (now : Z)
    (fromUserId toUserId : ObjectId) (A : N) (description : string)
    (X Y : Customer N) :
  customerById db fromUserId = Some X ->
  customerById db toUserId = Some Y ->
  falsy A = false ->
  ltb (c_balance X) A = true ->
  transactions_POST true now
    (mkTransferBody (Some fromUserId) (Some toUserId) (Some A) description) db
  = (json (errorBody "Insufficient balance") 400, db).
Proof.
  intros HX HY HA Hlt.
  unfold transactions_POST, run, transactions_POST_body.
  cbn [negb tr_fromUserId tr_toUserId tr_amount]. rewrite HA.
  unfold bind, Customer_findById. rewrite HX, HY, Hlt. reflexivity.
Qed.

(** X1. Whatever its sign, an amount that is present and not above the
    sender's balance is transferred: one transaction is recorded, the
    sender loses [A] and the receiver gains [A]. *)
Lemma transfer_applied (db : Db N) (now : Z) (fromUserId toUserId : ObjectId)
    (A : N) (description : string) (X Y : Customer N) :
  customerById db fromUserId = Some X ->
  customerById db toUserId = Some Y ->
  fromUserId <> toUserId ->
  falsy A = false ->
  ltb (c_balance X) A = false ->
  exists r db',
    transactions_POST true now
      (mkTransferBody (Some fromUserId) (Some toUserId) (Some A) description)
      db = (r, db') /\
    status r = 201 /\
    transactions db' =
      transactions db ++
      [mkTransaction (nextId db) fromUserId toUserId A
         (orElse description "Transfer") now] /\
    option_map c_balance (customerById db' fromUserId)
      = Some (add (c_balance X) (neg A)) /\
    option_map c_balance (customerById db' toUserId)
      = Some (add (c_balance Y) A).
Proof.
  intros HX HY Hne HA Hlt.
  unfold transactions_POST, run, transactions_POST_body.
  cbn [negb tr_fromUserId tr_toUserId tr_amount tr_description]. rewrite HA.
  unfold bind at 1, Customer_findById at 1. rewrite HX.
  unfold bind at 1, Customer_findById at 1. rewrite HY, Hlt.
  unfold customerById in HX, HY.
  destruct db as [cs ts n]. cbn [customers] in HX, HY.
  cbv [bind new_Transaction newObjectId ret Transaction_save
       Customer_findByIdAndUpdate_inc populate_both populate customerById].
  cbn [customers transactions nextId tx_amount tx_id tx_fromUserId
       tx_toUserId tx_description].
  rewrite (not_falsy_not_nan _ HA).
  cbn [customers transactions nextId tx_amount tx_id tx_fromUserId
       tx_toUserId tx_description].
  rewrite !find_id_inc_balance, HX, HY. cbn [option_map].
  do 2 eexists. split; [reflexivity|].
  cbn [status json customers transactions nextId].
  rewrite !find_id_inc_balance, HX, HY, !Nat.eqb_refl.
  apply Nat.eqb_neq in Hne. rewrite Hne, (Nat.eqb_sym toUserId), Hne.
  cbn [option_map c_balance set_balance]. repeat split.
Qed.


End AdminTransfer.

(** C3, on the admin transfer route. A transfer of -5 from Ann to Bob
    is accepted with 201, records a transaction of -5 and moves 5 from
    Bob to Ann. *)
Theorem admin_transfer_negative_amount_accepted :
  transactions_POST true 1000
    (mkTransferBody (Some 1) (Some 2) (Some (-5)%float) "") twoCustomers
  = (json (JObj [
       ("message", JStr "Transaction created successfully");
       ("transaction", JObj [
          ("_id", JId 3);
          ("amount", JNum (-5)%float);
          ("description", JStr "Transfer");
          ("fromUser", JObj [("_id", JId 1); ("name", JStr "Ann Doe");
                             ("email", JStr "ann@example.com")]);
          ("toUser", JObj [("_id", JId 2); ("name", JStr "Bob Doe");
                           ("email", JStr "bob@example.com")]);
          ("createdAt", JDate 1000)])]) 201,
     mkDb [customerOf 1 "Ann" "ann@example.com" "1000000001" 105%float;
           customerOf 2 "Bob" "bob@example.com" "1000000002" 45%float]
          [mkTransaction 3 1 2 (-5)%float "Transfer" 1000] 4).
Proof. vm_compute. reflexivity. Qed.

(* ================================================================= *)
(** ** The collections stay well formed *)

Section Invariant.
Context {N : Type} `{Number N}.

Lemma ret_wf {A} (a : A) : preserves_wf N (ret a).
Proof. intros db Hwf. exact Hwf. Qed.

Lemma throw_wf {A} (e : Exn) : preserves_wf N (throw (A:=A) e).
Proof. intros db Hwf. exact Hwf. Qed.

Lemma bind_wf {A B} (m : M N A) (k : A -> M N B) :
  preserves_wf N m -> (forall a, preserves_wf N (k a)) ->
  preserves_wf N (bind m k).
Proof.
  intros Hm Hk db Hwf. unfold bind. specialize (Hm db Hwf).
  destruct (m db) as [[a|e] db1]; cbn in *; [now apply Hk|exact Hm].
Qed.

Lemma liftResult_wf {A} (r : Result A) :
  preserves_wf N (liftResult r).
Proof. intros db Hwf. exact Hwf. Qed.

Lemma Customer_findById_wf (id : ObjectId) :
  preserves_wf N (Customer_findById id).
Proof. intros db Hwf. exact Hwf. Qed.

Lemma Customer_findOne_email_wf (q : string) :
  preserves_wf N (Customer_findOne_email q).
Proof. intros db Hwf. exact Hwf. Qed.

Lemma Customer_findOne_accountNumber_wf (q : string) :
  preserves_wf N (Customer_findOne_accountNumber q).
Proof. intros db Hwf. exact Hwf. Qed.

Lemma map_c_id_inc_balance (id : ObjectId) (d : N) (l : list (Customer N)) :
  map (@c_id N) (inc_balance id d l) = map (@c_id N) l.
Proof.
  induction l as [|c r IH]; [reflexivity|]. cbn.
  destruct (c_id c =? id); cbn; [reflexivity|now rewrite IH].
Qed.

Lemma Forall_inc_balance (P : Customer N -> Prop) (id : ObjectId) (d : N)
    (l : list (Customer N)) :
  (forall c b, P c -> P (set_balance c b)) ->
  Forall P l -> Forall P (inc_balance id d l).
Proof.
  intros HP. induction 1 as [|c r Hc Hr IH]; cbn; [constructor|].
  destruct (c_id c =? id); constructor; auto.
Qed.

Lemma Customer_findByIdAndUpdate_inc_wf (id : ObjectId) (d : N) :
  preserves_wf N (Customer_findByIdAndUpdate_inc id d).
Proof.
  intros db [Hids Hvalid Hfresh Htx]. constructor; cbn.
  - now rewrite map_c_id_inc_balance.
  - apply Forall_inc_balance; auto.
  - apply Forall_inc_balance; auto.
  - exact Htx.
Qed.

(** A document made by [new Customer] and then saved. *)
Lemma new_Customer_save_wf {A}
    (firstname lastname email accountNumber password phoneNumber address
     city state country postalCode : string) (balance : N)
    (currency transactionPin : string) (k : Customer N -> M N A) :
  (forall c, preserves_wf N (k c)) ->
  preserves_wf N
    (c <- new_Customer firstname lastname email accountNumber password
            phoneNumber address city state country postalCode balance
            currency transactionPin ;;
     Customer_save c ;;; k c).
Proof.
  intros Hk db [Hids Hvalid Hfresh Htx].
  assert (Hlt : forall (X : Type) (f : X -> nat) (l : list X) n,
            Forall (fun x => f x < n) l -> Forall (fun x => f x < S n) l).
  { intros X f l n Hl. eapply Forall_impl; [|exact Hl]. cbv beta. lia. }
  cbv [bind new_Customer newObjectId ret Customer_save].
  destruct db as [cs ts n]. cbn [customers transactions nextId] in *.
  match goal with |- context [Customer_valid ?x] => set (c := x) end.
  destruct (Customer_valid c) eqn:Hv; cbn [negb];
    [|constructor; cbn; auto].
  destruct (Customer_clashes c cs); [constructor; cbn; auto|].
  apply Hk. constructor; cbn [customers transactions nextId]; auto.
  - rewrite map_app. apply NoDup_app; [exact Hids|repeat constructor; auto|].
    intros a Ha [<-|[]]. apply in_map_iff in Ha. destruct Ha as [x [Hx Hin]].
    rewrite Forall_forall in Hfresh. apply Hfresh in Hin. subst c. cbn in Hx. lia.
  - apply Forall_app. split; [exact Hvalid|]. repeat constructor. exact Hv.
  - apply Forall_app. split; [auto|]. repeat constructor.
Qed.

(** A document made by [new Transaction] and then saved. *)
Lemma new_Transaction_save_wf {A} (from to : ObjectId) (a : N)
    (descr : string) (now : Z) (k : Transaction N -> M N A) :
  (forall t, preserves_wf N (k t)) ->
  preserves_wf N
    (t <- new_Transaction from to a descr ;;
     t' <- Transaction_save now t ;; k t').
Proof.
  intros Hk db [Hids Hvalid Hfresh Htx].
  assert (Hlt : forall (X : Type) (f : X -> nat) (l : list X) n,
            Forall (fun x => f x < n) l -> Forall (fun x => f x < S n) l).
  { intros X f l n Hl. eapply Forall_impl; [|exact Hl]. cbv beta. lia. }
  cbv [bind new_Transaction newObjectId ret Transaction_save].
  destruct db as [cs ts n].
  cbn [customers transactions nextId tx_amount tx_id tx_fromUserId
       tx_toUserId tx_description] in *.
  destruct (isNaN a); [constructor; cbn; auto|].
  apply Hk. constructor; cbn [customers transactions nextId]; auto.
  apply Forall_app. split; [auto|]. repeat constructor.
Qed.

Lemma findOrCreateHalifaxBank_wf : preserves_wf N findOrCreateHalifaxBank.
Proof.
  unfold findOrCreateHalifaxBank.
  apply bind_wf; [apply Customer_findOne_email_wf|].
  intros [h|]; [apply ret_wf|].
  apply new_Customer_save_wf. intro c. apply ret_wf.
Qed.

Lemma Transaction_findById_populated_wf (id : ObjectId) :
  preserves_wf N (Transaction_findById_populated id).
Proof. intros db Hwf. exact Hwf. Qed.

Lemma populate_both_wf (t : Transaction N) : preserves_wf N (populate_both t).
Proof.
  intros db Hwf. unfold populate_both.
  destruct (populate db t) as [t' [f|] [g|]]; exact Hwf.
Qed.

Lemma run_wf (m : M N (Response N)) (db : Db N) :
  preserves_wf N m -> wf_db db -> wf_db (snd (run m db)).
Proof.
  intros Hm Hwf. unfold run. specialize (Hm db Hwf).
  destruct (m db) as [[r|e] db1]; exact Hm.
Qed.

Ltac wf_step :=
  match goal with
  | |- preserves_wf _ (ret _) => apply ret_wf
  | |- preserves_wf _ (if ?c then _ else _) => destruct c
  | |- preserves_wf _ (match ?x with _ => _ end) => destruct x
  | |- preserves_wf _ (bind (new_Transaction _ _ _ _) _) =>
      apply new_Transaction_save_wf; intro
  | |- preserves_wf _ (bind _ _) => apply bind_wf; [|intro]
  | |- preserves_wf _ findOrCreateHalifaxBank => apply findOrCreateHalifaxBank_wf
  | |- preserves_wf _ (Customer_findById _) => apply Customer_findById_wf
  | |- preserves_wf _ (Customer_findOne_accountNumber _) =>
      apply Customer_findOne_accountNumber_wf
  | |- preserves_wf _ (Customer_findByIdAndUpdate_inc _ _) =>
      apply Customer_findByIdAndUpdate_inc_wf
  | |- preserves_wf _ (Transaction_findById_populated _) =>
      apply Transaction_findById_populated_wf
  | |- preserves_wf _ (populate_both _) => apply populate_both_wf
  end.

(** Deposits and admin transfers keep the collections well formed. *)
Lemma deposit_POST_wf (session : bool) (now : Z) (b : DepositBody N)
    (db : Db N) :
  wf_db db -> wf_db (snd (deposit_POST session now b db)).
Proof.
  apply run_wf. unfold deposit_POST_body. repeat wf_step.
Qed.

Lemma transactions_POST_wf (session : bool) (now : Z) (b : TransferBody N)
    (db : Db N) :
  wf_db db -> wf_db (snd (transactions_POST session now b db)).
Proof.
  apply run_wf. unfold transactions_POST_body. repeat wf_step.
Qed.

End Invariant.

(* ================================================================= *)
(** ** Customer statement *)

Section StatementLemmas.
Context {N : Type} `{Number N} `{Crypto} `{ObjectIdString}.


Lemma insertByDate_In (p x : Populated N) (l : list (Populated N)) :
  In x (insertByDate p l) <-> x = p \/ In x l.
Proof.
  induction l as [|q r IH]; cbn.
  - intuition.
  - destruct (_ <=? _)%Z; cbn; [intuition|]. rewrite IH. intuition.
Qed.

Lemma sortByDate_In (x : Populated N) (l : list (Populated N)) :
  In x (sortByDate l) <-> In x l.
Proof.
  induction l as [|p r IH]; cbn; [tauto|].
  rewrite insertByDate_In, IH. intuition.
Qed.

Lemma insertByDate_sorted (p : Populated N) (l : list (Populated N)) :
  Sorted (fun a b => (dateOf a <= dateOf b)%Z) l ->
  Sorted (fun a b => (dateOf a <= dateOf b)%Z) (insertByDate p l).
Proof.
  induction l as [|q r IH]; cbn; intro Hs.
  - repeat constructor.
  - destruct (_ <=? _)%Z eqn:E.
    + constructor; [exact Hs|]. constructor. now apply Z.leb_le.
    + apply Z.leb_gt in E.
      inversion Hs as [|? ? Hr Hq]; subst.
      constructor; [auto|].
      destruct r as [|q' r']; cbn.
      * constructor. unfold dateOf. lia.
      * destruct (_ <=? _)%Z; constructor.
        -- unfold dateOf. lia.
        -- now inversion Hq.
Qed.

Lemma sortByDate_sorted (l : list (Populated N)) :
  Sorted (fun a b => (dateOf a <= dateOf b)%Z) (sortByDate l).
Proof.
  induction l as [|p r IH]; cbn; [constructor|].
  now apply insertByDate_sorted.
Qed.

Lemma Sorted_map_dates (l : list (Populated N)) :
  Sorted (fun a b => (dateOf a <= dateOf b)%Z) l ->
  Sorted Z.le (map (@tx_createdAt N) (map (@p_tx N) l)).
Proof.
  induction 1 as [|a l Hs IH Hd]; cbn; constructor; auto.
  destruct Hd; cbn; constructor; auto.
Qed.


Lemma populate_ok (db : Db N) (t : Transaction N) :
  populated_ok (populate db t).
Proof.
  intros f Hf. cbn in Hf. unfold customerById in Hf.
  apply find_some in Hf. now apply Nat.eqb_eq.
Qed.

Lemma statement_populated_ok (db : Db N) (l : list (Transaction N)) :
  Forall populated_ok (sortByDate (map (populate db) l)).
Proof.
  apply Forall_forall. intros p Hp.
  apply sortByDate_In, in_map_iff in Hp. destruct Hp as [t [<- _]].
  apply populate_ok.
Qed.

Lemma isDebitOf_spec (cid : ObjectId) (p : Populated N) (b : bool) :
  populated_ok p -> isDebitOf cid p = Ok b -> b = isDebit cid (p_tx p).
Proof.
  unfold isDebitOf, isDebit. intros Hp.
  destruct (p_from p) as [f|] eqn:Ef; [|discriminate].
  intros [= <-]. now rewrite (Hp f Ef).
Qed.

Lemma openingBalanceFrom_spec (cid : ObjectId) (ps : list (Populated N))
    (b o : N) :
  Forall populated_ok ps ->
  openingBalanceFrom cid ps b = Ok o ->
  o = reverseEffects cid (map (@p_tx N) ps) b.
Proof.
  intro Hps. revert b. induction Hps as [|p ps Hp _ IH]; intros b; cbn.
  - now intros [= <-].
  - destruct (isDebitOf cid p) as [d|] eqn:Ed; [|discriminate].
    apply (isDebitOf_spec _ _ _ Hp) in Ed. subst d.
    intro E. apply IH in E. exact E.
Qed.


Lemma formatTransactions_spec (cid : ObjectId) (o : N)
    (ps : list (Populated N)) (acc acc' : Totals N) (es : list (Json N)) :
  Forall populated_ok ps ->
  formatTransactions cid o acc ps = Ok (acc', es) ->
  totalCredits acc' = sumCredits cid (map (@p_tx N) ps) (totalCredits acc) /\
  totalDebits acc' = sumDebits cid (map (@p_tx N) ps) (totalDebits acc) /\
  map (get "balance") es =
    map JNum (balancesFrom cid o (totalCredits acc) (totalDebits acc)
                (map (@p_tx N) ps)) /\
  map (get "date") es = map JDate (map (@tx_createdAt N) (map (@p_tx N) ps)) /\
  map (get "amount") es = map JNum (map (@tx_amount N) (map (@p_tx N) ps)) /\
  creditCount acc' + debitCount acc' =
    creditCount acc + debitCount acc + List.length ps.
Proof.
  intro Hps. revert acc acc' es.
  induction Hps as [|p ps Hp _ IH]; intros acc acc' es; cbn [formatTransactions].
  - intros [= <- <-]. cbn. repeat split. lia.
  - unfold formatTransaction.
    destruct (isDebitOf cid p) as [d|] eqn:Ed; [|discriminate].
    apply (isDebitOf_spec _ _ _ Hp) in Ed. subst d.
    destruct (if isDebit cid (p_tx p) then p_to p else p_from p);
      [|discriminate].
    match goal with
    | |- context [formatTransactions cid o ?a ps] =>
        destruct (formatTransactions cid o a ps) as [[acc2 es2]|] eqn:E2;
          [|discriminate]
    end.
    intros [= <- <-]. apply IH in E2.
    destruct E2 as (Ec & Edb & Eb & Edt & Ea & En).
    cbn [map sumCredits sumDebits fold_left balancesFrom].
    unfold sumCredits, sumDebits in Ec, Edb.
    destruct (isDebit cid (p_tx p));
      cbn [totalCredits totalDebits creditCount debitCount] in *;
      rewrite Ec, Edb, Eb, Edt, Ea; cbn [List.length]; repeat split; lia.
Qed.

Lemma balancesFrom_prefix (cid : ObjectId) (o c d : N)
    (txs : list (Transaction N)) :
  balancesFrom cid o c d txs =
  map (fun k => sub (add o (sumCredits cid (firstn (S k) txs) c))
                    (sumDebits cid (firstn (S k) txs) d))
      (seq 0 (List.length txs)).
Proof.
  revert c d. induction txs as [|t r IH]; intros c d; [reflexivity|].
  cbn [balancesFrom List.length seq map].
  rewrite IH, <- seq_shift, map_map. reflexivity.
Qed.

Lemma balancesFrom_replayForward (cid : ObjectId) (o : N)
    (txs : list (Transaction N)) :
  balancesFrom cid o (lit 0) (lit 0) txs = replayForward cid o txs.
Proof. apply balancesFrom_prefix. Qed.

(** What a produced statement was computed from. *)
Lemma statement_GET_200 (request : Request) (query : StatementQuery)
    (now : Z) (db db' : Db N) (r : Response N) :
  statement_GET request query now db = (r, db') ->
  status r = 200 ->
  exists token decoded customer o acc es,
    let cid := customerId decoded in
    let ps := sortByDate (map (populate db)
                (filter (inStatement cid (rangeStart query now)
                           (rangeEnd query now)) (transactions db))) in
    extractTokenFromRequest request = Some token /\
    falsyStr token = false /\
    jwt_verify token = Some decoded /\
    customerById db cid = Some customer /\
    openingBalanceFrom cid ps (c_balance customer) = Ok o /\
    formatTransactions cid o noTotals ps = Ok (acc, es) /\
    get "statement" (body r) =
      statementData customer (rangeStart query now) (rangeEnd query now) now
        (summaryJson o (c_balance customer) acc (List.length ps)) es /\
    db' = db.
Proof.
  unfold statement_GET, statement_GET_body.
  destruct (extractTokenFromRequest request) as [token|] eqn:Ex;
    [|intros [= <- <-]; discriminate].
  destruct (falsyStr token) eqn:Etok; [intros [= <- <-]; discriminate|].
  unfold verifyToken.
  destruct (jwt_verify token) as [decoded|] eqn:Ev;
    [|intros [= <- <-]; discriminate].
  fold (rangeStart query now). fold (rangeEnd query now).
  destruct (rangeEnd query now <? rangeStart query now)%Z;
    [intros [= <- <-]; discriminate|].
  unfold bind at 1, Customer_findById.
  destruct (customerById db (customerId decoded)) as [customer|] eqn:Ec;
    [|intros [= <- <-]; discriminate].
  unfold bind at 1, Transaction_find_statement.
  unfold bind at 1, liftResult at 1.
  match goal with
  | |- context [openingBalanceFrom ?c ?l ?b] =>
      destruct (openingBalanceFrom c l b) as [o|] eqn:Eo;
        [|intros [= <- <-]; discriminate]
  end.
  unfold bind at 1, liftResult at 1.
  match goal with
  | |- context [formatTransactions ?c ?x ?a ?l] =>
      destruct (formatTransactions c x a l) as [[acc es]|] eqn:Ef;
        [|intros [= <- <-]; discriminate]
  end.
  cbn [fst snd].
  intros E Hst. exists token, decoded, customer, o, acc, es.
  cbv zeta.
  split; [reflexivity|]. split; [exact Etok|]. split; [exact Ev|].
  split; [exact Ec|]. split; [exact Eo|]. split; [exact Ef|].
  destruct (String.eqb _ "json"); [|destruct (String.eqb _ "pdf")];
    injection E as <- <-; try discriminate; split; reflexivity.
Qed.

Lemma authenticateRequest_Some (request : Request) (decoded : JWTPayload) :
  authenticateRequest request = Some decoded <->
  exists token, extractTokenFromRequest request = Some token /\
                falsyStr token = false /\ jwt_verify token = Some decoded.
Proof.
  unfold authenticateRequest, noToken, verifyToken.
  destruct (extractTokenFromRequest request) as [token|].
  - destruct (falsyStr token) eqn:Et.
    + split; [discriminate|]. intros (t & [= <-] & Hf & _). congruence.
    + destruct (jwt_verify token) as [p|] eqn:Ev.
      * split.
        -- intros [= <-]. now exists token.
        -- intros (t & [= <-] & _ & Hv). congruence.
      * split; [discriminate|]. intros (t & [= <-] & _ & Hv). congruence.
  - split; [discriminate|]. intros (t & Hx & _). discriminate.
Qed.

Lemma authenticateRequest_None (request : Request) :
  authenticateRequest request = None <->
  noToken (extractTokenFromRequest request) = true \/
  exists token, extractTokenFromRequest request = Some token /\
                jwt_verify token = None.
Proof.
  unfold authenticateRequest, noToken, verifyToken.
  destruct (extractTokenFromRequest request) as [token|].
  - destruct (falsyStr token) eqn:Et; [tauto|].
    destruct (jwt_verify token) as [p|] eqn:Ev.
    + split; [discriminate|].
      intros [Hf|(t & [= <-] & Hv)]; congruence.
    + split; [|reflexivity]. intros _. right. now exists token.
  - tauto.
Qed.

End StatementLemmas.

Section StatementTheorems.
Context {N : Type} `{Number N} `{Crypto} `{ObjectIdString}.


Lemma reverse_then_replay `{!ExactNumber N} (cid : ObjectId)
    (txs : list (Transaction N)) (b c d : N) :
  sub (add (reverseEffects cid txs b) (sumCredits cid txs c))
      (sumDebits cid txs d)
  = sub (add b c) d.
Proof.
  unfold reverseEffects, sumCredits, sumDebits.
  revert b c d. induction txs as [|t r IH]; intros b c d; [reflexivity|].
  cbn [fold_left]. rewrite IH.
  destruct (isDebit cid t); [apply debit_step|apply credit_step].
Qed.


(** A statement is produced whenever the token verifies, the customer
    exists, the range is in order, the format is known and no
    transaction in range refers to a deleted customer. *)
Lemma statement_produced (request : Request) (query : StatementQuery)
    (now : Z) (db : Db N) (decoded : JWTPayload) (customer : Customer N) :
  authenticateRequest request = Some decoded ->
  customerById db (customerId decoded) = Some customer ->
  (rangeStart query now <= rangeEnd query now)%Z ->
  (q_format query = None \/ q_format query = Some "json" \/
   q_format query = Some "pdf" \/ q_format query = Some "") ->
  Forall (fun t => customerById db (tx_fromUserId t) <> None /\
                   customerById db (tx_toUserId t) <> None)
    (transactions db) ->
  exists r, statement_GET request query now db = (r, db) /\ status r = 200.
Proof.
  intros Ha Hc Hrange Hfmt Hrefs.
  apply authenticateRequest_Some in Ha.
  destruct Ha as (token & Hx & Ht & Hv).
  unfold statement_GET, statement_GET_body.
  rewrite Hx, Ht. unfold verifyToken. rewrite Hv.
  fold (rangeStart query now). fold (rangeEnd query now).
  apply Z.ltb_ge in Hrange. rewrite Hrange.
  unfold bind at 1, Customer_findById. rewrite Hc.
  unfold bind at 1, Transaction_find_statement.
  set (ps := sortByDate _).
  assert (Hps : Forall (fun p => p_from p <> None /\ p_to p <> None) ps).
  { apply Forall_forall. intros p Hp. subst ps.
    apply sortByDate_In, in_map_iff in Hp. destruct Hp as [t [<- Hin]].
    apply filter_In in Hin. destruct Hin as [Hin _].
    rewrite Forall_forall in Hrefs. now apply Hrefs in Hin. }
  assert (Hopen : forall b, exists o,
            openingBalanceFrom (customerId decoded) ps b = Ok o).
  { clearbody ps. induction Hps as [|p l [Hf _] _ IH]; intro b; cbn.
    - now exists b.
    - unfold isDebitOf. destruct (p_from p); [|contradiction]. apply IH. }
  destruct (Hopen (c_balance customer)) as [o Ho].
  assert (Hfmtd : forall acc, exists res,
            formatTransactions (customerId decoded) o acc ps = Ok res).
  { clearbody ps. clear Ho Hopen.
    induction Hps as [|p l [Hf Hto] _ IH]; intro acc; cbn.
    - eexists; reflexivity.
    - unfold formatTransaction, isDebitOf.
      destruct (p_from p) as [f|]; [|contradiction].
      destruct (p_to p) as [t|]; [|contradiction].
      destruct (c_id f =? customerId decoded);
        match goal with
        | |- context [formatTransactions _ _ ?a l] =>
            destruct (IH a) as [[a' es'] ->]
        end; eexists; reflexivity. }
  destruct (Hfmtd noTotals) as [[acc es] Hf].
  unfold bind at 1, liftResult at 1. rewrite Ho.
  unfold bind at 1, liftResult at 1. rewrite Hf.
  destruct Hfmt as [-> | [-> | [-> | ->]]]; cbn; eexists; split; reflexivity.
Qed.


End StatementTheorems.

(* ================================================================= *)
(** ** Customer transfer *)

Section CustomerTransferTheorems.
Context {N : Type} `{Number N} `{NumberFormat N} `{Crypto}.

Lemma isPin_truthy (s : string) : isPin s = true -> falsyStr s = false.
Proof. destruct s; [discriminate|reflexivity]. Qed.

Lemma isReceiverName_truthy (s : string) :
  isReceiverName s = true -> falsyStr s = false.
Proof.
  destruct s; [|reflexivity]. unfold isReceiverName. cbn. discriminate.
Qed.

Lemma isSwiftCode_truthy (s : string) :
  isSwiftCode s = true -> falsyStr s = false.
Proof.
  destruct s; [|reflexivity]. unfold isSwiftCode. cbn. discriminate.
Qed.

Lemma extractToken_header (request : Request) (token : string) :
  extractTokenFromRequest request = Some token ->
  exists authHeader,
    authorization request = Some authHeader /\
    startsWith "Bearer " authHeader = true /\
    falsyStr authHeader = false /\
    token = dropStr 7 authHeader.
Proof.
  unfold extractTokenFromRequest.
  destruct (authorization request) as [h|]; [|discriminate].
  destruct (startsWith "Bearer " h) eqn:E; [|discriminate].
  intros [= <-]. exists h. repeat split; auto.
  destruct h; [discriminate|reflexivity].
Qed.

Lemma mask_four (a b c d : ascii) (r : string) :
  isLineTerminator a = false -> isLineTerminator b = false ->
  isLineTerminator c = false -> isLineTerminator d = false ->
  maskAccountNumber (String a (String b (String c (String d r))))
  = ("****" ++ r)%string.
Proof. intros Ha Hb Hc Hd. cbn. now rewrite Ha, Hb, Hc, Hd. Qed.

Lemma digit_not_lineTerminator (c : ascii) :
  isDigit c = true -> isLineTerminator c = false.
Proof.
  unfold isDigit, between, isLineTerminator. intro Hd.
  apply andb_true_iff in Hd. destruct Hd as [Hlo _].
  apply Nat.leb_le in Hlo.
  apply orb_false_iff. split; apply Nat.eqb_neq; lia.
Qed.

(** Four leading characters on one line are what the mask replaces. *)
Lemma mask_prefix (s : string) :
  4 <= String.length s ->
  allChars (fun c => negb (isLineTerminator c)) (takeStr 4 s) = true ->
  maskAccountNumber s = ("****" ++ dropStr 4 s)%string.
Proof.
  intros Hl Hp.
  destruct s as [|a [|b [|c [|d r]]]]; cbn in Hl; try lia.
  cbn [takeStr allChars] in Hp. rewrite !andb_true_iff in Hp.
  destruct Hp as (Ha & Hb & Hc & Hd & _).
  apply negb_true_iff in Ha, Hb, Hc, Hd. now apply mask_four.
Qed.

Lemma mask_local (s : string) :
  isLocalAccountNumber s = true ->
  maskAccountNumber s = ("****" ++ dropStr 4 s)%string.
Proof.
  unfold isLocalAccountNumber, lengthBetween. intro Hs.
  apply andb_true_iff in Hs. destruct Hs as [Hd Hl].
  apply andb_true_iff in Hl. destruct Hl as [Hl _]. apply Nat.leb_le in Hl.
  apply mask_prefix; [lia|].
  destruct s as [|a [|b [|c [|d r]]]]; cbn in Hl; try lia.
  cbn [allChars] in Hd. rewrite !andb_true_iff in Hd.
  destruct Hd as (Ha & Hb & Hc & Hd & _).
  cbn [takeStr allChars].
  now rewrite !(digit_not_lineTerminator _ Ha), !(digit_not_lineTerminator _ Hb),
    !(digit_not_lineTerminator _ Hc), !(digit_not_lineTerminator _ Hd).
Qed.

(** The handler reads the database and never writes it. *)
Lemma transfer_POST_readonly (request : Request) (b : CustomerTransferBody N)
    (now : Z) (db : Db N) :
  snd (transfer_POST request b now db) = db.
Proof.
  unfold transfer_POST, run, transfer_POST_body.
  destruct (authorization request) as [h|]; [|reflexivity].
  destruct (falsyStr h || negb (startsWith "Bearer " h)); [reflexivity|].
  destruct (verifyToken (dropStr 7 h)) as [decoded|]; [|reflexivity].
  destruct (ct_amount b) as [amount|]; [|reflexivity].
  repeat match goal with
         | |- context [if ?c then ret _ else _] => destruct c; [reflexivity|]
         end.
  unfold bind, Customer_findById.
  destruct (customerById db (customerId decoded)); [|reflexivity].
  repeat match goal with
         | |- context [if ?c then ret _ else _] => destruct c; [reflexivity|]
         end.
  reflexivity.
Qed.

(** An amount that is not positive is turned away at the amount check
    at the latest. *)
Lemma transfer_POST_nonpositive (request : Request)
    (b : CustomerTransferBody N) (now : Z) (db : Db N) (A : N) :
  ct_amount b = Some A ->
  leb A (lit 0) = true ->
  exists r, transfer_POST request b now db = (r, db) /\
            (status r = 400 \/ status r = 401).
Proof.
  intros HA Hle.
  unfold transfer_POST, run, transfer_POST_body.
  destruct (authorization request) as [h|]; [|eexists; split; [reflexivity|now right]].
  destruct (falsyStr h || negb (startsWith "Bearer " h));
    [eexists; split; [reflexivity|now right]|].
  destruct (verifyToken (dropStr 7 h));
    [|eexists; split; [reflexivity|now right]].
  rewrite HA.
  repeat match goal with
         | |- context [if ?c then ret _ else _] =>
             lazymatch c with
             | context [leb] => fail
             | _ => destruct c; [eexists; split; [reflexivity|now left]|]
             end
         end.
  unfold parseFloat. rewrite Hle, orb_true_r.
  eexists; split; [reflexivity|now left].
Qed.


End CustomerTransferTheorems.

(* ================================================================= *)
(** ** Account numbers *)

Lemma digitChar_isDigit (d : Z) :
  (0 <= d < 10)%Z -> isDigit (digitChar d) = true.
Proof.
  intro Hd.
  assert (E : (d = 0 \/ d = 1 \/ d = 2 \/ d = 3 \/ d = 4 \/ d = 5 \/ d = 6 \/
               d = 7 \/ d = 8 \/ d = 9)%Z) by lia.
  repeat (destruct E as [->|E]; [reflexivity|]). now subst.
Qed.

Lemma digitsOf_length (k : nat) :
  forall (fuel : nat) (z : Z) (acc : string),
    (10 ^ Z.of_nat k <= z < 10 ^ Z.of_nat (S k))%Z ->
    k < fuel ->
    String.length (digitsOf fuel z acc) = S k + String.length acc.
Proof.
  induction k as [|k IH]; intros fuel z acc Hz Hf;
    (destruct fuel as [|fuel]; [lia|]); cbn [digitsOf].
  - change (10 ^ Z.of_nat 1)%Z with 10%Z in Hz.
    destruct (Z.ltb_spec z 10); [reflexivity|lia].
  - assert (H10 : (10 <= z)%Z).
    { destruct Hz as [Hlo _]. rewrite Nat2Z.inj_succ, Z.pow_succ_r in Hlo by lia.
      assert (0 < 10 ^ Z.of_nat k)%Z by (apply Z.pow_pos_nonneg; lia). lia. }
    destruct (Z.ltb_spec z 10); [lia|].
    rewrite IH; [cbn; lia| |lia].
    rewrite !Nat2Z.inj_succ, !Z.pow_succ_r in * by lia.
    split.
    + apply Z.div_le_lower_bound; lia.
    + apply Z.div_lt_upper_bound; lia.
Qed.

Lemma digitsOf_digits (fuel : nat) :
  forall (z : Z) (acc : string),
    (0 <= z)%Z -> allChars isDigit acc = true ->
    allChars isDigit (digitsOf fuel z acc) = true.
Proof.
  induction fuel as [|fuel IH]; intros z acc Hz Hacc; cbn [digitsOf]; [exact Hacc|].
  assert (Hd : allChars isDigit (String (digitChar (z mod 10)) acc) = true).
  { cbn [allChars]. rewrite digitChar_isDigit, Hacc; [reflexivity|].
    apply Z.mod_pos_bound. lia. }
  destruct (z <? 10)%Z; [exact Hd|].
  apply IH; [|exact Hd]. apply Z.div_pos; lia.
Qed.

Lemma randomDigits_range (r : Q) :
  (0 <= r)%Q -> (r < 1)%Q ->
  (1000000000 <= randomDigits r < 10000000000)%Z.
Proof.
  intros Hlo Hhi. unfold randomDigits. split.
  - rewrite <- (Qfloor_Z 1000000000) at 1.
    apply Qfloor_resp_le. unfold inject_Z. lra.
  - rewrite Zlt_Qlt.
    eapply Qle_lt_trans; [apply Qfloor_le|]. unfold inject_Z. lra.
Qed.

Lemma Z_toString_ten_digits (z : Z) :
  (1000000000 <= z < 10000000000)%Z ->
  String.length (Z_toString z) = 10 /\ allChars isDigit (Z_toString z) = true.
Proof.
  intro Hz. unfold Z_toString.
  destruct (Z.ltb_spec z 0); [lia|]. split.
  - rewrite (digitsOf_length 9); [reflexivity|cbn; lia|].
    assert (29 <= Z.log2 z)%Z.
    { change 29%Z with (Z.log2 1000000000). apply Z.log2_le_mono. lia. }
    lia.
  - apply digitsOf_digits; [lia|reflexivity].
Qed.

Lemma digit_not_space (c : ascii) : isDigit c = true -> isSpace c = false.
Proof.
  unfold isDigit, isSpace, between. intro Hd.
  apply andb_true_iff in Hd. destruct Hd as [Hlo Hhi].
  apply Nat.leb_le in Hlo, Hhi.
  rewrite !orb_false_iff. repeat split.
  - apply andb_false_iff. right. apply Nat.leb_gt. lia.
  - apply Nat.eqb_neq. lia.
  - apply Nat.eqb_neq. lia.
Qed.

Lemma trimEnd_digits (s : string) : allChars isDigit s = true -> trimEnd s = s.
Proof.
  induction s as [|c r IH]; [reflexivity|]. cbn [allChars trimEnd].
  intro H. apply andb_true_iff in H. destruct H as [Hc Hr].
  rewrite (IH Hr), (digit_not_space _ Hc). now destruct r.
Qed.

Lemma trim_digits (s : string) : allChars isDigit s = true -> trim s = s.
Proof.
  intro Hs. unfold trim.
  assert (E : trimStart s = s).
  { destruct s as [|c r]; [reflexivity|]. cbn in *.
    apply andb_true_iff in Hs. destruct Hs as [Hc _].
    now rewrite (digit_not_space _ Hc). }
  rewrite E. now apply trimEnd_digits.
Qed.

Section AccountUtilsTheorems.
Context {N : Type} `{Number N}.

Lemma generateLoop_spec (random : nat -> Q) (db : Db N) (remaining : nat) :
  forall attempts,
    (exists i,
       attempts <= i < attempts + remaining /\
       generateLoop random remaining attempts db
         = (Ok (Some (candidate random i)), db) /\
       customerByAccountNumber db (candidate random i) = None) \/
    (generateLoop random remaining attempts db = (Ok None, db) /\
     forall i, attempts <= i < attempts + remaining ->
               customerByAccountNumber db (candidate random i) <> None).
Proof.
  induction remaining as [|remaining IH]; intro attempts; cbn [generateLoop].
  - right. split; [reflexivity|]. intros i Hi. lia.
  - unfold bind, Customer_findOne_accountNumber. fold (candidate random attempts).
    destruct (customerByAccountNumber db (candidate random attempts)) eqn:E.
    + destruct (IH (S attempts)) as [(i & Hi & Hg & Hn)|[Hg Hall]].
      * left. exists i. repeat split; auto; lia.
      * right. split; [exact Hg|]. intros i Hi.
        destruct (Nat.eq_dec i attempts) as [->|]; [congruence|].
        apply Hall. lia.
    + left. exists attempts. repeat split; auto; lia.
Qed.


End AccountUtilsTheorems.

(* ================================================================= *)
(** ** Registration *)

Lemma lowerChar_idempotent (c : ascii) : lowerChar (lowerChar c) = lowerChar c.
Proof. destruct c as [[] [] [] [] [] [] [] []]; reflexivity. Qed.

Lemma isSpace_lowerChar (c : ascii) : isSpace (lowerChar c) = isSpace c.
Proof. destruct c as [[] [] [] [] [] [] [] []]; reflexivity. Qed.

Lemma toLowerCase_idempotent (s : string) :
  toLowerCase (toLowerCase s) = toLowerCase s.
Proof.
  unfold toLowerCase. induction s as [|c r IH]; [reflexivity|].
  cbn [mapStr]. now rewrite IH, lowerChar_idempotent.
Qed.

Lemma trimStart_toLowerCase (s : string) :
  trimStart (toLowerCase s) = toLowerCase (trimStart s).
Proof.
  unfold toLowerCase. induction s as [|c r IH]; [reflexivity|].
  cbn [mapStr trimStart]. rewrite isSpace_lowerChar.
  destruct (isSpace c); [exact IH|reflexivity].
Qed.

Lemma trimEnd_toLowerCase (s : string) :
  trimEnd (toLowerCase s) = toLowerCase (trimEnd s).
Proof.
  unfold toLowerCase. induction s as [|c r IH]; [reflexivity|].
  cbn [mapStr trimEnd]. rewrite IH, isSpace_lowerChar.
  destruct (trimEnd r); cbn [mapStr]; [destruct (isSpace c)|]; reflexivity.
Qed.

Lemma emailSetter_toLowerCase (e : string) :
  emailSetter (toLowerCase e) = emailSetter e.
Proof.
  unfold emailSetter, trim.
  now rewrite trimStart_toLowerCase, trimEnd_toLowerCase,
    toLowerCase_idempotent.
Qed.

Lemma find_exists {A} (p : A -> bool) (l : list A) (x : A) :
  In x l -> p x = true -> find p l <> None.
Proof.
  intros Hin Hp Hnone. apply (find_none _ _ Hnone) in Hin. congruence.
Qed.

Section RegisterTheorems.
Context {N : Type} `{Number N} `{Crypto}.

Lemma register_email_in_use (random : nat -> Q) (b : RegisterBody) (db : Db N) :
  fieldsOk b ->
  customerByEmail db (r_email b) <> None ->
  register_POST random b db
  = (json (failBody "Customer with this email already exists") 409, db).
Proof.
  intros (Hf & Hl & He & Hp & Hpin) Hin.
  unfold register_POST, register_POST_body.
  rewrite Hf, Hl, He, Hp, (isPin_truthy _ Hpin), Hpin. cbn [orb negb].
  unfold bind at 1, Customer_findOne_email.
  destruct (customerByEmail db (r_email b)); [reflexivity|congruence].
Qed.

Lemma register_created (random : nat -> Q) (b : RegisterBody) (db db' : Db N)
    (r : Response N) :
  register_POST random b db = (r, db') ->
  status r = 201 ->
  exists c, customers db' = customers db ++ [c] /\
            c_email c = emailSetter (toLowerCase (r_email b)) /\
            customerByEmail db (r_email b) = None.
Proof.
  unfold register_POST, register_POST_body.
  destruct (_ || _); [intros [= <- <-]; discriminate|].
  destruct (negb _); [intros [= <- <-]; discriminate|].
  unfold bind at 1, Customer_findOne_email.
  destruct (customerByEmail db (r_email b)) eqn:Ee;
    [intros [= <- <-]; discriminate|].
  unfold bind at 1.
  destruct (generateUniqueAccountNumber random db) as [[acct|e] db1] eqn:Eg.
  2:{ destruct e; intros [= <- <-]; discriminate. }
  assert (db1 = db) as ->.
  { unfold generateUniqueAccountNumber, bind in Eg.
    destruct (generateLoop_spec random db maxAttempts 0)
      as [(i & _ & Hg & _)|[Hg _]]; rewrite Hg in Eg;
      cbv [ret throw] in Eg; congruence. }
  cbv [bind new_Customer newObjectId ret Customer_save].
  destruct db as [cs ts n]. cbn [customers transactions nextId].
  destruct (negb _); [intros [= <- <-]; discriminate|].
  destruct (Customer_clashes _ _); [intros [= <- <-]; discriminate|].
  intros [= <- <-] _. eexists. repeat split.
Qed.


(** C8. Once a registration has succeeded, a second registration with
    the same email that passes the field checks is answered 409 and
    leaves the database as the first one left it. *)
Theorem second_registration_conflict (random1 random2 : nat -> Q)
    (b1 b2 : RegisterBody) (db db1 : Db N) (r1 : Response N) :
  register_POST random1 b1 db = (r1, db1) ->
  status r1 = 201 ->
  fieldsOk b2 ->
  r_email b2 = r_email b1 ->
  register_POST random2 b2 db1
  = (json (failBody "Customer with this email already exists") 409, db1).
Proof.
  intros E1 H201 Hok Hmail.
  destruct (register_created _ _ _ _ _ E1 H201) as (c & Hcs & Hc & _).
  apply register_email_in_use; [exact Hok|].
  unfold customerByEmail. rewrite Hcs.
  apply (find_exists _ _ c); [apply in_or_app; right; now left|].
  rewrite Hc, Hmail, emailSetter_toLowerCase. apply String.eqb_refl.
Qed.

End RegisterTheorems.

(* ================================================================= *)
(** ** The handlers on sample data *)

Section Examples.
#[local] Existing Instance sampleCrypto.
#[local] Existing Instance sampleIds.
#[local] Existing Instance sampleFormat.

Lemma twoCustomers_wf : wf_db twoCustomers.
Proof.
  constructor; cbn.
  - repeat constructor; cbn; intuition; discriminate.
  - repeat constructor.
  - repeat constructor.
  - constructor.
Qed.


Lemma transfer_insufficient_balance_witness :
  transactions_POST true 1000
    (mkTransferBody (Some 1) (Some 2) (Some 500%float) "") twoCustomers
  = (json (errorBody "Insufficient balance") 400, twoCustomers).
Proof.
  apply (transfer_insufficient_balance twoCustomers 1000 1 2 500%float ""
           (ann 100%float) (bob 50%float)); vm_compute; reflexivity.
Defined.








Lemma annPaysBob_passesValidation :
  passesValidation annRequest annPaysBob twoCustomers (ann 100%float) 25%float.
Proof.
  constructor; try (vm_compute; reflexivity).
  - exists "token-of-1", (mkPayload 1 "ann@example.com" "1000000001").
    repeat split.
  - left. split; reflexivity.
Qed.



Lemma second_registration_conflict_witness :
  status (fst (register_POST half carol twoCustomers)) = 201 /\
  register_POST half carol (snd (register_POST half carol twoCustomers))
  = (json (failBody "Customer with this email already exists") 409,
     snd (register_POST half carol twoCustomers)).
Proof.
  split; [vm_compute; reflexivity|].
  refine (second_registration_conflict half half carol carol twoCustomers
            (snd (register_POST half carol twoCustomers))
            (fst (register_POST half carol twoCustomers)) _ _ _ _).
  - apply surjective_pairing.
  - vm_compute. reflexivity.
  - repeat split.
  - reflexivity.
Defined.

End Examples.

(* ================================================================= *)
(** ** Admin peer transfer: every request *)

Section AdminTransferAll.
Context {N : Type} `{NumberOrder N}.

(** The two ways a transfer request ends: refused before anything is
    written, or applied in full. *)
Lemma transactions_POST_inv (session : bool) (now : Z) (b : TransferBody N)
    (db : Db N) :
  exists r db',
    transactions_POST session now b db = (r, db') /\
    (((status r = 400 \/ status r = 401 \/ status r = 404) /\ db' = db) \/
     (exists fromUserId toUserId A X Y,
        tr_fromUserId b = Some fromUserId /\ tr_toUserId b = Some toUserId /\
        tr_amount b = Some A /\ falsy A = false /\
        customerById db fromUserId = Some X /\
        customerById db toUserId = Some Y /\
        ltb (c_balance X) A = false /\
        status r = 201 /\
        db' = mkDb (inc_balance toUserId A
                      (inc_balance fromUserId (neg A) (customers db)))
                   (transactions db ++
                    [mkTransaction (nextId db) fromUserId toUserId A
                       (orElse (tr_description b) "Transfer") now])
                   (S (nextId db)))).
Proof.
  unfold transactions_POST, run, transactions_POST_body.
  destruct session; cbn [negb];
    [|do 2 eexists; split; [reflexivity|left; cbn; auto]].
  destruct (tr_fromUserId b) as [f|] eqn:Ef;
    [|do 2 eexists; split; [reflexivity|left; cbn; auto]].
  destruct (tr_toUserId b) as [t|] eqn:Et;
    [|do 2 eexists; split; [reflexivity|left; cbn; auto]].
  destruct (tr_amount b) as [A|] eqn:EA;
    [|do 2 eexists; split; [reflexivity|left; cbn; auto]].
  destruct (falsy A) eqn:HA;
    [do 2 eexists; split; [reflexivity|left; cbn; auto]|].
  unfold bind at 1, Customer_findById at 1.
  destruct (customerById db f) as [X|] eqn:HX.
  2:{ unfold bind at 1, Customer_findById at 1.
      destruct (customerById db t);
        do 2 eexists; (split; [reflexivity|left; cbn; auto]). }
  unfold bind at 1, Customer_findById at 1.
  destruct (customerById db t) as [Y|] eqn:HY;
    [|do 2 eexists; split; [reflexivity|left; cbn; auto]].
  destruct (ltb (c_balance X) A) eqn:Hlt;
    [do 2 eexists; split; [reflexivity|left; cbn; auto]|].
  unfold customerById in HX, HY |- *.
  destruct db as [cs ts n]. cbn [customers] in HX, HY.
  cbv [bind new_Transaction newObjectId ret Transaction_save
       Customer_findByIdAndUpdate_inc populate_both populate customerById].
  cbn [customers transactions nextId tx_amount tx_id tx_fromUserId
       tx_toUserId tx_description].
  rewrite (not_falsy_not_nan _ HA).
  cbn [customers transactions nextId tx_amount tx_id tx_fromUserId
       tx_toUserId tx_description].
  rewrite !find_id_inc_balance, HX, HY. cbn [option_map].
  do 2 eexists. split; [reflexivity|]. right.
  exists f, t, A, X, Y. cbn [status json]. repeat split; assumption.
Qed.


(** X3. An admin transfer leaves every customer other than the two it
    names as it was stored. *)
Theorem admin_transfer_frame (session : bool) (now : Z) (b : TransferBody N)
    (db db' : Db N) (r : Response N) (i : ObjectId) :
  transactions_POST session now b db = (r, db') ->
  tr_fromUserId b <> Some i ->
  tr_toUserId b <> Some i ->
  customerById db' i = customerById db i.
Proof.
  intros E Hf Ht.
  destruct (transactions_POST_inv session now b db)
    as (r0 & db0 & E0 & [[Hs ->]|(f & t & A & X & Y & Ef & Et & _ & _ & _ & _ & _ & _ & ->)]);
    rewrite E0 in E; injection E as <- <-; [reflexivity|].
  unfold customerById. cbn [customers].
  rewrite !find_id_inc_balance.
  assert ((i =? t) = false) as -> by (apply Nat.eqb_neq; congruence).
  assert ((i =? f) = false) as -> by (apply Nat.eqb_neq; congruence).
  destruct (find _ (customers db)); reflexivity.
Qed.

End AdminTransferAll.

Section Conservation.
Context {N : Type} `{NumberOrder N} `{!ExactNumber N}.

Lemma fold_balance_shift (l : list (Customer N)) (s d : N) :
  fold_left (fun s c => add s (c_balance c)) l (add s d)
  = add (fold_left (fun s c => add s (c_balance c)) l s) d.
Proof.
  revert s. induction l as [|c r IH]; intro s; [reflexivity|].
  cbn [fold_left]. rewrite <- IH. f_equal. apply add_swap_r.
Qed.

Lemma totalBalance_inc_balance (id : ObjectId) (d : N) (l : list (Customer N))
    (c : Customer N) :
  find (fun c => c_id c =? id) l = Some c ->
  totalBalance (inc_balance id d l) = add (totalBalance l) d.
Proof.
  unfold totalBalance. generalize (lit 0 : N).
  induction l as [|a r IH]; intros s Hf; [discriminate|].
  cbn [find] in Hf. cbn [inc_balance].
  destruct (c_id a =? id).
  - cbn [fold_left c_balance set_balance].
    rewrite add_assoc. apply fold_balance_shift.
  - cbn [fold_left]. now apply IH.
Qed.

(** X4. In exact arithmetic an admin transfer, applied or refused,
    leaves the sum of all balances as it was. *)
Theorem admin_transfer_conserves_total (session : bool) (now : Z)
    (b : TransferBody N) (db db' : Db N) (r : Response N) :
  transactions_POST session now b db = (r, db') ->
  totalBalance (customers db') = totalBalance (customers db).
Proof.
  intro E.
  destruct (transactions_POST_inv session now b db)
    as (r0 & db0 & E0 & [[Hs ->]|(f & t & A & X & Y & _ & _ & _ & _ & HX & HY & _ & _ & ->)]);
    rewrite E0 in E; injection E as <- <-; [reflexivity|].
  cbn [customers]. unfold customerById in HX, HY.
  assert (HY' : find (fun c => c_id c =? t)
                  (inc_balance f (neg A) (customers db)) <> None).
  { rewrite find_id_inc_balance, HY. discriminate. }
  destruct (find (fun c => c_id c =? t) (inc_balance f (neg A) (customers db)))
    as [Y'|] eqn:EY'; [|congruence].
  rewrite (totalBalance_inc_balance _ _ _ _ EY').
  rewrite (totalBalance_inc_balance _ _ _ _ HX).
  apply add_neg_add_cancel.
Qed.

End Conservation.

(* ================================================================= *)
(** ** Admin deposit: every request *)

Section DepositAll.
Context {N : Type} `{NumberOrder N}.

Lemma findOrCreateHalifaxBank_cases (db : Db N) :
  (exists h extra,
     findOrCreateHalifaxBank db =
       (Ok h, mkDb (customers db ++ extra) (transactions db)
                   (nextId db + List.length extra)) /\
     In h (customers db ++ extra) /\
     ((customerByEmail db HALIFAX_EMAIL = Some h /\ extra = []) \/
      (customerByEmail db HALIFAX_EMAIL = None /\ extra = [h] /\
       Customer_clashes h (customers db) = false))) \/
  (exists e n',
     findOrCreateHalifaxBank db =
       (Throw e, mkDb (customers db) (transactions db) n')).
Proof.
  unfold findOrCreateHalifaxBank, bind, Customer_findOne_email.
  destruct (customerByEmail db HALIFAX_EMAIL) as [h|] eqn:Eh.
  - left. exists h, []. cbn [List.length]. rewrite app_nil_r, Nat.add_0_r.
    destruct db as [cs ts n]. cbn in *. repeat split; auto.
    unfold customerByEmail in Eh. apply find_some in Eh. tauto.
  - unfold new_Customer, bind, newObjectId, ret, Customer_save.
    cbn [nextId customers transactions].
    match goal with |- context [Customer_valid ?c] => set (h := c) end.
    assert (Hv : Customer_valid h = true) by reflexivity.
    rewrite Hv. cbn [negb].
    destruct (Customer_clashes h (customers db)) eqn:Ecl.
    + right. do 2 eexists. reflexivity.
    + left. exists h, [h]. cbn [List.length]. rewrite Nat.add_1_r.
      repeat split; auto. apply in_or_app. right. now left.
Qed.

(** The three ways a deposit request ends on a well-formed database:
    refused before anything is written, stopped while the system
    account is being created, or applied in full. *)
Lemma deposit_POST_inv (session : bool) (now : Z) (b : DepositBody N)
    (db : Db N) :
  wf_db db ->
  exists r db',
    deposit_POST session now b db = (r, db') /\
    (((status r = 400 \/ status r = 401 \/ status r = 404) /\ db' = db) \/
     (status r = 500 /\ customers db' = customers db /\
      transactions db' = transactions db) \/
     (exists A X h extra,
        dep_amount b = Some A /\
        falsy A = false /\ leb A (lit 0) = false /\
        customerByAccountNumber db (dep_accountNumber b) = Some X /\
        ((customerByEmail db HALIFAX_EMAIL = Some h /\ extra = []) \/
         (customerByEmail db HALIFAX_EMAIL = None /\ extra = [h] /\
          Customer_clashes h (customers db) = false)) /\
        status r = 201 /\
        db' = mkDb (inc_balance (c_id X) A (customers db ++ extra))
                   (transactions db ++
                    [mkTransaction (nextId db + List.length extra) (c_id h)
                       (c_id X) A
                       (orElse (dep_description b)
                          ("Deposit to account " ++ dep_accountNumber b))
                       now])
                   (S (nextId db + List.length extra)))).
Proof.
  intro Hwf.
  unfold deposit_POST, run, deposit_POST_body.
  destruct session; cbn [negb];
    [|do 2 eexists; split; [reflexivity|left; cbn; auto]].
  destruct (dep_amount b) as [A|] eqn:EA;
    [|do 2 eexists; split; [reflexivity|left; cbn; auto]].
  destruct (falsyStr (dep_accountNumber b) || falsy A) eqn:Hfa;
    [do 2 eexists; split; [reflexivity|left; cbn; auto]|].
  apply orb_false_iff in Hfa. destruct Hfa as [_ HA].
  destruct (leb A (lit 0)) eqn:Hle;
    [do 2 eexists; split; [reflexivity|left; cbn; auto]|].
  unfold bind at 1, Customer_findOne_accountNumber.
  destruct (customerByAccountNumber db (dep_accountNumber b)) as [X|] eqn:HX;
    [|do 2 eexists; split; [reflexivity|left; cbn; auto]].
  unfold bind at 1.
  destruct (findOrCreateHalifaxBank_cases db)
    as [(h & extra & E1 & E3 & Hex)|(e & n' & E1)]; rewrite E1; clear E1.
  2:{ do 2 eexists. split; [reflexivity|]. right. left. cbn. auto. }
  pose proof (wf_tx_fresh _ Hwf) as Hfresh.
  pose proof (HX' := HX).
  unfold customerByAccountNumber in HX'.
  destruct db as [cs ts n]. cbn [customers transactions nextId] in *.
  assert (Htx : find (fun t => tx_id t =? n + List.length extra) ts = None).
  { destruct (find _ ts) as [t|] eqn:E; [|reflexivity].
    apply find_some in E. destruct E as [Hin Heq].
    apply Nat.eqb_eq in Heq.
    rewrite Forall_forall in Hfresh. apply Hfresh in Hin. lia. }
  destruct (find (fun c => c_id c =? c_id X) (cs ++ extra)) as [X0|] eqn:HfX.
  2:{ exfalso. apply find_some in HX'. destruct HX' as [Hin _].
      apply (find_In_id (cs ++ extra) X); [|exact HfX].
      apply in_or_app. now left. }
  destruct (find (fun c => c_id c =? c_id h) (cs ++ extra))
    as [h0|] eqn:Hfh; [|now apply find_In_id in E3].
  cbv [bind new_Transaction newObjectId ret Transaction_save
       Customer_findByIdAndUpdate_inc Customer_findById
       Transaction_findById_populated parseFloat].
  cbn [customers transactions nextId tx_amount tx_id tx_fromUserId
       tx_toUserId tx_description].
  rewrite (not_falsy_not_nan _ HA).
  cbn [customers transactions nextId tx_amount tx_id tx_fromUserId
       tx_toUserId tx_description].
  rewrite (find_app_none _ _ _ Htx). cbn [find tx_id].
  rewrite Nat.eqb_refl. cbn [option_map populate tx_fromUserId tx_toUserId].
  unfold customerById. cbn [customers].
  rewrite !find_id_inc_balance, HfX, Hfh. cbn [option_map].
  do 2 eexists. split; [reflexivity|]. right. right.
  exists A, X, h, extra. cbn [status json]. repeat split; auto.
Qed.


(** X6. A deposit leaves every customer other than the one credited as
    it was stored; the system account, which the transaction names as
    its source, is not debited. *)
Theorem deposit_frame (session : bool) (now : Z) (b : DepositBody N)
    (db db' : Db N) (r : Response N) (i : ObjectId) (Y : Customer N) :
  wf_db db ->
  deposit_POST session now b db = (r, db') ->
  customerById db i = Some Y ->
  (forall X, customerByAccountNumber db (dep_accountNumber b) = Some X ->
             c_id X <> i) ->
  customerById db' i = Some Y.
Proof.
  intros Hwf E HY Hne.
  destruct (deposit_POST_inv session now b db Hwf)
    as (r0 & db0 & E0 &
        [[Hs ->]|[(Hs & Hc & Ht)|(A & X & h & extra & _ & _ & _ & HX & _ & _ & ->)]]);
    rewrite E0 in E; injection E as <- <-.
  - exact HY.
  - unfold customerById in *. now rewrite Hc.
  - unfold customerById in *. cbn [customers].
    rewrite find_id_inc_balance, (find_app_l _ _ _ _ HY). cbn [option_map].
    specialize (Hne X HX).
    assert ((i =? c_id X) = false) as -> by (apply Nat.eqb_neq; congruence).
    reflexivity.
Qed.

End DepositAll.

Section DepositTotal.
Context {N : Type} `{NumberOrder N} `{!ExactNumber N}.

(** X7. In exact arithmetic a deposit that finds the system account in
    place raises the sum of all balances by the amount deposited. *)
Theorem deposit_raises_total (session : bool) (now : Z) (b : DepositBody N)
    (db db' : Db N) (r : Response N) :
  wf_db db ->
  customerByEmail db HALIFAX_EMAIL <> None ->
  deposit_POST session now b db = (r, db') ->
  status r = 201 ->
  exists A, dep_amount b = Some A /\
            totalBalance (customers db')
              = add (totalBalance (customers db)) A.
Proof.
  intros Hwf Hbank E Hst.
  destruct (deposit_POST_inv session now b db Hwf)
    as (r0 & db0 & E0 &
        [[Hs ->]|[(Hs & Hc & Ht)|(A & X & h & extra & EA & _ & _ & HX & Hex & _ & ->)]]);
    rewrite E0 in E; injection E as <- <-.
  - destruct Hs as [Hs|[Hs|Hs]]; rewrite Hs in Hst; discriminate.
  - rewrite Hs in Hst; discriminate.
  - exists A. split; [exact EA|]. cbn [customers].
    destruct Hex as [[_ ->]|[Hn _]]; [|congruence].
    rewrite app_nil_r.
    unfold customerByAccountNumber in HX. apply find_some in HX.
    destruct HX as [Hin _].
    pose proof (find_unique_id _ _ (wf_ids _ Hwf) Hin) as Hf.
    exact (totalBalance_inc_balance _ _ _ _ Hf).
Qed.

End DepositTotal.

(* ================================================================= *)
(** ** Customer statement: failures and counters *)

Section StatementAll.
Context {N : Type} `{Number N} `{Crypto} `{ObjectIdString}.

Lemma statement_passes_ok (cid : ObjectId) (ps : list (Populated N)) :
  forallb (resolves cid) ps = true ->
  (forall b, exists o, openingBalanceFrom cid ps b = Ok o) /\
  (forall o acc, exists res, formatTransactions cid o acc ps = Ok res).
Proof.
  induction ps as [|p l IH]; cbn [forallb].
  - intros _. split; intros; eexists; reflexivity.
  - intro Hall. apply andb_true_iff in Hall. destruct Hall as [Hp Hl].
    destruct (IH Hl) as [IHo IHf]. unfold resolves in Hp.
    split.
    + intro b. cbn. unfold isDebitOf.
      destruct (p_from p); [apply IHo|discriminate].
    + intros o acc. cbn. unfold formatTransaction, isDebitOf.
      destruct (p_from p) as [f|]; [|discriminate].
      destruct (c_id f =? cid).
      * destruct (p_to p); [|discriminate].
        match goal with
        | |- context [formatTransactions _ _ ?a l] =>
            destruct (IHf o a) as [[a' es'] ->]
        end. eexists; reflexivity.
      * match goal with
        | |- context [formatTransactions _ _ ?a l] =>
            destruct (IHf o a) as [[a' es'] ->]
        end. eexists; reflexivity.
Qed.

Lemma statement_passes_throw (cid : ObjectId) (ps : list (Populated N)) :
  forallb (resolves cid) ps = false ->
  forall b,
    match openingBalanceFrom cid ps b with
    | Throw _ => True
    | Ok o => forall acc, exists e, formatTransactions cid o acc ps = Throw e
    end.
Proof.
  induction ps as [|p l IH]; cbn [forallb]; [discriminate|].
  intros Hall b. cbn [openingBalanceFrom]. unfold isDebitOf at 1.
  destruct (p_from p) as [f|] eqn:Ef; [|exact I].
  match goal with
  | |- match openingBalanceFrom cid l ?b' with _ => _ end =>
      specialize (IH) ; set (b1 := b')
  end.
  destruct (resolves cid p) eqn:Hp.
  - cbn [andb] in Hall. specialize (IH Hall b1).
    destruct (openingBalanceFrom cid l b1) as [o|]; [|exact I].
    intro acc. cbn [formatTransactions].
    unfold formatTransaction, isDebitOf. rewrite Ef.
    unfold resolves in Hp. rewrite Ef in Hp.
    destruct (c_id f =? cid).
    + destruct (p_to p); [|discriminate].
      match goal with
      | |- context [formatTransactions _ _ ?a l] =>
          destruct (IH a) as [e ->]
      end. eexists; reflexivity.
    + match goal with
      | |- context [formatTransactions _ _ ?a l] =>
          destruct (IH a) as [e ->]
      end. eexists; reflexivity.
  - destruct (openingBalanceFrom cid l b1) as [o|]; [|exact I].
    intro acc. cbn [formatTransactions].
    unfold formatTransaction, isDebitOf. rewrite Ef.
    unfold resolves in Hp. rewrite Ef in Hp.
    destruct (c_id f =? cid); [|discriminate].
    destruct (p_to p); [discriminate|]. eexists; reflexivity.
Qed.

Lemma customerById_id (db : Db N) (i : ObjectId) (c : Customer N) :
  customerById db i = Some c -> c_id c = i.
Proof.
  unfold customerById. intro E. apply find_some in E.
  now apply Nat.eqb_eq.
Qed.

Lemma resolves_populate (db : Db N) (cid : ObjectId) (customer : Customer N)
    (s e : Z) (t : Transaction N) :
  customerById db cid = Some customer ->
  inStatement cid s e t = true ->
  resolves cid (populate db t) = false <->
  customerById db (tx_fromUserId t) = None \/
  customerById db (tx_toUserId t) = None.
Proof.
  intros Hc Hin. unfold resolves, populate. cbn [p_from p_to].
  unfold inStatement in Hin. apply andb_true_iff in Hin.
  destruct Hin as [Hparty _]. apply orb_true_iff in Hparty.
  destruct (customerById db (tx_fromUserId t)) as [f|] eqn:Ef.
  - rewrite (customerById_id _ _ _ Ef).
    destruct (tx_fromUserId t =? cid) eqn:Efc.
    + destruct (customerById db (tx_toUserId t)); split; auto.
      * discriminate.
      * intros [?|?]; discriminate.
    + destruct Hparty as [?|Hto]; [congruence|].
      apply Nat.eqb_eq in Hto. rewrite Hto, Hc.
      split; [discriminate|]. intros [?|?]; discriminate.
  - split; auto.
Qed.

(** In range, a reference dangles exactly when a populated transaction
    of the statement does not resolve. *)
Lemma statement_dangling_iff (db : Db N) (cid : ObjectId)
    (customer : Customer N) (s e : Z) :
  customerById db cid = Some customer ->
  forallb (resolves cid)
    (sortByDate (map (populate db)
       (filter (inStatement cid s e) (transactions db)))) = false <->
  exists t, In t (transactions db) /\
    inStatement cid s e t = true /\
    (customerById db (tx_fromUserId t) = None \/
     customerById db (tx_toUserId t) = None).
Proof.
  intro Hc. set (ps := sortByDate _). split.
  - intro E.
    assert (Hex : exists p, In p ps /\ resolves cid p = false).
    { clear -E. induction ps as [|p l IH]; [discriminate|].
      cbn in E. destruct (resolves cid p) eqn:Ep.
      - destruct (IH E) as [q [Hq Hr]]. exists q. split; [now right|auto].
      - exists p. split; [now left|auto]. }
    destruct Hex as (p & Hp & Hr). subst ps.
    apply sortByDate_In, in_map_iff in Hp. destruct Hp as [t [<- Hin]].
    apply filter_In in Hin. destruct Hin as [Hin Hst].
    exists t. repeat split; auto.
    now apply (resolves_populate db cid customer _ _ t Hc Hst).
  - intros (t & Hin & Hst & Hd).
    apply not_true_is_false. intro Hall.
    rewrite forallb_forall in Hall.
    assert (Hp : In (populate db t) ps).
    { subst ps. apply sortByDate_In, in_map. apply filter_In. auto. }
    apply Hall in Hp.
    apply (resolves_populate db cid customer _ _ t Hc Hst) in Hd.
    congruence.
Qed.

(** What the statement answers to a customer who authenticates and
    exists, for a range in order. *)
Lemma statement_GET_outcome (request : Request) (query : StatementQuery)
    (now : Z) (db : Db N) (decoded : JWTPayload) (customer : Customer N) :
  authenticateRequest request = Some decoded ->
  customerById db (customerId decoded) = Some customer ->
  (rangeStart query now <= rangeEnd query now)%Z ->
  let ps := sortByDate (map (populate db)
              (filter (inStatement (customerId decoded) (rangeStart query now)
                         (rangeEnd query now)) (transactions db))) in
  (forallb (resolves (customerId decoded)) ps = true /\
   exists r, statement_GET request query now db = (r, db) /\
             (status r = 200 \/ status r = 400)) \/
  (forallb (resolves (customerId decoded)) ps = false /\
   statement_GET request query now db
   = (json (failBody "Internal server error") 500, db)).
Proof.
  intros Ha Hc Hrange ps.
  apply authenticateRequest_Some in Ha.
  destruct Ha as (token & Hx & Ht & Hv).
  apply Z.ltb_ge in Hrange.
  set (cid := customerId decoded) in *.
  destruct (forallb (resolves cid) ps) eqn:Eall; [left|right];
    (split; [reflexivity|]);
    unfold statement_GET, statement_GET_body;
    rewrite Hx, Ht; unfold verifyToken; rewrite Hv;
    fold (rangeStart query now); fold (rangeEnd query now);
    rewrite Hrange;
    unfold bind at 1, Customer_findById; fold cid; rewrite Hc;
    unfold bind at 1, Transaction_find_statement; fold ps.
  - destruct (statement_passes_ok cid ps Eall) as [Hopen Hfmt].
    destruct (Hopen (c_balance customer)) as [o Ho].
    destruct (Hfmt o noTotals) as [[acc es] Hf].
    unfold bind at 1, liftResult at 1. rewrite Ho.
    unfold bind at 1, liftResult at 1. rewrite Hf.
    destruct (String.eqb _ "json"); [|destruct (String.eqb _ "pdf")];
      eexists; (split; [reflexivity|cbn; auto]).
  - pose proof (statement_passes_throw cid ps Eall (c_balance customer)) as Ht'.
    unfold bind at 1, liftResult at 1.
    destruct (openingBalanceFrom cid ps (c_balance customer)) as [o|].
    + destruct (Ht' noTotals) as [e He].
      unfold bind at 1, liftResult at 1. now rewrite He.
    + reflexivity.
Qed.

(** X9. For a customer who authenticates and exists, and a range in
    order, the statement ends in the [catch] with 500 exactly when a
    transaction in range refers to a customer who is no longer
    stored. *)
Theorem statement_fails_iff_reference_dangles (request : Request)
    (query : StatementQuery) (now : Z) (db : Db N) (decoded : JWTPayload)
    (customer : Customer N) :
  authenticateRequest request = Some decoded ->
  customerById db (customerId decoded) = Some customer ->
  (rangeStart query now <= rangeEnd query now)%Z ->
  status (fst (statement_GET request query now db)) = 500 <->
  exists t,
    In t (transactions db) /\
    inStatement (customerId decoded) (rangeStart query now)
      (rangeEnd query now) t = true /\
    (customerById db (tx_fromUserId t) = None \/
     customerById db (tx_toUserId t) = None).
Proof.
  intros Ha Hc Hrange.
  rewrite <- (statement_dangling_iff db _ customer _ _ Hc).
  destruct (statement_GET_outcome request query now db decoded customer
              Ha Hc Hrange) as [[-> (r & -> & Hs)]|[-> ->]].
  - cbn [fst]. split; [|discriminate].
    intro E. destruct Hs as [Hs|Hs]; rewrite Hs in E; discriminate.
  - cbn. tauto.
Qed.

(** X10. In a produced statement the transaction count is the number
    of entries listed, and every entry is counted once, as a credit or
    as a debit. *)
Theorem statement_counts (request : Request) (query : StatementQuery)
    (now : Z) (db db' : Db N) (r : Response N) :
  statement_GET request query now db = (r, db') ->
  status r = 200 ->
  exists credits debits,
    get "creditCount" (summaryOf r) = JNat credits /\
    get "debitCount" (summaryOf r) = JNat debits /\
    get "transactionCount" (summaryOf r) = JNat (credits + debits) /\
    List.length (entriesOf r) = credits + debits.
Proof.
  intros E Hst.
  destruct (statement_GET_200 _ _ _ _ _ _ E Hst)
    as (token & decoded & customer & o & acc & es & Hx & Ht & Hv & Hc & Ho
        & Hf & Hr & _).
  pose proof (statement_populated_ok db
    (filter (inStatement (customerId decoded) (rangeStart query now)
               (rangeEnd query now)) (transactions db))) as Hok.
  apply (formatTransactions_spec _ _ _ _ _ _ Hok) in Hf.
  destruct Hf as (_ & _ & _ & Hd & _ & Hn).
  cbn [noTotals creditCount debitCount Nat.add] in Hn.
  exists (creditCount acc), (debitCount acc).
  unfold summaryOf, entriesOf, statementOf. rewrite Hr.
  cbn [statementData get field String.eqb Ascii.eqb Bool.eqb summaryJson].
  repeat split.
  - now rewrite Hn.
  - rewrite Hn. apply (f_equal (@List.length _)) in Hd.
    now rewrite !length_map in Hd.
Qed.

End StatementAll.

(* ================================================================= *)
(** ** Registration: every request, and what follows it *)

Section RegisterAll.
Context {N : Type} `{Number N} `{Crypto}.

(** The ways a registration ends: refused or failed with both
    collections as they were, or one customer appended. *)
Lemma register_POST_inv (random : nat -> Q) (b : RegisterBody) (db : Db N) :
  exists r db',
    register_POST random b db = (r, db') /\
    ((status r <> 201 /\ customers db' = customers db /\
      transactions db' = transactions db /\ nextId db <= nextId db') \/
     (exists accountNumber,
        let c := mkCustomer (nextId db) (trim (r_firstname b))
                   (trim (r_lastname b)) (emailSetter (toLowerCase (r_email b)))
                   (trim accountNumber) (bcrypt_hash (r_password b))
                   (trim (r_phoneNumber b)) (trim (r_address b))
                   (trim (r_city b)) (trim (r_state b))
                   (trim (orElse (r_country b) "US")) (trim (r_postalCode b))
                   (lit 0) "USD" (bcrypt_hash (r_transactionPin b)) in
        customerByEmail db (r_email b) = None /\
        generateUniqueAccountNumber random db = (Ok accountNumber, db) /\
        Customer_valid c = true /\
        Customer_clashes c (customers db) = false /\
        r = json (JObj [("success", JBool true);
                        ("message", JStr "Customer registered successfully");
                        ("token",
                           JStr (jwt_sign (mkPayload (c_id c) (c_email c)
                                             (c_accountNumber c))));
                        ("customer", customerData c)]) 201 /\
        db' = mkDb (customers db ++ [c]) (transactions db) (S (nextId db)))).
Proof.
  unfold register_POST, register_POST_body.
  destruct (_ || _);
    [do 2 eexists; split; [reflexivity|left; cbn; repeat split; lia]|].
  destruct (negb _);
    [do 2 eexists; split; [reflexivity|left; cbn; repeat split; lia]|].
  unfold bind at 1, Customer_findOne_email.
  destruct (customerByEmail db (r_email b)) eqn:Ee;
    [do 2 eexists; split; [reflexivity|left; cbn; repeat split; lia]|].
  unfold bind at 1.
  destruct (generateUniqueAccountNumber random db) as [[acct|e] db1] eqn:Eg.
  2:{ assert (db1 = db) as ->.
      { unfold generateUniqueAccountNumber, bind in Eg.
        destruct (generateLoop_spec random db maxAttempts 0)
          as [(i & _ & Hg & _)|[Hg _]]; rewrite Hg in Eg;
          cbv [ret throw] in Eg; congruence. }
      destruct e; do 2 eexists;
        (split; [reflexivity|left; cbn; repeat split; lia]). }
  assert (db1 = db) as ->.
  { unfold generateUniqueAccountNumber, bind in Eg.
    destruct (generateLoop_spec random db maxAttempts 0)
      as [(i & _ & Hg & _)|[Hg _]]; rewrite Hg in Eg;
      cbv [ret throw] in Eg; congruence. }
  cbv [bind new_Customer newObjectId ret Customer_save].
  destruct db as [cs ts n]. cbn [customers transactions nextId] in *.
  match goal with |- context [Customer_valid ?x] => set (c := x) end.
  destruct (Customer_valid c) eqn:Hv; cbn [negb];
    [|do 2 eexists; split; [reflexivity|left; cbn; repeat split; lia]].
  destruct (Customer_clashes c cs) eqn:Ecl;
    [do 2 eexists; split; [reflexivity|left; cbn; repeat split; lia]|].
  do 2 eexists. split; [reflexivity|]. right. exists acct.
  cbv zeta. fold c. repeat split; auto.
Qed.

(** X11. A registration appends exactly one customer, who starts with
    a balance of zero in USD and the hash of the password sent, and is
    answered 201 with a token signed for that customer; or both
    collections stay as they were.  No registration touches a stored
    customer or a transaction. *)
Theorem register_all_or_nothing (random : nat -> Q) (b : RegisterBody)
    (db db' : Db N) (r : Response N) :
  register_POST random b db = (r, db') ->
  transactions db' = transactions db /\
  ((status r = 201 /\
    exists c,
      customers db' = customers db ++ [c] /\
      c_id c = nextId db /\ c_balance c = lit 0 /\ c_currency c = "USD" /\
      c_password c = bcrypt_hash (r_password b) /\
      c_transactionPin c = bcrypt_hash (r_transactionPin b) /\
      get "token" (body r)
        = JStr (jwt_sign (mkPayload (c_id c) (c_email c) (c_accountNumber c))))
   \/
   (status r <> 201 /\ customers db' = customers db)).
Proof.
  intro E.
  destruct (register_POST_inv random b db)
    as (r0 & db0 & E0 & [(Hs & Hc & Ht & _)|(acct & _ & _ & _ & _ & -> & ->)]);
    rewrite E0 in E; injection E as <- <-.
  - split; [exact Ht|]. right. auto.
  - split; [reflexivity|]. left. split; [reflexivity|].
    eexists. split; [reflexivity|]. repeat split.
Qed.

(** X12. The token a successful registration hands out is accepted by
    the verify endpoint on the database the registration left, for the
    customer just created: it is enough that the token is not empty
    and that [jwt.verify] returns the payload [jwt.sign] was given. *)
Theorem register_token_verifies (random : nat -> Q) (b : RegisterBody)
    (db db' : Db N) (r : Response N) (c : Customer N) :
  register_POST random b db = (r, db') ->
  status r = 201 ->
  customers db' = customers db ++ [c] ->
  let p := mkPayload (c_id c) (c_email c) (c_accountNumber c) in
  falsyStr (jwt_sign p) = false ->
  jwt_verify (jwt_sign p) = Some p ->
  get "token" (body r) = JStr (jwt_sign p) /\
  verify_GET (mkRequest (Some ("Bearer " ++ jwt_sign p)%string)) db'
  = (json (JObj [("success", JBool true);
                 ("message", JStr "Token is valid");
                 ("customerId", JId (c_id c));
                 ("email", JStr (c_email c));
                 ("accountNumber", JStr (c_accountNumber c))]) 200, db').
Proof.
  intros E Hst Hcs p Hne Hv.
  destruct (register_POST_inv random b db)
    as (r0 & db0 & E0 & [(Hs & Hc & Ht & _)|(acct & _ & _ & _ & _ & -> & ->)]);
    rewrite E0 in E; injection E as <- <-; [congruence|].
  cbn [customers] in Hcs. apply app_inj_tail in Hcs.
  destruct Hcs as [_ Hc]. subst p. subst c.
  split; [reflexivity|].
  set (c0 := mkCustomer _ _ _ _ _ _ _ _ _ _ _ _ _ _ _) in *.
  set (p := mkPayload _ _ _) in *.
  unfold verify_GET.
  assert (Ha : authenticateRequest
                 (mkRequest (Some ("Bearer " ++ jwt_sign p)%string)) = Some p).
  { unfold authenticateRequest, extractTokenFromRequest, noToken, verifyToken.
    cbn [authorization startsWith String.prefix Ascii.eqb Bool.eqb
         String.append dropStr].
    cbn. destruct (jwt_sign p); [discriminate|]. cbn. cbn in Hv.
    now rewrite Hv. }
  rewrite Ha. unfold Customer_findById, customerById. cbn [customers].
  subst p. cbn [customerId jwt_email jwt_accountNumber].
  match goal with
  | |- context [find ?f ?l] => destruct (find f l) eqn:Ef
  end.
  - reflexivity.
  - exfalso. eapply find_none in Ef; [|apply in_or_app; right; now left].
    cbn in Ef. now rewrite Nat.eqb_refl in Ef.
Qed.

End RegisterAll.

(* ================================================================= *)
(** ** Account numbers, the mask and the bearer token *)

Section RegisteredAccountNumber.
Context {N : Type} `{Number N} `{Crypto}.


End RegisteredAccountNumber.

Lemma length_append (s t : string) :
  String.length (s ++ t) = String.length s + String.length t.
Proof. induction s as [|a s IH]; cbn; [reflexivity|now rewrite IH]. Qed.

(** The mask never changes the length of an account number, and
    a number of fewer than four characters comes back as it is. *)
Lemma maskAccountNumber_length (s : string) :
  String.length (maskAccountNumber s) = String.length s /\
  (String.length s < 4 -> maskAccountNumber s = s).
Proof.
  split.
  - induction s as [|a s' IH]; [reflexivity|].
    cbn [maskAccountNumber].
    destruct s' as [|b [|c [|d r]]]; try reflexivity.
    destruct (_ && _).
    + reflexivity.
    + cbn [String.length]. now rewrite IH.
  - destruct s as [|a [|b [|c [|d r]]]]; cbn; try reflexivity. lia.
Qed.

Lemma prefix_dropStr (p : string) :
  forall h, String.prefix p h = true ->
            h = (p ++ dropStr (String.length p) h)%string.
Proof.
  induction p as [|a p IH]; intros h Hp; [reflexivity|].
  destruct h as [|c h]; cbn in Hp; [discriminate|].
  destruct (ascii_dec a c); [|discriminate].
  subst. cbn. f_equal. now apply IH.
Qed.

Lemma startsWith_Bearer (h : string) :
  startsWith "Bearer " h = true <-> h = ("Bearer " ++ dropStr 7 h)%string.
Proof.
  unfold startsWith. split.
  - apply (prefix_dropStr "Bearer ").
  - intros E. rewrite E. generalize (dropStr 7 h). intro t.
    apply prefix_correct. cbn. now destruct t.
Qed.

Section Bearer.
Context `{Crypto}.

(** [authenticateRequest] returns a payload exactly when the
    Authorization header is the word Bearer, one space and a token
    that is not empty and that [jwt.verify] accepts; the payload is the
    one [jwt.verify] returns. *)
Lemma authenticateRequest_bearer (request : Request) (p : JWTPayload) :
  authenticateRequest request = Some p <->
  exists token,
    authorization request = Some ("Bearer " ++ token)%string /\
    falsyStr token = false /\ jwt_verify token = Some p.
Proof.
  rewrite authenticateRequest_Some. unfold extractTokenFromRequest.
  split.
  - intros (token & Hx & Hf & Hv).
    destruct (authorization request) as [h|]; [|discriminate].
    destruct (startsWith "Bearer " h) eqn:Es; [|discriminate].
    injection Hx as <-. apply startsWith_Bearer in Es.
    exists (dropStr 7 h). repeat split; auto. now rewrite <- Es.
  - intros (token & Hh & Hf & Hv). exists token. rewrite Hh.
    assert (Es : startsWith "Bearer " ("Bearer " ++ token) = true).
    { apply prefix_correct. cbn. now destruct token. }
    rewrite Es. repeat split; auto.
Qed.

End Bearer.

Section CustomerTransferAll.
Context {N : Type} `{Number N} `{NumberFormat N} `{Crypto}.

Ltac answered :=
  eexists; split; [reflexivity|cbn [status json]; auto 6].


End CustomerTransferAll.

(* ================================================================= *)
(** ** Login *)

Section LoginTheorems.
Context {N : Type} `{Number N} `{Crypto}.

(** X17. A login that sends an email and a password is answered 200
    exactly when a customer is stored under the email, as the schema
    normalises it, and the password matches the stored hash; every
    other attempt receives one and the same 401 response, whether the
    email is unknown or the password wrong.  The database is never
    written. *)
Theorem login_outcomes (b : LoginBody) (db : Db N) :
  falsyStr (l_email b) = false ->
  falsyStr (l_password b) = false ->
  (exists c,
     customerByEmail db (l_email b) = Some c /\
     bcrypt_compare (l_password b) (c_password c) = true /\
     login_POST b db
     = (json (JObj [("success", JBool true);
                    ("message", JStr "Login successful");
                    ("token",
                       JStr (jwt_sign (mkPayload (c_id c) (c_email c)
                                         (c_accountNumber c))));
                    ("customer", customerData c)]) 200, db)) \/
  ((forall c, customerByEmail db (l_email b) = Some c ->
              bcrypt_compare (l_password b) (c_password c) = false) /\
   login_POST b db = (json (failBody "Invalid email or password") 401, db)).
Proof.
  intros He Hp. unfold login_POST, login_POST_body.
  rewrite He, Hp. cbn [orb].
  unfold bind, Customer_findOne_email.
  destruct (customerByEmail db (l_email b)) as [c|] eqn:Ec.
  - destruct (bcrypt_compare (l_password b) (c_password c)) eqn:Eb; cbn [negb].
    + left. exists c. repeat split; auto.
    + right. split; [|reflexivity]. now intros c' [= <-].
  - right. split; [discriminate|reflexivity].
Qed.

(** X13. Once a registration has succeeded, a login with the password
    registered and the same email, in whatever case and surrounding
    white space, is answered 200 for the customer the registration
    created; it is enough that [bcrypt.compare] accepts the password
    against its own hash. *)
Theorem register_then_login (random : nat -> Q) (b : RegisterBody)
    (db db' : Db N) (r : Response N) (email : string) :
  register_POST random b db = (r, db') ->
  status r = 201 ->
  emailSetter email = emailSetter (r_email b) ->
  falsyStr email = false ->
  bcrypt_compare (r_password b) (bcrypt_hash (r_password b)) = true ->
  exists r',
    login_POST (mkLoginBody email (r_password b)) db' = (r', db') /\
    status r' = 200 /\
    get "id" (get "customer" (body r')) = JId (nextId db) /\
    get "customer" (body r') = get "customer" (body r).
Proof.
  intros E Hst Hmail Hne Hcmp.
  destruct (register_POST_inv random b db)
    as (r0 & db0 & E0 & [(Hs & Hc & Ht & _)|(acct & Hfree & _ & Hv & _ & -> & ->)]);
    rewrite E0 in E; injection E as <- <-; [congruence|].
  set (c := mkCustomer _ _ _ _ _ _ _ _ _ _ _ _ _ _ _) in *.
  assert (Hpw : falsyStr (r_password b) = false).
  { unfold register_POST, register_POST_body in E0.
    destruct (falsyStr (r_password b)); [|reflexivity].
    rewrite !orb_true_r in E0. cbn in E0. discriminate. }
  assert (Hfind : customerByEmail
            (mkDb (customers db ++ [c]) (transactions db) (S (nextId db)))
            email = Some c).
  { unfold customerByEmail in *. cbn [customers].
    rewrite Hmail. rewrite (find_app_none _ _ _ Hfree). cbn [find].
    subst c. cbn [c_email].
    now rewrite emailSetter_toLowerCase, String.eqb_refl. }
  unfold login_POST, login_POST_body. cbn [l_email l_password].
  rewrite Hne, Hpw. cbn [orb].
  unfold bind, Customer_findOne_email. rewrite Hfind.
  assert (Hcp : c_password c = bcrypt_hash (r_password b)) by reflexivity.
  rewrite Hcp, Hcmp. cbn [negb].
  eexists. split; [reflexivity|]. repeat split.
Qed.

End LoginTheorems.

(* ================================================================= *)
(** ** Changing the password and the PIN *)

Section ReplaceLemmas.
Context {N : Type} `{Number N}.

Lemma find_id_replaceById (i : ObjectId) (c' : Customer N)
    (l : list (Customer N)) :
  find (fun c => c_id c =? i) (replaceById c' l) =
  option_map (fun c => if i =? c_id c' then c' else c)
    (find (fun c => c_id c =? i) l).
Proof.
  induction l as [|a r IH]; [reflexivity|].
  cbn [replaceById find].
  destruct (c_id a =? c_id c') eqn:Ea; cbn [find].
  - apply Nat.eqb_eq in Ea. rewrite Ea.
    rewrite (Nat.eqb_sym i (c_id c')).
    destruct (c_id c' =? i) eqn:Ei; [reflexivity|].
    destruct (find _ r); reflexivity.
  - destruct (c_id a =? i) eqn:Ei; [|exact IH].
    apply Nat.eqb_eq in Ei. subst i. cbn. now rewrite Ea.
Qed.

Lemma map_c_id_replaceById (c' : Customer N) (l : list (Customer N)) :
  map (@c_id N) (replaceById c' l) = map (@c_id N) l.
Proof.
  induction l as [|a r IH]; [reflexivity|]. cbn [replaceById].
  destruct (c_id a =? c_id c') eqn:Ea; cbn [map].
  - apply Nat.eqb_eq in Ea. now rewrite Ea.
  - now rewrite IH.
Qed.

Lemma Forall_replaceById (P : Customer N -> Prop) (c' : Customer N)
    (l : list (Customer N)) :
  P c' -> Forall P l -> Forall P (replaceById c' l).
Proof.
  intros Hc Hl. induction Hl as [|a r Ha Hr IH]; [constructor|].
  cbn [replaceById]. destruct (c_id a =? c_id c'); constructor; auto.
Qed.

Lemma In_replaceById (c' x : Customer N) (l : list (Customer N)) :
  In x (replaceById c' l) -> x = c' \/ In x l.
Proof.
  induction l as [|a r IH]; [contradiction|]. cbn [replaceById].
  destruct (c_id a =? c_id c'); cbn [In].
  - intros [<-|Hin]; auto.
  - intros [<-|Hin]; auto. destruct (IH Hin); auto.
Qed.

(** A lookup by a field that the replacement does not change finds a
    document with the same identifier as before. *)
Lemma find_replaceById_id_of (p : Customer N -> bool) (c' : Customer N)
    (l : list (Customer N)) :
  (forall c, In c l -> c_id c = c_id c' -> p c' = p c) ->
  option_map c_id (find p (replaceById c' l)) = option_map c_id (find p l).
Proof.
  induction l as [|a r IH]; intro Hp; [reflexivity|].
  cbn [replaceById find].
  destruct (c_id a =? c_id c') eqn:Ea; cbn [find].
  - apply Nat.eqb_eq in Ea. rewrite (Hp a (or_introl eq_refl) Ea).
    destruct (p a); cbn; [now rewrite Ea|reflexivity].
  - destruct (p a); [reflexivity|]. apply IH.
    intros c Hin. apply Hp. now right.
Qed.

Lemma wf_db_replaceById (db : Db N) (c c' : Customer N) :
  wf_db db ->
  customerById db (c_id c') = Some c ->
  Customer_valid c' = true ->
  wf_db (mkDb (replaceById c' (customers db)) (transactions db) (nextId db)).
Proof.
  intros [Hids Hval Hfresh Htx] Hc Hv.
  constructor; cbn [customers transactions nextId].
  - now rewrite map_c_id_replaceById.
  - now apply Forall_replaceById.
  - apply Forall_replaceById; [|exact Hfresh].
    unfold customerById in Hc. apply find_some in Hc.
    destruct Hc as [Hin Heq]. apply Nat.eqb_eq in Heq.
    rewrite Forall_forall in Hfresh. rewrite <- Heq. now apply Hfresh.
  - exact Htx.
Qed.

End ReplaceLemmas.

Section ChangePasswordTheorems.
Context {N : Type} `{Number N} `{Crypto}.

(** The two ways a change of password ends. *)
Lemma changePassword_POST_inv (request : Request) (b : ChangePasswordBody)
    (db : Db N) :
  exists r db',
    changePassword_POST request b db = (r, db') /\
    ((status r <> 200 /\ db' = db) \/
     (exists decoded customer,
        authenticateRequest request = Some decoded /\
        customerById db (customerId decoded) = Some customer /\
        newPassword b = confirmPassword b /\
        6 <= String.length (newPassword b) /\
        bcrypt_compare (currentPassword b) (c_password customer) = true /\
        bcrypt_compare (newPassword b) (c_password customer) = false /\
        falsyStr (bcrypt_hash (newPassword b)) = false /\
        status r = 200 /\
        db' = mkDb (replaceById
                      (set_password customer (bcrypt_hash (newPassword b)))
                      (customers db))
                   (transactions db) (nextId db))).
Proof.
  unfold changePassword_POST, changePassword_POST_body.
  destruct (authenticateRequest request) as [decoded|] eqn:Ea;
    [|do 2 eexists; split; [reflexivity|left; cbn; split; [lia|auto]]].
  destruct (_ || _);
    [do 2 eexists; split; [reflexivity|left; cbn; split; [lia|auto]]|].
  destruct (String.eqb (newPassword b) (confirmPassword b)) eqn:Eq; cbn [negb];
    [|do 2 eexists; split; [reflexivity|left; cbn; split; [lia|auto]]].
  destruct (String.length (newPassword b) <? 6) eqn:El;
    [do 2 eexists; split; [reflexivity|left; cbn; split; [lia|auto]]|].
  unfold bind at 1, Customer_findById.
  destruct (customerById db (customerId decoded)) as [customer|] eqn:Ec;
    [|do 2 eexists; split; [reflexivity|left; cbn; split; [lia|auto]]].
  destruct (bcrypt_compare (currentPassword b) (c_password customer)) eqn:E1;
    cbn [negb];
    [|do 2 eexists; split; [reflexivity|left; cbn; split; [lia|auto]]].
  destruct (bcrypt_compare (newPassword b) (c_password customer)) eqn:E2;
    [do 2 eexists; split; [reflexivity|left; cbn; split; [lia|auto]]|].
  unfold bind, Customer_save_modified.
  destruct (falsyStr (bcrypt_hash (newPassword b))) eqn:Eh;
    [do 2 eexists; split; [reflexivity|left; cbn; split; [lia|auto]]|].
  do 2 eexists. split; [reflexivity|]. right.
  exists decoded, customer. apply String.eqb_eq in Eq.
  apply Nat.ltb_ge in El. cbn [status json ret]. repeat split; auto.
Qed.

(** X18. A change of password is answered 200 only for a customer who
    authenticates and whose current password matches; it then stores
    the hash of the new password in that customer's document and
    touches nothing else: no other field, no other customer, no
    transaction.  Every other answer leaves the database as it was. *)
Theorem changePassword_effect (request : Request) (b : ChangePasswordBody)
    (db db' : Db N) (r : Response N) :
  changePassword_POST request b db = (r, db') ->
  (status r = 200 /\
   exists decoded customer,
     authenticateRequest request = Some decoded /\
     customerById db (customerId decoded) = Some customer /\
     bcrypt_compare (currentPassword b) (c_password customer) = true /\
     customerById db' (customerId decoded)
       = Some (set_password customer (bcrypt_hash (newPassword b))) /\
     (forall i, i <> customerId decoded ->
                customerById db' i = customerById db i) /\
     transactions db' = transactions db) \/
  (status r <> 200 /\ db' = db).
Proof.
  intro E.
  destruct (changePassword_POST_inv request b db)
    as (r0 & db0 & E0 &
        [[Hs ->]|(decoded & customer & Ha & Hc & _ & _ & H1 & _ & _ & Hs & ->)]);
    rewrite E0 in E; injection E as <- <-; [right; auto|].
  left. split; [exact Hs|]. exists decoded, customer.
  pose proof (customerById_id _ _ _ Hc) as Hid.
  unfold customerById in *. cbn [customers transactions].
  repeat split; auto.
  - rewrite find_id_replaceById, Hc. cbn [option_map c_id set_password].
    now rewrite Hid, Nat.eqb_refl.
  - intros i Hi. rewrite find_id_replaceById. cbn [c_id set_password].
    rewrite Hid. apply Nat.eqb_neq in Hi. rewrite Hi.
    destruct (find (fun c => c_id c =? i) (customers db)); reflexivity.
Qed.

(** X19. After a change of password the customer logs in with the new
    password: on a well-formed database, for the email the customer is
    stored under, the login is answered 200 for that customer.  It is
    enough that [bcrypt.compare] accepts the new password against its
    own hash. *)
Theorem changePassword_then_login (request : Request)
    (b : ChangePasswordBody) (db db' : Db N) (r : Response N)
    (decoded : JWTPayload) (customer : Customer N) (email : string) :
  wf_db db ->
  changePassword_POST request b db = (r, db') ->
  status r = 200 ->
  authenticateRequest request = Some decoded ->
  customerById db (customerId decoded) = Some customer ->
  customerByEmail db email = Some customer ->
  falsyStr email = false ->
  bcrypt_compare (newPassword b) (bcrypt_hash (newPassword b)) = true ->
  exists r',
    login_POST (mkLoginBody email (newPassword b)) db' = (r', db') /\
    status r' = 200 /\
    get "id" (get "customer" (body r')) = JId (customerId decoded).
Proof.
  intros Hwf E Hst Ha Hc Hm Hne Hcmp.
  destruct (changePassword_POST_inv request b db)
    as (r0 & db0 & E0 &
        [[Hs ->]|(decoded' & customer' & Ha' & Hc' & _ & Hlen & _ & _ & _ & _ & ->)]);
    rewrite E0 in E; injection E as <- <-; [congruence|].
  rewrite Ha in Ha'. injection Ha' as <-.
  rewrite Hc in Hc'. injection Hc' as <-.
  set (c' := set_password customer (bcrypt_hash (newPassword b))).
  pose proof (customerById_id _ _ _ Hc) as Hid.
  assert (Hpw : falsyStr (newPassword b) = false).
  { destruct (newPassword b); [cbn in Hlen; lia|reflexivity]. }
  assert (Hfind : customerByEmail
            (mkDb (replaceById c' (customers db)) (transactions db) (nextId db))
            email = Some c').
  { unfold customerByEmail in *. cbn [customers].
    pose proof (wf_ids _ Hwf) as Hnd.
    assert (Hc0 : find (fun c => c_id c =? c_id customer) (customers db)
                  = Some customer).
    { rewrite Hid. exact Hc. }
    assert (Hside : forall c, In c (customers db) -> c_id c = c_id c' ->
              String.eqb (c_email c') (emailSetter email)
              = String.eqb (c_email c) (emailSetter email)).
    { intros c Hin Heq. pose proof (find_unique_id _ _ Hnd Hin) as Hu.
      rewrite Heq in Hu. cbn [c_id c' set_password] in Hu.
      assert (c = customer) by congruence. subst c. reflexivity. }
    pose proof (find_replaceById_id_of
                  (fun c => String.eqb (c_email c) (emailSetter email)) c'
                  (customers db) Hside) as Hf.
    rewrite Hm in Hf. cbn [option_map] in Hf.
    destruct (find (fun c => String.eqb (c_email c) (emailSetter email))
                (replaceById c' (customers db))) as [x|] eqn:Ex;
      [|discriminate].
    cbn [option_map] in Hf. injection Hf as Hx.
    apply find_some in Ex. destruct Ex as [Hin _].
    assert (Hnd' : NoDup (map c_id (replaceById c' (customers db)))).
    { rewrite map_c_id_replaceById. exact Hnd. }
    pose proof (find_unique_id _ _ Hnd' Hin) as Hu.
    rewrite find_id_replaceById, Hx, Hc0 in Hu. cbn [option_map] in Hu.
    cbn [c_id c' set_password] in Hu. rewrite Nat.eqb_refl in Hu.
    congruence. }
  unfold login_POST, login_POST_body. cbn [l_email l_password].
  rewrite Hne, Hpw. cbn [orb].
  unfold bind, Customer_findOne_email. rewrite Hfind.
  assert (Hcp : c_password c' = bcrypt_hash (newPassword b)) by reflexivity.
  rewrite Hcp, Hcmp. cbn [negb].
  eexists. split; [reflexivity|]. split; [reflexivity|].
  cbn. now rewrite Hid.
Qed.

End ChangePasswordTheorems.

Section ChangePinTheorems.
Context {N : Type} `{Number N} `{Crypto}.

(** The two ways a change of PIN ends. *)
Lemma changePin_POST_inv (request : Request) (b : ChangePinBody) (db : Db N) :
  exists r db',
    changePin_POST request b db = (r, db') /\
    ((status r <> 200 /\ db' = db) \/
     (exists decoded customer,
        authenticateRequest request = Some decoded /\
        customerById db (customerId decoded) = Some customer /\
        newPin b = confirmPin b /\
        isPin (newPin b) = true /\
        bcrypt_compare (currentPin b) (c_transactionPin customer) = true /\
        bcrypt_compare (newPin b) (c_transactionPin customer) = false /\
        falsyStr (bcrypt_hash (newPin b)) = false /\
        status r = 200 /\
        db' = mkDb (replaceById
                      (set_transactionPin customer (bcrypt_hash (newPin b)))
                      (customers db))
                   (transactions db) (nextId db))).
Proof.
  unfold changePin_POST, changePin_POST_body.
  destruct (authenticateRequest request) as [decoded|] eqn:Ea;
    [|do 2 eexists; split; [reflexivity|left; cbn; split; [lia|auto]]].
  destruct (_ || _);
    [do 2 eexists; split; [reflexivity|left; cbn; split; [lia|auto]]|].
  destruct (String.eqb (newPin b) (confirmPin b)) eqn:Eq; cbn [negb];
    [|do 2 eexists; split; [reflexivity|left; cbn; split; [lia|auto]]].
  destruct (isPin (newPin b)) eqn:El; cbn [negb];
    [|do 2 eexists; split; [reflexivity|left; cbn; split; [lia|auto]]].
  unfold bind at 1, Customer_findById.
  destruct (customerById db (customerId decoded)) as [customer|] eqn:Ec;
    [|do 2 eexists; split; [reflexivity|left; cbn; split; [lia|auto]]].
  destruct (bcrypt_compare (currentPin b) (c_transactionPin customer)) eqn:E1;
    cbn [negb];
    [|do 2 eexists; split; [reflexivity|left; cbn; split; [lia|auto]]].
  destruct (bcrypt_compare (newPin b) (c_transactionPin customer)) eqn:E2;
    [do 2 eexists; split; [reflexivity|left; cbn; split; [lia|auto]]|].
  unfold bind, Customer_save_modified.
  destruct (falsyStr (bcrypt_hash (newPin b))) eqn:Eh;
    [do 2 eexists; split; [reflexivity|left; cbn; split; [lia|auto]]|].
  do 2 eexists. split; [reflexivity|]. right.
  exists decoded, customer. apply String.eqb_eq in Eq.
  cbn [status json ret]. repeat split; auto.
Qed.

(** X20. A change of PIN is answered 200 only when the new PIN is four
    to six digits and the current PIN matches; it then stores the hash
    of the new PIN in the customer's document and touches nothing
    else: the balance, every other customer and the transactions are
    as before.  Every other answer leaves the database as it was. *)
Theorem changePin_effect (request : Request) (b : ChangePinBody)
    (db db' : Db N) (r : Response N) :
  changePin_POST request b db = (r, db') ->
  (status r = 200 /\
   isPin (newPin b) = true /\
   exists decoded customer,
     authenticateRequest request = Some decoded /\
     customerById db (customerId decoded) = Some customer /\
     bcrypt_compare (currentPin b) (c_transactionPin customer) = true /\
     customerById db' (customerId decoded)
       = Some (set_transactionPin customer (bcrypt_hash (newPin b))) /\
     (forall i, i <> customerId decoded ->
                customerById db' i = customerById db i) /\
     transactions db' = transactions db) \/
  (status r <> 200 /\ db' = db).
Proof.
  intro E.
  destruct (changePin_POST_inv request b db)
    as (r0 & db0 & E0 &
        [[Hs ->]|(decoded & customer & Ha & Hc & _ & Hp & H1 & _ & _ & Hs & ->)]);
    rewrite E0 in E; injection E as <- <-; [right; auto|].
  left. split; [exact Hs|]. split; [exact Hp|]. exists decoded, customer.
  pose proof (customerById_id _ _ _ Hc) as Hid.
  unfold customerById in *. cbn [customers transactions].
  repeat split; auto.
  - rewrite find_id_replaceById, Hc. cbn [option_map c_id set_transactionPin].
    now rewrite Hid, Nat.eqb_refl.
  - intros i Hi. rewrite find_id_replaceById. cbn [c_id set_transactionPin].
    rewrite Hid. apply Nat.eqb_neq in Hi. rewrite Hi.
    destruct (find (fun c => c_id c =? i) (customers db)); reflexivity.
Qed.

End ChangePinTheorems.

(* ================================================================= *)
(** ** Deleting a customer *)

Section DeleteTheorems.
Context {N : Type} `{Number N}.

Lemma In_removeById (id : ObjectId) (x : Customer N) (l : list (Customer N)) :
  In x (removeById id l) -> In x l.
Proof.
  induction l as [|a r IH]; [contradiction|]. cbn [removeById].
  destruct (c_id a =? id); cbn [In]; [auto|].
  intros [<-|Hin]; auto.
Qed.

Lemma find_id_removeById_other (i id : ObjectId) (l : list (Customer N)) :
  i <> id ->
  find (fun c => c_id c =? i) (removeById id l)
  = find (fun c => c_id c =? i) l.
Proof.
  intro Hne. induction l as [|a r IH]; [reflexivity|].
  cbn [removeById find].
  destruct (c_id a =? id) eqn:Ea.
  - apply Nat.eqb_eq in Ea.
    assert ((c_id a =? i) = false) as -> by (apply Nat.eqb_neq; congruence).
    reflexivity.
  - cbn [find]. destruct (c_id a =? i); [reflexivity|exact IH].
Qed.

Lemma find_id_removeById_same (id : ObjectId) (l : list (Customer N)) :
  NoDup (map c_id l) ->
  find (fun c => c_id c =? id) (removeById id l) = None.
Proof.
  induction l as [|a r IH]; intro Hnd; [reflexivity|].
  cbn [removeById]. inversion Hnd as [|? ? Hnotin Hnd']; subst.
  destruct (c_id a =? id) eqn:Ea.
  - apply Nat.eqb_eq in Ea. subst id.
    destruct (find _ r) as [x|] eqn:Ex; [|reflexivity].
    apply find_some in Ex. destruct Ex as [Hin Heq].
    apply Nat.eqb_eq in Heq. exfalso. apply Hnotin. rewrite <- Heq.
    now apply in_map.
  - cbn [find]. rewrite Ea. now apply IH.
Qed.

Lemma NoDup_removeById (id : ObjectId) (l : list (Customer N)) :
  NoDup (map c_id l) -> NoDup (map c_id (removeById id l)).
Proof.
  induction l as [|a r IH]; intro Hnd; [constructor|].
  cbn [removeById]. inversion Hnd as [|? ? Hnotin Hnd']; subst.
  destruct (c_id a =? id); [exact Hnd'|].
  cbn [map]. constructor; [|now apply IH].
  intro Hin. apply Hnotin. apply in_map_iff in Hin.
  destruct Hin as (x & Hx & Hin). apply In_removeById in Hin.
  rewrite <- Hx. now apply in_map.
Qed.

Lemma Forall_removeById (P : Customer N -> Prop) (id : ObjectId)
    (l : list (Customer N)) :
  Forall P l -> Forall P (removeById id l).
Proof.
  rewrite !Forall_forall. intros Hl x Hin. apply Hl.
  now apply In_removeById in Hin.
Qed.

(** The two ways a deletion ends. *)
Lemma customer_DELETE_inv (session : bool) (id : ObjectId) (db : Db N) :
  exists r db',
    customer_DELETE session id db = (r, db') /\
    ((status r <> 200 /\ db' = db) \/
     (exists c, session = true /\ customerById db id = Some c /\
                status r = 200 /\
                db' = mkDb (removeById id (customers db)) (transactions db)
                           (nextId db))).
Proof.
  unfold customer_DELETE, run, customer_DELETE_body.
  destruct session; cbn [negb];
    [|do 2 eexists; split; [reflexivity|left; cbn; split; [lia|auto]]].
  unfold bind at 1, Customer_findById.
  destruct (customerById db id) as [c|] eqn:Ec;
    [|do 2 eexists; split; [reflexivity|left; cbn; split; [lia|auto]]].
  do 2 eexists. split; [reflexivity|]. right. exists c.
  cbn. repeat split.
Qed.

(** X22. On a well-formed database a deletion answered 200 removes
    the customer named and nothing else: every other customer is as
    before, and so is every transaction, those of the deleted customer
    included.  Every other answer leaves the database as it was. *)
Theorem customer_DELETE_effect (session : bool) (id : ObjectId)
    (db db' : Db N) (r : Response N) :
  wf_db db ->
  customer_DELETE session id db = (r, db') ->
  (status r = 200 /\
   (exists c, customerById db id = Some c) /\
   customerById db' id = None /\
   (forall i, i <> id -> customerById db' i = customerById db i) /\
   transactions db' = transactions db) \/
  (status r <> 200 /\ db' = db).
Proof.
  intros Hwf E.
  destruct (customer_DELETE_inv session id db)
    as (r0 & db0 & E0 & [[Hs ->]|(c & _ & Hc & Hs & ->)]);
    rewrite E0 in E; injection E as <- <-; [right; auto|].
  left. split; [exact Hs|]. split; [now exists c|].
  unfold customerById. cbn [customers transactions].
  split; [apply find_id_removeById_same, (wf_ids _ Hwf)|].
  split; [|reflexivity].
  intros i Hi. now apply find_id_removeById_other.
Qed.

End DeleteTheorems.

Section DeleteCompositions.
Context {N : Type} `{Number N} `{Crypto} `{ObjectIdString}.

(** X23. Deleting a customer breaks the statements of the customers
    it traded with: once [x] is deleted, a statement requested by
    another customer whose range holds a transaction from or to [x]
    ends in the [catch] with 500. *)
Theorem statement_after_counterparty_deleted (x : ObjectId)
    (request : Request) (query : StatementQuery) (now : Z) (db db' : Db N)
    (r : Response N) (decoded : JWTPayload) (customer : Customer N)
    (t : Transaction N) :
  wf_db db ->
  customer_DELETE true x db = (r, db') ->
  status r = 200 ->
  authenticateRequest request = Some decoded ->
  customerId decoded <> x ->
  customerById db (customerId decoded) = Some customer ->
  (rangeStart query now <= rangeEnd query now)%Z ->
  In t (transactions db) ->
  inStatement (customerId decoded) (rangeStart query now)
    (rangeEnd query now) t = true ->
  tx_fromUserId t = x \/ tx_toUserId t = x ->
  statement_GET request query now db'
  = (json (failBody "Internal server error") 500, db').
Proof.
  intros Hwf E Hst Ha Hne Hc Hrange Hin Hins Hx.
  destruct (customer_DELETE_inv true x db)
    as (r0 & db0 & E0 & [[Hs ->]|(c & _ & Hcx & Hs & ->)]);
    rewrite E0 in E; injection E as <- <-; [congruence|].
  set (db' := mkDb _ _ _).
  assert (Hc' : customerById db' (customerId decoded) = Some customer).
  { unfold customerById, db'. cbn [customers].
    rewrite find_id_removeById_other by exact Hne. exact Hc. }
  assert (Hgone : customerById db' x = None).
  { unfold customerById, db'. cbn [customers].
    apply find_id_removeById_same, (wf_ids _ Hwf). }
  destruct (statement_GET_outcome request query now db' decoded customer
              Ha Hc' Hrange) as [[Hall _]|[_ ->]]; [|reflexivity].
  exfalso.
  assert (Hd : forallb (resolves (customerId decoded))
                 (sortByDate (map (populate db')
                    (filter (inStatement (customerId decoded)
                               (rangeStart query now) (rangeEnd query now))
                       (transactions db')))) = false).
  { apply (statement_dangling_iff db' _ customer _ _ Hc').
    exists t. split; [exact Hin|]. split; [exact Hins|].
    destruct Hx as [<-|<-]; auto. }
  cbv zeta in Hall. congruence.
Qed.

(** X24. A deleted customer's token, though [jwt.verify] still accepts
    it, is answered 404 by the verify endpoint and, for a range in
    order, by the statement. *)
Theorem deleted_customer_token (request : Request) (query : StatementQuery)
    (now : Z) (db db' : Db N) (r : Response N) (decoded : JWTPayload) :
  wf_db db ->
  customer_DELETE true (customerId decoded) db = (r, db') ->
  status r = 200 ->
  authenticateRequest request = Some decoded ->
  (rangeStart query now <= rangeEnd query now)%Z ->
  verify_GET request db' = (json (failBody "Customer not found") 404, db') /\
  statement_GET request query now db'
  = (json (failBody "Customer not found") 404, db').
Proof.
  intros Hwf E Hst Ha Hrange.
  destruct (customer_DELETE_inv true (customerId decoded) db)
    as (r0 & db0 & E0 & [[Hs ->]|(c & _ & Hcx & Hs & ->)]);
    rewrite E0 in E; injection E as <- <-; [congruence|].
  set (db' := mkDb _ _ _).
  assert (Hgone : customerById db' (customerId decoded) = None).
  { unfold customerById, db'. cbn [customers].
    apply find_id_removeById_same, (wf_ids _ Hwf). }
  split.
  - unfold verify_GET, Customer_findById. now rewrite Ha, Hgone.
  - apply authenticateRequest_Some in Ha.
    destruct Ha as (token & Hx & Ht & Hv).
    unfold statement_GET, statement_GET_body.
    rewrite Hx, Ht. unfold verifyToken. rewrite Hv.
    fold (rangeStart query now). fold (rangeEnd query now).
    apply Z.ltb_ge in Hrange. rewrite Hrange.
    unfold bind at 1, Customer_findById. now rewrite Hgone.
Qed.

End DeleteCompositions.

(* ================================================================= *)
(** ** Paginated transaction lists *)

Lemma ceilDiv_lt (p a b : nat) : 0 < b -> p < ceilDiv a b <-> p * b < a.
Proof.
  intro Hb. unfold ceilDiv.
  pose proof (Nat.div_mod_eq a b) as Hdm.
  pose proof (Nat.mod_upper_bound a b ltac:(lia)) as Hm.
  destruct (a mod b =? 0) eqn:E.
  - apply Nat.eqb_eq in E. rewrite E, Nat.add_0_r in Hdm. nia.
  - apply Nat.eqb_neq in E. nia.
Qed.

Lemma ceilDiv_covers (a b : nat) : 0 < b -> a <= ceilDiv a b * b.
Proof.
  intro Hb. destruct (Nat.le_gt_cases a (ceilDiv a b * b)) as [|Hlt]; [auto|].
  apply (ceilDiv_lt _ _ _ Hb) in Hlt. lia.
Qed.

Lemma length_page {A} (limit skip : nat) (l : list A) :
  List.length (firstn limit (skipn skip l))
  = Nat.min limit (List.length l - skip).
Proof. now rewrite length_firstn, length_skipn. Qed.

Lemma concat_pages {A} (limit : nat) :
  forall (n : nat) (l : list A),
    List.length l <= n * limit ->
    List.concat (map (fun k => firstn limit (skipn (k * limit) l)) (seq 0 n)) = l.
Proof.
  induction n as [|n IH]; intros l Hl.
  - destruct l; [reflexivity|cbn in Hl; lia].
  - cbn [seq map List.concat]. rewrite <- seq_shift, map_map.
    cbn [Nat.mul skipn Nat.add].
    transitivity (firstn limit l ++ skipn limit l); [|apply firstn_skipn].
    f_equal.
    rewrite <- (IH (skipn limit l)) by (rewrite length_skipn; lia).
    f_equal. apply map_ext. intro k.
    now rewrite skipn_skipn, (Nat.add_comm limit).
Qed.

Lemma pageOf_pos (query : PageQuery) : 0 < pageOf query.
Proof. unfold pageOf. destruct (q_page query); lia. Qed.

Lemma limitOf_pos (query : PageQuery) : 0 < limitOf query.
Proof. unfold limitOf. destruct (q_limit query); lia. Qed.

Section ListTheorems.
Context {N : Type} `{Number N}.

Lemma insertByDateDesc_perm (p : Populated N) (l : list (Populated N)) :
  Permutation (insertByDateDesc p l) (p :: l).
Proof.
  induction l as [|q r IH]; [reflexivity|]. cbn [insertByDateDesc].
  destruct (_ <=? _)%Z; [reflexivity|].
  rewrite IH. apply perm_swap.
Qed.

Lemma sortByDateDesc_perm (l : list (Populated N)) :
  Permutation (sortByDateDesc l) l.
Proof.
  induction l as [|p r IH]; [reflexivity|]. cbn [sortByDateDesc fold_right].
  fold (sortByDateDesc r). rewrite insertByDateDesc_perm. now constructor.
Qed.

Lemma insertByDateDesc_sorted (p : Populated N) (l : list (Populated N)) :
  Sorted (fun a b => (dateOf b <= dateOf a)%Z) l ->
  Sorted (fun a b => (dateOf b <= dateOf a)%Z) (insertByDateDesc p l).
Proof.
  induction l as [|q r IH]; intro Hs.
  - repeat constructor.
  - cbn [insertByDateDesc]. fold (dateOf q). fold (dateOf p).
    destruct (dateOf q <=? dateOf p)%Z eqn:E.
    + apply Z.leb_le in E. constructor; [exact Hs|]. now constructor.
    + apply Z.leb_gt in E. inversion Hs as [|? ? Hs' Hhd]; subst.
      constructor; [now apply IH|].
      destruct r as [|q' r']; cbn [insertByDateDesc].
      * constructor. lia.
      * fold (dateOf q'). fold (dateOf p).
        destruct (dateOf q' <=? dateOf p)%Z; constructor; [lia|].
        now inversion Hhd.
Qed.

Lemma sortByDateDesc_sorted (l : list (Populated N)) :
  Sorted (fun a b => (dateOf b <= dateOf a)%Z) (sortByDateDesc l).
Proof.
  induction l as [|p r IH]; [constructor|].
  cbn [sortByDateDesc fold_right]. now apply insertByDateDesc_sorted.
Qed.

Lemma filter_all {A} (l : list A) : List.filter (fun _ => true) l = l.
Proof. induction l as [|a r IH]; [reflexivity|]. cbn. now rewrite IH. Qed.

Lemma length_allNewestFirst (db : Db N) :
  List.length (allNewestFirst db) = List.length (transactions db).
Proof.
  unfold allNewestFirst.
  rewrite (Permutation_length (sortByDateDesc_perm _)), length_map.
  now rewrite filter_all.
Qed.

Lemma transactions_GET_listed (query : PageQuery) (db : Db N) :
  transactions_GET true query db
  = (Listed
       (map transactionView
          (firstn (limitOf query)
             (skipn ((pageOf query - 1) * limitOf query)
                (allNewestFirst db))))
       (pagination (pageOf query) (limitOf query)
          (List.length (transactions db))), db).
Proof.
  unfold transactions_GET, transactions_GET_body. cbn [negb].
  cbv [bind Transaction_find_page Transaction_countDocuments ret].
  unfold allNewestFirst. now rewrite !filter_all.
Qed.


(** X26. The pages of the admin list, from the first to the last one
    announced, put end to end, show every stored transaction exactly
    once, newest first. *)
Theorem admin_list_pages_partition (limit : positive) (db : Db N) :
  let pages :=
    map (fun k => listed (fst (transactions_GET true
                                 (mkPageQuery (Some (Pos.of_nat (S k)))
                                    (Some limit)) db)))
      (seq 0 (ceilDiv (List.length (transactions db)) (Pos.to_nat limit))) in
  List.concat pages = map transactionView (allNewestFirst db) /\
  Permutation (map (@p_tx N) (allNewestFirst db)) (transactions db) /\
  Sorted (fun a b => (tv_createdAt b <= tv_createdAt a)%Z) (List.concat pages).
Proof.
  cbv zeta.
  assert (Hc : List.concat
    (map (fun k => listed (fst (transactions_GET true
                                  (mkPageQuery (Some (Pos.of_nat (S k)))
                                     (Some limit)) db)))
       (seq 0 (ceilDiv (List.length (transactions db)) (Pos.to_nat limit))))
    = map transactionView (allNewestFirst db)).
  { erewrite map_ext.
    2:{ intro k. rewrite transactions_GET_listed. cbn [fst listed].
        unfold pageOf, limitOf. cbn [q_page q_limit].
        rewrite Nat2Pos.id by lia. cbn [Nat.sub]. rewrite Nat.sub_0_r.
        rewrite <- firstn_map, <- skipn_map. reflexivity. }
    apply concat_pages. rewrite length_map, length_allNewestFirst.
    apply ceilDiv_covers. lia. }
  split; [exact Hc|]. split.
  - unfold allNewestFirst. rewrite sortByDateDesc_perm, filter_all.
    rewrite map_map. cbn [populate p_tx]. now rewrite map_id.
  - rewrite Hc. unfold allNewestFirst.
    generalize (sortByDateDesc_sorted
                  (map (populate db) (List.filter (fun _ => true)
                                        (transactions db)))).
    generalize (sortByDateDesc
                  (map (populate db) (List.filter (fun _ => true)
                                        (transactions db)))).
    intros l Hs. induction Hs as [|a r Hs IH Hhd]; [constructor|].
    cbn [map]. constructor; [exact IH|].
    destruct Hhd as [|b r' Hb]; constructor. exact Hb.
Qed.

End ListTheorems.

Lemma mapResult_ok {A B} (f : A -> Result B) (l : list A) :
  (forall a, In a l -> exists b, f a = Ok b) ->
  exists bs, mapResult f l = Ok bs /\ List.length bs = List.length l.
Proof.
  induction l as [|a r IH]; intro Hall.
  - exists []. split; reflexivity.
  - destruct (Hall a (or_introl eq_refl)) as [b Hb].
    destruct IH as (bs & Hbs & Hlen); [intros x Hx; apply Hall; now right|].
    exists (b :: bs). cbn [mapResult]. rewrite Hb, Hbs. cbn. now rewrite Hlen.
Qed.

Lemma mapResult_throw {A B} (f : A -> Result B) (l : list A) (a : A) :
  In a l -> (exists e, f a = Throw e) -> exists e, mapResult f l = Throw e.
Proof.
  induction l as [|x r IH]; [contradiction|].
  intros Hin Ha. cbn [mapResult].
  destruct (f x) as [b|e] eqn:Ex; [|now exists e].
  destruct Hin as [->|Hin].
  - destruct Ha as [e He]. congruence.
  - destruct (IH Hin Ha) as [e ->]. now exists e.
Qed.

Section CustomerListTheorems.
Context {N : Type} `{Number N} `{Crypto}.


End CustomerListTheorems.

(* ================================================================= *)
(** ** Updating a customer *)

Section UpdateTheorems.
Context {N : Type} `{Number N} `{Crypto}.

(** The two ways an update ends. *)
Lemma customer_PUT_inv (session : bool) (id : ObjectId)
    (b : CustomerUpdateBody N) (db : Db N) :
  exists r db',
    customer_PUT session id b db = (r, db') /\
    ((status r <> 200 /\ db' = db) \/
     (exists existing,
        customerById db id = Some existing /\
        updateValidationErrors (updateDataOf b) = [] /\
        emailTakenByOther id
          (c_email (applyUpdate (updateDataOf b) existing)) (customers db)
          = false /\
        (notBlank (u_transactionPin b) = true ->
         isPin (trim (u_transactionPin b)) = true) /\
        r = json (JObj [("success", JBool true);
                        ("message", JStr "Customer updated successfully");
                        ("customer",
                           customerDoc (applyUpdate (updateDataOf b) existing))])
              200 /\
        db' = mkDb (replaceById (applyUpdate (updateDataOf b) existing)
                      (customers db))
                   (transactions db) (nextId db))).
Proof.
  unfold customer_PUT, customer_PUT_body.
  destruct session; cbn [negb];
    [|do 2 eexists; split; [reflexivity|left; cbn; split; [lia|auto]]].
  destruct (_ || _);
    [do 2 eexists; split; [reflexivity|left; cbn; split; [lia|auto]]|].
  unfold bind at 1, Customer_findById.
  destruct (customerById db id) as [existing|] eqn:Ec;
    [|do 2 eexists; split; [reflexivity|left; cbn; split; [lia|auto]]].
  unfold bind at 1.
  assert (Hlook : exists o,
    (if negb (String.eqb (u_email b) (c_email existing))
     then Customer_findOne_email_ne (toLowerCase (u_email b)) id
     else ret None) db = (Ok o, db)).
  { destruct (negb _); eexists; reflexivity. }
  destruct Hlook as [o ->].
  destruct o as [other|];
    [do 2 eexists; split; [reflexivity|left; cbn; split; [lia|auto]]|].
  destruct (notBlank (u_transactionPin b) &&
            negb (isPin (trim (u_transactionPin b)))) eqn:Epin;
    [do 2 eexists; split; [reflexivity|left; cbn; split; [lia|auto]]|].
  unfold bind, Customer_findByIdAndUpdate_set.
  destruct (updateValidationErrors (updateDataOf b)) as [|m ms] eqn:Ev;
    [|do 2 eexists; split; [reflexivity|left; cbn; split; [lia|auto]]].
  rewrite Ec.
  destruct (emailTakenByOther id _ (customers db)) eqn:Etaken;
    [do 2 eexists; split; [reflexivity|left; cbn; split; [lia|auto]]|].
  do 2 eexists. split; [reflexivity|]. right. exists existing.
  repeat split; auto.
  intro Hnb. rewrite Hnb in Epin. cbn in Epin.
  now destruct (isPin (trim (u_transactionPin b))).
Qed.

(** X28. An update answered 200 rewrites the customer named and
    nothing else.  The identifier and the account number stay; the
    balance becomes the number sent, or 0 when the request sends none,
    zero or NaN; the password and the PIN stay unless the request
    sends one that is not blank, and a PIN sent is four to six digits.
    No other customer and no transaction is touched, and every other
    answer leaves the database as it was. *)
Theorem customer_PUT_effect (session : bool) (id : ObjectId)
    (b : CustomerUpdateBody N) (db db' : Db N) (r : Response N) :
  customer_PUT session id b db = (r, db') ->
  (status r = 200 /\
   exists existing updated,
     customerById db id = Some existing /\
     customerById db' id = Some updated /\
     c_id updated = id /\
     c_accountNumber updated = c_accountNumber existing /\
     c_balance updated
       = match u_balance b with
         | Some balance => if falsy balance then lit 0 else balance
         | None => lit 0
         end /\
     c_password updated
       = (if notBlank (u_password b)
          then bcrypt_hash (trim (u_password b)) else c_password existing) /\
     c_transactionPin updated
       = (if notBlank (u_transactionPin b)
          then bcrypt_hash (trim (u_transactionPin b))
          else c_transactionPin existing) /\
     (notBlank (u_transactionPin b) = true ->
      isPin (trim (u_transactionPin b)) = true) /\
     (forall i, i <> id -> customerById db' i = customerById db i) /\
     transactions db' = transactions db) \/
  (status r <> 200 /\ db' = db).
Proof.
  intro E.
  destruct (customer_PUT_inv session id b db)
    as (r0 & db0 & E0 & [[Hs ->]|(existing & Hc & _ & _ & Hpin & -> & ->)]);
    rewrite E0 in E; injection E as <- <-; [right; auto|].
  left. split; [reflexivity|].
  exists existing, (applyUpdate (updateDataOf b) existing).
  pose proof (customerById_id _ _ _ Hc) as Hid.
  unfold customerById in *. cbn [customers transactions].
  split; [exact Hc|]. split.
  { rewrite find_id_replaceById, Hc. cbn [option_map c_id applyUpdate].
    now rewrite Hid, Nat.eqb_refl. }
  split; [exact Hid|]. split; [reflexivity|].
  split; [reflexivity|].
  split.
  { cbn [applyUpdate c_password updateDataOf ud_password].
    destruct (notBlank (u_password b)); reflexivity. }
  split.
  { cbn [applyUpdate c_transactionPin updateDataOf ud_transactionPin].
    destruct (notBlank (u_transactionPin b)); reflexivity. }
  split; [exact Hpin|]. split; [|reflexivity].
  intros i Hi. rewrite find_id_replaceById. cbn [c_id applyUpdate].
  rewrite Hid. apply Nat.eqb_neq in Hi. rewrite Hi.
  destruct (find (fun c => c_id c =? i) (customers db)); reflexivity.
Qed.

Lemma customer_PUT_wf (session : bool) (id : ObjectId)
    (b : CustomerUpdateBody N) (db : Db N) :
  wf_db db -> wf_db (snd (customer_PUT session id b db)).
Proof.
  intro Hwf.
  destruct (customer_PUT_inv session id b db)
    as (r0 & db0 & E0 & [[Hs ->]|(existing & Hc & Hv & _ & _ & -> & ->)]);
    rewrite E0; cbn [snd]; [exact Hwf|].
  apply (wf_db_replaceById db existing).
  - exact Hwf.
  - cbn [applyUpdate c_id]. now rewrite (customerById_id _ _ _ Hc).
  - assert (Hex : Customer_valid existing = true).
    { pose proof (wf_valid _ Hwf) as Hval. rewrite Forall_forall in Hval.
      apply Hval. unfold customerById in Hc. now apply find_some in Hc. }
    unfold Customer_valid in *. unfold updateValidationErrors in Hv.
    cbn [applyUpdate c_firstname c_lastname c_email c_accountNumber
         c_password c_transactionPin].
    rewrite !andb_true_iff in Hex.
    destruct Hex as [[[[[_ _] _] Ha] Hp] Ht].
    destruct (falsyStr (trim (ud_firstname (updateDataOf b))));
      [discriminate|].
    destruct (falsyStr (trim (ud_lastname (updateDataOf b))));
      [discriminate|].
    destruct (falsyStr (emailSetter (ud_email (updateDataOf b))));
      [discriminate|].
    rewrite Ha. cbn [negb andb].
    destruct (ud_password (updateDataOf b)) as [h|].
    + destruct (falsyStr h); [discriminate|]. cbn [negb andb].
      destruct (ud_transactionPin (updateDataOf b)) as [h'|]; [|exact Ht].
      now destruct (falsyStr h').
    + rewrite Hp. cbn [andb].
      destruct (ud_transactionPin (updateDataOf b)) as [h'|]; [|exact Ht].
      now destruct (falsyStr h').
Qed.

End UpdateTheorems.

(* ================================================================= *)
(** ** Site settings *)

Lemma SiteBody_eqb_eq (a b : SiteBody) : SiteBody_eqb a b = true -> a = b.
Proof.
  unfold SiteBody_eqb. rewrite !andb_true_iff, !String.eqb_eq.
  destruct a, b. cbn. intros [[[[[[-> ->] ->] ->] ->] ->] ->]. reflexivity.
Qed.

Lemma SiteBody_valid_iff (b : SiteBody) :
  SiteBody_valid b = negb (falsyStr (sb_phone b) || falsyStr (sb_email b) ||
     falsyStr (sb_address b) || falsyStr (sb_city b) ||
     falsyStr (sb_state b) || falsyStr (sb_zip b) ||
     falsyStr (sb_country b)).
Proof.
  unfold SiteBody_valid.
  destruct (falsyStr (sb_phone b)), (falsyStr (sb_email b)),
    (falsyStr (sb_address b)), (falsyStr (sb_city b)),
    (falsyStr (sb_state b)), (falsyStr (sb_zip b)),
    (falsyStr (sb_country b)); reflexivity.
Qed.

Section SiteTheorems.
Context {N : Type} `{Number N} `{Crypto}.

Lemma findOrCreateSite_spec (now : Z) (sdb : SiteDb) :
  exists site sdb',
    findOrCreateSite now sdb = (Ok site, sdb') /\
    Site_findOne sdb' = Some site /\
    ((Site_findOne sdb = Some site /\ sdb' = sdb) \/
     (sites sdb = [] /\ fieldsOf site = defaultSite /\
      sites sdb' = [site])).
Proof.
  unfold findOrCreateSite, Site_findOne.
  destruct (sites sdb) as [|site r] eqn:Es.
  - unfold Site_create. cbn [SiteBody_valid defaultSite sb_phone sb_email
      sb_address sb_city sb_state sb_zip sb_country falsyStr negb andb].
    rewrite Es. do 2 eexists. split; [reflexivity|].
    cbn [sites app]. split; [reflexivity|]. right. repeat split.
  - exists site, sdb. rewrite Es. repeat split. left. split; reflexivity.
Qed.

(** The ways a settings update ends. *)
Lemma site_PUT_inv (session : bool) (now : Z) (b : SiteBody) (sdb : SiteDb) :
  exists (r : Response N) sdb',
    site_PUT session now b sdb = (r, sdb') /\
    ((status r <> 200 /\ sdb' = sdb) \/
     (exists site,
        status r = 200 /\ SiteBody_valid b = true /\
        fieldsOf site = b /\
        ((sites sdb = [] /\ sites sdb' = [site]) \/
         (exists old rest, sites sdb = old :: rest /\
                           sites sdb' = site :: rest /\
                           s_id site = s_id old)))).
Proof.
  unfold site_PUT.
  destruct session; cbn [negb];
    [|do 2 eexists; split; [reflexivity|left; cbn; split; [lia|auto]]].
  pose proof (SiteBody_valid_iff b) as Hv.
  destruct (_ || _);
    [do 2 eexists; split; [reflexivity|left; cbn; split; [lia|auto]]|].
  cbn [negb] in Hv.
  unfold Site_findOne.
  destruct (sites sdb) as [|old rest] eqn:Es.
  - unfold Site_create. rewrite Hv. cbn [negb]. rewrite Es.
    do 2 eexists. split; [reflexivity|]. right.
    exists (mkSite (siteNextId sdb) (sb_phone b) (sb_email b) (sb_address b)
              (sb_city b) (sb_state b) (sb_zip b) (sb_country b) now now).
    cbn [status json sites app].
    split; [reflexivity|]. split; [reflexivity|].
    split; [now destruct b|]. left. split; reflexivity.
  - unfold Site_assign_save.
    destruct (SiteBody_eqb (fieldsOf old) b) eqn:Eq.
    + apply SiteBody_eqb_eq in Eq.
      do 2 eexists. split; [reflexivity|]. right. exists old.
      cbn [status json].
      split; [reflexivity|]. split; [exact Hv|]. split; [exact Eq|].
      right. exists old, rest. now rewrite Es.
    + rewrite Hv. cbn [negb]. rewrite Es. cbn [replaceSite s_id].
      rewrite Nat.eqb_refl.
      do 2 eexists. split; [reflexivity|]. right.
      exists (mkSite (s_id old) (sb_phone b) (sb_email b) (sb_address b)
                (sb_city b) (sb_state b) (sb_zip b) (sb_country b)
                (s_createdAt old) now).
      cbn [status json sites].
      split; [reflexivity|]. split; [reflexivity|].
      split; [now destruct b|].
      right. exists old, rest. repeat split.
Qed.

(** X29. The site settings stay one document: on a collection that
    holds at most one, no request to the three site routes leaves more
    than one, and every request answered 200 leaves exactly one. *)
Theorem site_settings_singleton (session : bool) (request : Request)
    (now : Z) (b : SiteBody) (sdb : SiteDb) :
  List.length (sites sdb) <= 1 ->
  let answers := [site_GET session now sdb; site_PUT session now b sdb;
                  customer_site_GET request now sdb] in
  Forall (fun a : Response N * SiteDb =>
            List.length (sites (snd a)) <= 1 /\
            (status (fst a) = 200 -> List.length (sites (snd a)) = 1))
    answers.
Proof.
  intros Hlen answers. subst answers.
  assert (Hfoc : forall site sdb',
            findOrCreateSite now sdb = (Ok site, sdb') ->
            List.length (sites sdb') = 1).
  { intros site sdb' E.
    destruct (findOrCreateSite_spec now sdb)
      as (s & sdb1 & E1 & Hf & [[Hold ->]|(He & _ & Hs)]);
      rewrite E1 in E; injection E as <- <-.
    - unfold Site_findOne in Hold.
      destruct (sites sdb) as [|x [|y l]]; cbn in *; try discriminate;
        [reflexivity|lia].
    - now rewrite Hs. }
  destruct (findOrCreateSite_spec now sdb) as (s & sdb1 & E1 & _).
  pose proof (Hfoc _ _ E1) as H1.
  constructor; [split|constructor; [split|constructor; [split|constructor]]].
  - unfold site_GET. destruct session; cbn [negb fst snd]; [|exact Hlen].
    rewrite E1. cbn [snd]. lia.
  - unfold site_GET. destruct session; cbn [negb fst snd status json];
      [|discriminate].
    rewrite E1. cbn [snd]. intros _. exact H1.
  - destruct (site_PUT_inv session now b sdb)
      as (r & sdb' & -> & [[_ ->]|(site & _ & _ & _ & [[_ Hs]|(old & rest & Ho & Hs & _)])]);
      cbn [snd]; [exact Hlen|rewrite Hs; cbn; lia|].
    rewrite Hs. rewrite Ho in Hlen. cbn in *. lia.
  - destruct (site_PUT_inv session now b sdb)
      as (r & sdb' & -> & [[Hne ->]|(site & _ & _ & _ & [[_ Hs]|(old & rest & Ho & Hs & _)])]);
      cbn [fst snd]; [congruence|now rewrite Hs|].
    intros _. rewrite Hs. rewrite Ho in Hlen. cbn in *. lia.
  - unfold customer_site_GET.
    destruct (authorization request) as [h|]; [|exact Hlen].
    destruct (_ || _); [exact Hlen|].
    destruct (verifyToken _); [|exact Hlen].
    rewrite E1. cbn [snd]. lia.
  - unfold customer_site_GET.
    destruct (authorization request) as [h|]; [|discriminate].
    destruct (_ || _); [discriminate|].
    destruct (verifyToken _); [|discriminate].
    rewrite E1. cbn [snd]. intros _. exact H1.
Qed.

(** X30. What an administrator stores is what is read back: after a
    settings update answered 200, the admin route returns the seven
    fields sent and the customer route, for a token that verifies,
    shows them as contact and address; neither read writes. *)
Theorem site_settings_round_trip (now now' : Z) (b : SiteBody)
    (sdb sdb' : SiteDb) (r : Response N) (request : Request)
    (decoded : JWTPayload) :
  site_PUT true now b sdb = (r, sdb') ->
  status r = 200 ->
  authenticateRequest request = Some decoded ->
  exists id created updated,
    site_GET (N:=N) true now' sdb'
    = (json (JObj [
         ("site", JObj [("_id", JId id);
                        ("phone", JStr (sb_phone b));
                        ("email", JStr (sb_email b));
                        ("address", JStr (sb_address b));
                        ("city", JStr (sb_city b));
                        ("state", JStr (sb_state b));
                        ("zip", JStr (sb_zip b));
                        ("country", JStr (sb_country b));
                        ("createdAt", JDate created);
                        ("updatedAt", JDate updated)])]) 200, sdb') /\
    customer_site_GET (N:=N) request now' sdb'
    = (json (JObj [
         ("success", JBool true);
         ("site", JObj [
            ("contact", JObj [("phone", JStr (sb_phone b));
                              ("email", JStr (sb_email b))]);
            ("address", JObj [("street", JStr (sb_address b));
                              ("city", JStr (sb_city b));
                              ("state", JStr (sb_state b));
                              ("zip", JStr (sb_zip b));
                              ("country", JStr (sb_country b))]);
            ("lastUpdated", JDate updated)])]) 200, sdb').
Proof.
  intros E Hst Ha.
  destruct (site_PUT_inv true now b sdb)
    as (r0 & sdb0 & E0 & [[Hne ->]|(site & _ & _ & Hf & Hsites)]);
    rewrite E0 in E; injection E as <- <-; [congruence|].
  assert (Hone : Site_findOne sdb0 = Some site).
  { unfold Site_findOne.
    destruct Hsites as [[_ ->]|(old & rest & _ & -> & _)]; reflexivity. }
  exists (s_id site), (s_createdAt site), (s_updatedAt site).
  apply authenticateRequest_bearer in Ha.
  destruct Ha as (token & Hh & Htok & Hv).
  unfold site_GET, customer_site_GET, findOrCreateSite. cbn [negb].
  rewrite Hone, Hh.
  assert (Es : startsWith "Bearer " ("Bearer " ++ token) = true).
  { apply prefix_correct. cbn. now destruct token. }
  rewrite Es. cbn [falsyStr String.append orb negb dropStr].
  unfold verifyToken. rewrite Hv.
  subst b. cbn [fieldsOf sb_phone sb_email sb_address sb_city sb_state
                sb_zip sb_country]. split; reflexivity.
Qed.

End SiteTheorems.

(* ================================================================= *)
(** ** What every route keeps *)

Section KeyLemmas.
Context {N : Type} `{Number N}.

Lemma map_inc_balance {B} (f : Customer N -> B) (id : ObjectId) (d : N)
    (l : list (Customer N)) :
  (forall c b, f (set_balance c b) = f c) ->
  map f (inc_balance id d l) = map f l.
Proof.
  intro Hf. induction l as [|a r IH]; [reflexivity|]. cbn [inc_balance].
  destruct (c_id a =? id); cbn [map]; [now rewrite Hf|now rewrite IH].
Qed.

Lemma NoDup_map_snoc {A B} (f : A -> B) (l : list A) (c : A) :
  NoDup (map f l) -> (forall d, In d l -> f d <> f c) ->
  NoDup (map f (l ++ [c])).
Proof.
  intros Hnd Hnew. rewrite map_app. cbn [map].
  apply NoDup_app; [exact Hnd|repeat constructor; intros []|].
  intros x Hx [<-|[]]. apply in_map_iff in Hx.
  destruct Hx as (d & Hd & Hin). now apply (Hnew d Hin).
Qed.

Lemma clashes_false (c : Customer N) (l : list (Customer N)) :
  Customer_clashes c l = false ->
  forall d, In d l -> c_email d <> c_email c /\
                      c_accountNumber d <> c_accountNumber c.
Proof.
  unfold Customer_clashes. intros Hc d Hin.
  assert (Hd : String.eqb (c_email d) (c_email c) ||
               String.eqb (c_accountNumber d) (c_accountNumber c) = false).
  { destruct (_ || _) eqn:E; [|reflexivity].
    rewrite <- Hc. symmetry. apply existsb_exists. now exists d. }
  apply orb_false_iff in Hd. destruct Hd as [He Ha].
  apply String.eqb_neq in He. apply String.eqb_neq in Ha. now split.
Qed.

Lemma unique_keys_snoc (cs : list (Customer N)) (c : Customer N)
    (ts : list (Transaction N)) (n n' : ObjectId) :
  unique_keys (mkDb cs ts n) ->
  Customer_clashes c cs = false ->
  unique_keys (mkDb (cs ++ [c]) ts n').
Proof.
  intros [He Ha] Hc. pose proof (clashes_false c cs Hc) as Hd.
  split; cbn [customers] in *; apply NoDup_map_snoc; auto;
    intros d Hin; now apply Hd.
Qed.

Lemma map_replaceById {B} (f : Customer N -> B) (c c' : Customer N)
    (l : list (Customer N)) :
  find (fun x => c_id x =? c_id c') l = Some c ->
  f c' = f c ->
  map f (replaceById c' l) = map f l.
Proof.
  intros Hfind Hf. induction l as [|a r IH]; [reflexivity|].
  cbn [find] in Hfind. cbn [replaceById].
  destruct (c_id a =? c_id c').
  - injection Hfind as ->. cbn [map]. now rewrite Hf.
  - cbn [map]. now rewrite IH.
Qed.

Lemma NoDup_email_replaceById (c' : Customer N) (l : list (Customer N)) :
  NoDup (map c_id l) ->
  NoDup (map c_email l) ->
  emailTakenByOther (c_id c') (c_email c') l = false ->
  NoDup (map c_email (replaceById c' l)).
Proof.
  unfold emailTakenByOther.
  induction l as [|a r IH]; intros Hid Hem Htaken; [constructor|].
  cbn [map] in Hid, Hem.
  inversion Hid as [|? ? Hida Hidr]; subst.
  inversion Hem as [|? ? Hema Hemr]; subst.
  cbn [existsb] in Htaken. apply orb_false_iff in Htaken.
  destruct Htaken as [Ha Hr].
  assert (Hother : forall d, In d r -> c_id d <> c_id c' ->
                             c_email d <> c_email c').
  { intros d Hin Hne He.
    assert (E : existsb (fun d => negb (c_id d =? c_id c') &&
                                  String.eqb (c_email d) (c_email c')) r
                = true).
    { apply existsb_exists. exists d. split; [exact Hin|].
      apply Nat.eqb_neq in Hne. rewrite Hne, He, String.eqb_refl.
      reflexivity. }
    congruence. }
  cbn [replaceById].
  destruct (c_id a =? c_id c') eqn:Ea; cbn [map].
  - apply Nat.eqb_eq in Ea. constructor; [|exact Hemr].
    intro Hin. apply in_map_iff in Hin. destruct Hin as (d & Hd & Hin).
    apply (Hother d Hin); [|exact Hd].
    intro Heq. apply Hida. rewrite Ea, <- Heq. now apply in_map.
  - cbn [negb andb] in Ha. apply String.eqb_neq in Ha.
    constructor; [|now apply IH].
    intro Hin. apply in_map_iff in Hin. destruct Hin as (d & Hd & Hin).
    apply In_replaceById in Hin. destruct Hin as [->|Hin].
    + congruence.
    + apply Hema. rewrite <- Hd. now apply in_map.
Qed.

Lemma NoDup_map_removeById {B} (f : Customer N -> B) (id : ObjectId)
    (l : list (Customer N)) :
  NoDup (map f l) -> NoDup (map f (removeById id l)).
Proof.
  induction l as [|a r IH]; intro Hnd; [constructor|].
  cbn [removeById]. inversion Hnd as [|? ? Hnotin Hnd']; subst.
  destruct (c_id a =? id); [exact Hnd'|].
  cbn [map]. constructor; [|now apply IH].
  intro Hin. apply Hnotin. apply in_map_iff in Hin.
  destruct Hin as (x & Hx & Hin). apply In_removeById in Hin.
  rewrite <- Hx. now apply in_map.
Qed.

End KeyLemmas.

Section ReadOnly.
Context {N : Type} `{Number N} `{Crypto} `{ObjectIdString}.

Lemma login_POST_readonly (b : LoginBody) (db : Db N) :
  snd (login_POST b db) = db.
Proof.
  unfold login_POST, login_POST_body.
  destruct (_ || _); [reflexivity|].
  unfold bind, Customer_findOne_email.
  destruct (customerByEmail db (l_email b)) as [c|]; [|reflexivity].
  destruct (negb _); reflexivity.
Qed.

Lemma transactions_GET_readonly (session : bool) (query : PageQuery)
    (db : Db N) :
  snd (transactions_GET session query db) = db.
Proof. destruct session; reflexivity. Qed.

Lemma customer_transactions_GET_readonly (request : Request)
    (query : PageQuery) (db : Db N) :
  snd (customer_transactions_GET request query db) = db.
Proof.
  unfold customer_transactions_GET, customer_transactions_GET_body.
  destruct (extractTokenFromRequest request) as [token|]; [|reflexivity].
  destruct (falsyStr token); [reflexivity|].
  destruct (verifyToken token) as [decoded|]; [|reflexivity].
  cbv [bind Transaction_find_page Transaction_countDocuments liftResult].
  destruct (mapResult _ _); reflexivity.
Qed.

Lemma statement_GET_readonly (request : Request) (query : StatementQuery)
    (now : Z) (db : Db N) :
  snd (statement_GET request query now db) = db.
Proof.
  unfold statement_GET, statement_GET_body.
  destruct (extractTokenFromRequest request) as [token|]; [|reflexivity].
  destruct (falsyStr token); [reflexivity|].
  destruct (verifyToken token) as [decoded|]; [|reflexivity].
  match goal with
  | |- context [(?a <? ?b)%Z] => destruct (a <? b)%Z; [reflexivity|]
  end.
  unfold bind at 1, Customer_findById.
  destruct (customerById db (customerId decoded)); [|reflexivity].
  unfold bind at 1, Transaction_find_statement.
  unfold bind at 1, liftResult at 1.
  match goal with
  | |- context [openingBalanceFrom ?c ?l ?b] =>
      destruct (openingBalanceFrom c l b); [|reflexivity]
  end.
  unfold bind at 1, liftResult at 1.
  match goal with
  | |- context [formatTransactions ?c ?x ?a ?l] =>
      destruct (formatTransactions c x a l) as [[acc es]|]; [|reflexivity]
  end.
  destruct (String.eqb _ "json"); [|destruct (String.eqb _ "pdf")];
    reflexivity.
Qed.

Lemma verify_GET_readonly (request : Request) (db : Db N) :
  snd (verify_GET request db) = db.
Proof.
  unfold verify_GET, Customer_findById.
  destruct (authenticateRequest request) as [decoded|]; [|reflexivity].
  destruct (customerById db (customerId decoded)); reflexivity.
Qed.

End ReadOnly.

Section ApiTheorems.
Context {N : Type} `{NumberOrder N} `{NumberFormat N} `{Crypto}
        `{ObjectIdString}.

Lemma register_POST_wf (random : nat -> Q) (b : RegisterBody) (db : Db N) :
  wf_db db -> wf_db (snd (register_POST random b db)).
Proof.
  intros [Hids Hval Hfresh Htx].
  destruct (register_POST_inv random b db)
    as (r0 & db0 & E0 &
        [(Hs & Hc & Ht & Hn)|(acct & _ & _ & Hv & _ & _ & ->)]);
    rewrite E0; cbn [snd].
  - constructor; rewrite ?Hc, ?Ht; auto.
    + eapply Forall_impl; [|exact Hfresh]. cbn. intros; lia.
    + eapply Forall_impl; [|exact Htx]. cbn. intros; lia.
  - cbv zeta in Hv.
    constructor; cbn [customers transactions nextId].
    + rewrite map_app. cbn [map c_id]. apply NoDup_app; auto.
      * repeat constructor. intros [].
      * intros x Hx [<-|[]]. apply in_map_iff in Hx.
        destruct Hx as (d & Hd & Hin). rewrite Forall_forall in Hfresh.
        apply Hfresh in Hin. lia.
    + apply Forall_app. split; [exact Hval|]. now repeat constructor.
    + apply Forall_app. split.
      * eapply Forall_impl; [|exact Hfresh]. cbn. intros; lia.
      * repeat constructor.
    + eapply Forall_impl; [|exact Htx]. cbn. intros; lia.
Qed.

Lemma customer_valid_stored (db : Db N) (i : ObjectId) (c : Customer N) :
  wf_db db -> customerById db i = Some c -> Customer_valid c = true.
Proof.
  intros Hwf Hc. pose proof (wf_valid _ Hwf) as Hval.
  rewrite Forall_forall in Hval. apply Hval.
  unfold customerById in Hc. now apply find_some in Hc.
Qed.

Lemma changePassword_POST_wf (request : Request) (b : ChangePasswordBody)
    (db : Db N) :
  wf_db db -> wf_db (snd (changePassword_POST request b db)).
Proof.
  intro Hwf.
  destruct (changePassword_POST_inv request b db)
    as (r0 & db0 & E0 &
        [[Hs ->]|(decoded & customer & _ & Hc & _ & _ & _ & _ & Hh & _ & ->)]);
    rewrite E0; cbn [snd]; [exact Hwf|].
  apply (wf_db_replaceById db customer); [exact Hwf| |].
  - cbn [set_password c_id]. now rewrite (customerById_id _ _ _ Hc).
  - pose proof (customer_valid_stored _ _ _ Hwf Hc) as Hv.
    unfold Customer_valid in *.
    cbn [set_password c_firstname c_lastname c_email c_accountNumber
         c_password c_transactionPin].
    rewrite !andb_true_iff in Hv.
    destruct Hv as [[[[[-> ->] ->] ->] _] ->]. now rewrite Hh.
Qed.

Lemma changePin_POST_wf (request : Request) (b : ChangePinBody) (db : Db N) :
  wf_db db -> wf_db (snd (changePin_POST request b db)).
Proof.
  intro Hwf.
  destruct (changePin_POST_inv request b db)
    as (r0 & db0 & E0 &
        [[Hs ->]|(decoded & customer & _ & Hc & _ & _ & _ & _ & Hh & _ & ->)]);
    rewrite E0; cbn [snd]; [exact Hwf|].
  apply (wf_db_replaceById db customer); [exact Hwf| |].
  - cbn [set_transactionPin c_id]. now rewrite (customerById_id _ _ _ Hc).
  - pose proof (customer_valid_stored _ _ _ Hwf Hc) as Hv.
    unfold Customer_valid in *.
    cbn [set_transactionPin c_firstname c_lastname c_email c_accountNumber
         c_password c_transactionPin].
    rewrite !andb_true_iff in Hv.
    destruct Hv as [[[[[-> ->] ->] ->] ->] _]. now rewrite Hh.
Qed.

Lemma customer_DELETE_wf (session : bool) (id : ObjectId) (db : Db N) :
  wf_db db -> wf_db (snd (customer_DELETE session id db)).
Proof.
  intros Hwf.
  destruct (customer_DELETE_inv session id db)
    as (r0 & db0 & E0 & [[Hs ->]|(c & _ & Hc & _ & ->)]);
    rewrite E0; cbn [snd]; [exact Hwf|].
  destruct Hwf as [Hids Hval Hfresh Htx].
  constructor; cbn [customers transactions nextId]; auto.
  - now apply NoDup_map_removeById.
  - now apply Forall_removeById.
  - now apply Forall_removeById.
Qed.

(** One request keeps the database well formed and the keys unique. *)
Lemma after_invariant (call : Call N) (db : Db N) :
  wf_db db -> unique_keys db ->
  wf_db (after call db) /\ unique_keys (after call db).
Proof.
  intros Hwf Hu. destruct call; cbn [after].
  - (* deposit *)
    split; [now apply deposit_POST_wf|].
    destruct (deposit_POST_inv session now b db Hwf)
      as (r0 & db0 & E0 &
          [[Hs ->]|[(Hs & Hc & Ht)|(A & X & h & extra & _ & _ & _ & _ & Hex & _ & ->)]]);
      rewrite E0; cbn [snd]; [exact Hu| |].
    + destruct Hu as [He Ha]. split; now rewrite Hc.
    + assert (Hu' : unique_keys (mkDb (customers db ++ extra)
                                   (transactions db) (nextId db))).
      { destruct Hex as [[_ ->]|(_ & -> & Hcl)].
        - rewrite app_nil_r. now destruct db.
        - apply (unique_keys_snoc _ _ _ (nextId db)); [now destruct db|auto]. }
      destruct Hu' as [He Ha]. cbn [customers] in *.
      split; cbn [customers]; rewrite map_inc_balance; auto.
  - (* transfer *)
    split; [now apply transactions_POST_wf|].
    destruct (transactions_POST_inv session now b db)
      as (r0 & db0 & E0 & [[Hs ->]|(f & t & A & X & Y & _ & _ & _ & _ & _ & _ & _ & _ & ->)]);
      rewrite E0; cbn [snd]; [exact Hu|].
    destruct Hu as [He Ha].
    split; cbn [customers]; rewrite !map_inc_balance; auto.
  - rewrite transactions_GET_readonly. now split.
  - (* update *)
    split; [now apply customer_PUT_wf|].
    destruct (customer_PUT_inv session id b db)
      as (r0 & db0 & E0 & [[Hs ->]|(existing & Hc & _ & Ht & _ & -> & ->)]);
      rewrite E0; cbn [snd]; [exact Hu|].
    destruct Hu as [He Ha].
    pose proof (customerById_id _ _ _ Hc) as Hid.
    split; cbn [customers].
    + apply NoDup_email_replaceById; [apply (wf_ids _ Hwf)|exact He|].
      cbn [applyUpdate c_id] in *. now rewrite Hid.
    + rewrite (map_replaceById _ existing); [exact Ha| |reflexivity].
      cbn [applyUpdate c_id]. unfold customerById in Hc.
      now rewrite Hid.
  - (* delete *)
    split; [now apply customer_DELETE_wf|].
    destruct (customer_DELETE_inv session id db)
      as (r0 & db0 & E0 & [[Hs ->]|(c & _ & Hc & _ & ->)]);
      rewrite E0; cbn [snd]; [exact Hu|].
    destruct Hu as [He Ha].
    split; cbn [customers]; now apply NoDup_map_removeById.
  - (* register *)
    split; [now apply register_POST_wf|].
    destruct (register_POST_inv random b db)
      as (r0 & db0 & E0 &
          [(Hs & Hc & Ht & Hn)|(acct & _ & _ & _ & Hcl & _ & ->)]);
      rewrite E0; cbn [snd].
    + destruct Hu as [He Ha]. split; now rewrite Hc.
    + cbv zeta in Hcl.
      apply (unique_keys_snoc _ _ _ (nextId db)); [now destruct db|auto].
  - rewrite login_POST_readonly. now split.
  - rewrite verify_GET_readonly. now split.
  - rewrite statement_GET_readonly. now split.
  - rewrite transfer_POST_readonly. now split.
  - rewrite customer_transactions_GET_readonly. now split.
  - (* password *)
    split; [now apply changePassword_POST_wf|].
    destruct (changePassword_POST_inv request b db)
      as (r0 & db0 & E0 &
          [[Hs ->]|(decoded & customer & _ & Hc & _ & _ & _ & _ & _ & _ & ->)]);
      rewrite E0; cbn [snd]; [exact Hu|].
    destruct Hu as [He Ha]. unfold customerById in Hc.
    rewrite <- (customerById_id _ _ _ Hc) in Hc.
    split; cbn [customers];
      rewrite (map_replaceById _ customer); auto.
  - (* pin *)
    split; [now apply changePin_POST_wf|].
    destruct (changePin_POST_inv request b db)
      as (r0 & db0 & E0 &
          [[Hs ->]|(decoded & customer & _ & Hc & _ & _ & _ & _ & _ & _ & ->)]);
      rewrite E0; cbn [snd]; [exact Hu|].
    destruct Hu as [He Ha]. unfold customerById in Hc.
    rewrite <- (customerById_id _ _ _ Hc) in Hc.
    split; cbn [customers];
      rewrite (map_replaceById _ customer); auto.
Qed.

(** X21. Every database reached from a well-formed one with unique
    emails and account numbers, by any sequence of requests to the
    routes, is again well formed and has unique emails and account
    numbers. *)
Theorem api_keeps_invariants (calls : list (Call N)) (db : Db N) :
  wf_db db -> unique_keys db ->
  wf_db (afterAll calls db) /\ unique_keys (afterAll calls db).
Proof.
  unfold afterAll. revert db.
  induction calls as [|call calls IH]; intros db Hwf Hu; cbn [fold_left].
  - now split.
  - destruct (after_invariant call db Hwf Hu) as [Hwf' Hu'].
    now apply IH.
Qed.

End ApiTheorems.

Section Readers.
Context {N : Type} `{Number N} `{NumberFormat N} `{Crypto} `{ObjectIdString}.

(** X8. The routes that only read never write: after a login, a token
    verification, a statement, a customer transfer or either
    transaction list, the database is the one the request found. *)
Theorem reading_routes_write_nothing (db : Db N) :
  (forall b, after (Login b) db = db) /\
  (forall request, after (Verify request) db = db) /\
  (forall request query now, after (Statement request query now) db = db) /\
  (forall request b now, after (CustomerTransfer request b now) db = db) /\
  (forall request query,
     after (CustomerListTransactions request query) db = db) /\
  (forall session query, after (AdminListTransactions session query) db = db).
Proof.
  cbn [after]. repeat split; intros.
  - apply login_POST_readonly.
  - apply verify_GET_readonly.
  - apply statement_GET_readonly.
  - apply transfer_POST_readonly.
  - apply customer_transactions_GET_readonly.
  - apply transactions_GET_readonly.
Qed.

End Readers.

(* ================================================================= *)
(** ** More of the handlers on sample data *)

Section MoreExamples.
#[local] Existing Instance registryCrypto.
#[local] Existing Instance sampleIds.
#[local] Existing Instance sampleFormat.

Lemma annPaidBob_wf : wf_db annPaidBob.
Proof.
  constructor; cbn.
  - repeat constructor; cbn; intuition; discriminate.
  - repeat constructor.
  - repeat constructor.
  - repeat constructor.
Qed.

Lemma twoCustomers_unique : unique_keys twoCustomers.
Proof.
  split; cbn; repeat constructor; cbn; intuition; discriminate.
Qed.

(** Ann holds 100 and sends Bob, who holds 50, an amount of 30. *)
Lemma transfer_applied_witness :
  exists r db',
    transactions_POST true 1000 transferToBob twoCustomers = (r, db') /\
    status r = 201 /\
    transactions db' =
      transactions twoCustomers ++
      [mkTransaction 3 1 2 30%float "Transfer" 1000] /\
    option_map c_balance (customerById db' 1)
      = Some (add 100%float (neg 30%float)) /\
    option_map c_balance (customerById db' 2)
      = Some (add 50%float 30%float).
Proof.
  apply (transfer_applied twoCustomers 1000 1 2 30%float ""
           (ann 100%float) (bob 50%float)).
  - reflexivity.
  - reflexivity.
  - lia.
  - vm_compute. reflexivity.
  - vm_compute. reflexivity.
Defined.


(** Carol, were she stored, would not be touched by a transfer from
    Ann to Bob. *)
Lemma admin_transfer_frame_witness :
  customerById
    (snd (transactions_POST true 1000 transferToBob
            (mkDb [ann 100%float; bob 50%float; carolStored] [] 4))) 3
  = customerById (mkDb [ann 100%float; bob 50%float; carolStored] [] 4) 3.
Proof.
  apply (admin_transfer_frame true 1000 transferToBob
           (mkDb [ann 100%float; bob 50%float; carolStored] [] 4) _
           (fst (transactions_POST true 1000 transferToBob
                   (mkDb [ann 100%float; bob 50%float; carolStored] [] 4)))).
  - apply surjective_pairing.
  - discriminate.
  - discriminate.
Defined.

(** In exact arithmetic Ann sends the bank 30. *)
Lemma admin_transfer_conserves_total_witness :
  totalBalance
    (customers
       (snd (transactions_POST true 1000
               (mkTransferBody (Some 1) (Some 2) (Some (Q2Qc 30)) "")
               annAndBank)))
  = totalBalance (customers annAndBank).
Proof.
  apply (admin_transfer_conserves_total true 1000
           (mkTransferBody (Some 1) (Some 2) (Some (Q2Qc 30)) "") annAndBank _
           (fst (transactions_POST true 1000
                   (mkTransferBody (Some 1) (Some 2) (Some (Q2Qc 30)) "")
                   annAndBank))).
  apply surjective_pairing.
Defined.


(** A deposit to Ann leaves Bob as he was. *)
Lemma deposit_frame_witness :
  customerById (snd depositToAnn) 2 = Some (bob 50%float).
Proof.
  apply (deposit_frame true 1000
           (mkDepositBody "1000000001" (Some 50%float) "") twoCustomers _
           (fst depositToAnn)).
  - exact twoCustomers_wf.
  - apply surjective_pairing.
  - reflexivity.
  - intros X HX. vm_compute in HX. injection HX as <-. cbn. lia.
Defined.

Lemma annAndBank_wf : wf_db annAndBank.
Proof.
  constructor; cbn.
  - repeat constructor; cbn; intuition; discriminate.
  - repeat constructor.
  - repeat constructor.
  - constructor.
Qed.

(** In exact arithmetic, with the system account in place, a deposit
    of 50 to Ann raises the total by 50. *)
Lemma deposit_raises_total_witness :
  exists A,
    dep_amount (mkDepositBody "1000000001" (Some (Q2Qc 50)) "") = Some A /\
    totalBalance
      (customers
         (snd (deposit_POST true 1000
                 (mkDepositBody "1000000001" (Some (Q2Qc 50)) "")
                 annAndBank)))
    = add (totalBalance (customers annAndBank)) A.
Proof.
  apply (deposit_raises_total true 1000
           (mkDepositBody "1000000001" (Some (Q2Qc 50)) "") annAndBank _
           (fst (deposit_POST true 1000
                   (mkDepositBody "1000000001" (Some (Q2Qc 50)) "")
                   annAndBank))).
  - exact annAndBank_wf.
  - vm_compute. discriminate.
  - apply surjective_pairing.
  - vm_compute. reflexivity.
Defined.

(** Bob has been deleted; Ann's statement, which holds her transfer to
    him, fails. *)
Lemma statement_fails_iff_reference_dangles_witness :
  status (fst (statement_GET annRequest wholePeriod 6000 bobDeleted)) = 500 <->
  exists t,
    In t (transactions bobDeleted) /\
    inStatement 1 0%Z 5000%Z t = true /\
    (customerById bobDeleted (tx_fromUserId t) = None \/
     customerById bobDeleted (tx_toUserId t) = None).
Proof.
  apply (statement_fails_iff_reference_dangles annRequest wholePeriod 6000
           bobDeleted (mkPayload 1 "ann@example.com" "1000000001")
           (ann 70%float)).
  - reflexivity.
  - reflexivity.
  - vm_compute. discriminate.
Defined.

Lemma statement_counts_witness :
  let r := fst (statement_GET annRequest wholePeriod 6000 afterTwoDeposits) in
  exists credits debits,
    get "creditCount" (summaryOf r) = JNat credits /\
    get "debitCount" (summaryOf r) = JNat debits /\
    get "transactionCount" (summaryOf r) = JNat (credits + debits) /\
    List.length (entriesOf r) = credits + debits.
Proof.
  refine (statement_counts annRequest wholePeriod 6000 afterTwoDeposits
            (snd (statement_GET annRequest wholePeriod 6000 afterTwoDeposits))
            _ _ _).
  - apply surjective_pairing.
  - vm_compute. reflexivity.
Defined.

Lemma register_all_or_nothing_witness :
  let res := register_POST half carol twoCustomers in
  transactions (snd res) = transactions twoCustomers /\
  ((status (fst res) = 201 /\
    exists c,
      customers (snd res) = customers twoCustomers ++ [c] /\
      c_id c = nextId twoCustomers /\ c_balance c = lit 0 /\
      c_currency c = "USD" /\
      c_password c = bcrypt_hash (r_password carol) /\
      c_transactionPin c = bcrypt_hash (r_transactionPin carol) /\
      get "token" (body (fst res))
        = JStr (jwt_sign (mkPayload (c_id c) (c_email c) (c_accountNumber c))))
   \/
   (status (fst res) <> 201 /\ customers (snd res) = customers twoCustomers)).
Proof.
  apply (register_all_or_nothing half carol twoCustomers).
  apply surjective_pairing.
Defined.

(** Carol registers and presents the token she was handed. *)
Lemma register_token_verifies_witness :
  get "token" (body (fst (register_POST half carol twoCustomers)))
    = JStr "token-of-3" /\
  verify_GET (mkRequest (Some "Bearer token-of-3"))
    (snd (register_POST half carol twoCustomers))
  = (json (JObj [("success", JBool true);
                 ("message", JStr "Token is valid");
                 ("customerId", JId 3);
                 ("email", JStr "carol@example.com");
                 ("accountNumber", JStr "5500000000")]) 200,
     snd (register_POST half carol twoCustomers)).
Proof.
  refine (register_token_verifies half carol twoCustomers
            (snd (register_POST half carol twoCustomers))
            (fst (register_POST half carol twoCustomers)) carolStored
            _ _ _ _ _).
  - apply surjective_pairing.
  - vm_compute. reflexivity.
  - vm_compute. reflexivity.
  - vm_compute. reflexivity.
  - vm_compute. reflexivity.
Defined.

(** Carol registers, then logs in with her email in capitals. *)
Lemma register_then_login_witness :
  exists r',
    login_POST (mkLoginBody " CAROL@EXAMPLE.COM" (r_password carol))
      (snd (register_POST half carol twoCustomers))
    = (r', snd (register_POST half carol twoCustomers)) /\
    status r' = 200 /\
    get "id" (get "customer" (body r')) = JId (nextId twoCustomers) /\
    get "customer" (body r')
      = get "customer" (body (fst (register_POST half carol twoCustomers))).
Proof.
  apply (register_then_login half carol twoCustomers).
  - apply surjective_pairing.
  - vm_compute. reflexivity.
  - vm_compute. reflexivity.
  - reflexivity.
  - vm_compute. reflexivity.
Defined.



(** Ann logs in; her stored hash is that of the password "hash". *)
Lemma login_outcomes_witness :
  (exists c,
     customerByEmail twoCustomers "ann@example.com" = Some c /\
     bcrypt_compare "hash" (c_password c) = true /\
     login_POST (mkLoginBody "ann@example.com" "hash") twoCustomers
     = (json (JObj [("success", JBool true);
                    ("message", JStr "Login successful");
                    ("token",
                       JStr (jwt_sign (mkPayload (c_id c) (c_email c)
                                         (c_accountNumber c))));
                    ("customer", customerData c)]) 200, twoCustomers)) \/
  ((forall c, customerByEmail twoCustomers "ann@example.com" = Some c ->
              bcrypt_compare "hash" (c_password c) = false) /\
   login_POST (mkLoginBody "ann@example.com" "hash") twoCustomers
   = (json (failBody "Invalid email or password") 401, twoCustomers)).
Proof.
  apply (login_outcomes (mkLoginBody "ann@example.com" "hash") twoCustomers);
    reflexivity.
Defined.

Lemma changePassword_effect_witness :
  let res := changePassword_POST annRequest annNewPassword twoCustomers in
  (status (fst res) = 200 /\
   exists decoded customer,
     authenticateRequest annRequest = Some decoded /\
     customerById twoCustomers (customerId decoded) = Some customer /\
     bcrypt_compare (currentPassword annNewPassword) (c_password customer)
       = true /\
     customerById (snd res) (customerId decoded)
       = Some (set_password customer
                 (bcrypt_hash (newPassword annNewPassword))) /\
     (forall i, i <> customerId decoded ->
                customerById (snd res) i = customerById twoCustomers i) /\
     transactions (snd res) = transactions twoCustomers) \/
  (status (fst res) <> 200 /\ snd res = twoCustomers).
Proof.
  apply (changePassword_effect annRequest annNewPassword twoCustomers).
  apply surjective_pairing.
Defined.

(** Ann changes her password and logs in with the new one. *)
Lemma changePassword_then_login_witness :
  exists r',
    login_POST (mkLoginBody "ann@example.com" "newsecret")
      (snd (changePassword_POST annRequest annNewPassword twoCustomers))
    = (r', snd (changePassword_POST annRequest annNewPassword twoCustomers)) /\
    status r' = 200 /\
    get "id" (get "customer" (body r')) = JId 1.
Proof.
  refine (changePassword_then_login annRequest annNewPassword twoCustomers
            (snd (changePassword_POST annRequest annNewPassword twoCustomers))
            (fst (changePassword_POST annRequest annNewPassword twoCustomers))
            (mkPayload 1 "ann@example.com" "1000000001") (ann 100%float)
            "ann@example.com" twoCustomers_wf _ _ _ _ _ _ _).
  - apply surjective_pairing.
  - vm_compute. reflexivity.
  - reflexivity.
  - reflexivity.
  - reflexivity.
  - reflexivity.
  - vm_compute. reflexivity.
Defined.

Lemma changePin_effect_witness :
  let res := changePin_POST annRequest annNewPin twoCustomers in
  (status (fst res) = 200 /\
   isPin (newPin annNewPin) = true /\
   exists decoded customer,
     authenticateRequest annRequest = Some decoded /\
     customerById twoCustomers (customerId decoded) = Some customer /\
     bcrypt_compare (currentPin annNewPin) (c_transactionPin customer)
       = true /\
     customerById (snd res) (customerId decoded)
       = Some (set_transactionPin customer
                 (bcrypt_hash (newPin annNewPin))) /\
     (forall i, i <> customerId decoded ->
                customerById (snd res) i = customerById twoCustomers i) /\
     transactions (snd res) = transactions twoCustomers) \/
  (status (fst res) <> 200 /\ snd res = twoCustomers).
Proof.
  apply (changePin_effect annRequest annNewPin twoCustomers).
  apply surjective_pairing.
Defined.

(** A deposit, a registration, a transfer, an update and a deletion in
    a row. *)
Lemma api_keeps_invariants_witness :
  let calls :=
    [AdminDeposit true 1000 (mkDepositBody "1000000001" (Some 50%float) "");
     Register half carol;
     AdminTransfer true 2000 transferToBob;
     AdminUpdateCustomer true 1 annUpdate;
     AdminDeleteCustomer true 2] in
  wf_db (afterAll calls twoCustomers) /\
  unique_keys (afterAll calls twoCustomers).
Proof.
  apply (api_keeps_invariants _ twoCustomers).
  - exact twoCustomers_wf.
  - exact twoCustomers_unique.
Defined.

Lemma customer_DELETE_effect_witness :
  let res := customer_DELETE true 2 annPaidBob in
  (status (fst res) = 200 /\
   (exists c, customerById annPaidBob 2 = Some c) /\
   customerById (snd res) 2 = None /\
   (forall i, i <> 2 -> customerById (snd res) i = customerById annPaidBob i) /\
   transactions (snd res) = transactions annPaidBob) \/
  (status (fst res) <> 200 /\ snd res = annPaidBob).
Proof.
  apply (customer_DELETE_effect true 2 annPaidBob).
  - exact annPaidBob_wf.
  - apply surjective_pairing.
Defined.

(** Bob is deleted; Ann asks for her statement. *)
Lemma statement_after_counterparty_deleted_witness :
  statement_GET annRequest wholePeriod 6000
    (snd (customer_DELETE true 2 annPaidBob))
  = (json (failBody "Internal server error") 500,
     snd (customer_DELETE true 2 annPaidBob)).
Proof.
  refine (statement_after_counterparty_deleted 2 annRequest wholePeriod 6000
            annPaidBob (snd (customer_DELETE true 2 annPaidBob))
            (fst (customer_DELETE true 2 annPaidBob))
            (mkPayload 1 "ann@example.com" "1000000001") (ann 70%float)
            (mkTransaction 3 1 2 30%float "Transfer" 1000%Z)
            annPaidBob_wf _ _ _ _ _ _ _ _ _).
  - apply surjective_pairing.
  - reflexivity.
  - reflexivity.
  - cbn. lia.
  - reflexivity.
  - vm_compute. discriminate.
  - left. reflexivity.
  - reflexivity.
  - right. reflexivity.
Defined.

(** Ann is deleted and presents her token. *)
Lemma deleted_customer_token_witness :
  verify_GET annRequest (snd (customer_DELETE true 1 twoCustomers))
  = (json (failBody "Customer not found") 404,
     snd (customer_DELETE true 1 twoCustomers)) /\
  statement_GET annRequest wholePeriod 6000
    (snd (customer_DELETE true 1 twoCustomers))
  = (json (failBody "Customer not found") 404,
     snd (customer_DELETE true 1 twoCustomers)).
Proof.
  refine (deleted_customer_token annRequest wholePeriod 6000 twoCustomers
            (snd (customer_DELETE true 1 twoCustomers))
            (fst (customer_DELETE true 1 twoCustomers))
            (mkPayload 1 "ann@example.com" "1000000001")
            twoCustomers_wf _ _ _ _).
  - apply surjective_pairing.
  - reflexivity.
  - reflexivity.
  - vm_compute. discriminate.
Defined.


Lemma customer_PUT_effect_witness :
  let res := customer_PUT true 1 annUpdate twoCustomers in
  (status (fst res) = 200 /\
   exists existing updated,
     customerById twoCustomers 1 = Some existing /\
     customerById (snd res) 1 = Some updated /\
     c_id updated = 1 /\
     c_accountNumber updated = c_accountNumber existing /\
     c_balance updated
       = match u_balance annUpdate with
         | Some balance => if falsy balance then lit 0 else balance
         | None => lit 0
         end /\
     c_password updated
       = (if notBlank (u_password annUpdate)
          then bcrypt_hash (trim (u_password annUpdate))
          else c_password existing) /\
     c_transactionPin updated
       = (if notBlank (u_transactionPin annUpdate)
          then bcrypt_hash (trim (u_transactionPin annUpdate))
          else c_transactionPin existing) /\
     (notBlank (u_transactionPin annUpdate) = true ->
      isPin (trim (u_transactionPin annUpdate)) = true) /\
     (forall i, i <> 1 ->
                customerById (snd res) i = customerById twoCustomers i) /\
     transactions (snd res) = transactions twoCustomers) \/
  (status (fst res) <> 200 /\ snd res = twoCustomers).
Proof.
  apply (customer_PUT_effect true 1 annUpdate twoCustomers).
  apply surjective_pairing.
Defined.

Lemma site_settings_singleton_witness :
  Forall (fun a : Response float * SiteDb =>
            List.length (sites (snd a)) <= 1 /\
            (status (fst a) = 200 -> List.length (sites (snd a)) = 1))
    [site_GET true 1000 noSite; site_PUT true 1000 headOffice noSite;
     customer_site_GET annRequest 1000 noSite].
Proof.
  apply (site_settings_singleton true annRequest 1000 headOffice noSite).
  cbn. lia.
Defined.

(** The head office is stored on an empty collection and read back. *)
Lemma site_settings_round_trip_witness :
  exists id created updated,
    site_GET (N:=float) true 2000 (snd (site_PUT (N:=float) true 1000 headOffice noSite))
    = (json (JObj [
         ("site", JObj [("_id", JId id);
                        ("phone", JStr (sb_phone headOffice));
                        ("email", JStr (sb_email headOffice));
                        ("address", JStr (sb_address headOffice));
                        ("city", JStr (sb_city headOffice));
                        ("state", JStr (sb_state headOffice));
                        ("zip", JStr (sb_zip headOffice));
                        ("country", JStr (sb_country headOffice));
                        ("createdAt", JDate created);
                        ("updatedAt", JDate updated)])]) 200,
       snd (site_PUT (N:=float) true 1000 headOffice noSite)) /\
    customer_site_GET (N:=float) annRequest 2000
      (snd (site_PUT (N:=float) true 1000 headOffice noSite))
    = (json (JObj [
         ("success", JBool true);
         ("site", JObj [
            ("contact", JObj [("phone", JStr (sb_phone headOffice));
                              ("email", JStr (sb_email headOffice))]);
            ("address", JObj [("street", JStr (sb_address headOffice));
                              ("city", JStr (sb_city headOffice));
                              ("state", JStr (sb_state headOffice));
                              ("zip", JStr (sb_zip headOffice));
                              ("country", JStr (sb_country headOffice))]);
            ("lastUpdated", JDate updated)])]) 200,
       snd (site_PUT (N:=float) true 1000 headOffice noSite)).
Proof.
  refine (site_settings_round_trip 1000 2000 headOffice noSite
            (snd (site_PUT (N:=float) true 1000 headOffice noSite))
            (fst (site_PUT (N:=float) true 1000 headOffice noSite))
            annRequest (mkPayload 1 "ann@example.com" "1000000001") _ _ _).
  - apply surjective_pairing.
  - reflexivity.
  - reflexivity.
Defined.

End MoreExamples.
